(** * Verification of grumpy's [compiler/util.py]

    A shallow embedding of the Go code generation utilities of the grumpy
    compiler: the module path resolver [Path], the [Import] model, the
    [ImportVisitor], the indentation-aware [Writer] and the literal helper
    [go_str], together with the properties stated about them.

    Conventions of the embedding:
    - Python strings are [string] (the bytes of their UTF-8 encoding);
      the characters iterated over by [go_str] are code points, [N];
    - Python integers are [Z];
    - [None] is [option]'s [None], and Python truthiness is written out
      ([Py.truthy]);
    - code that raises or mutates runs in a state-and-exception monad;
    - objects that are aliased ([Import]s held in [self.imports] and in a
      local variable at once) live in a store and are named by address. *)

From stdpp Require Import base list strings sorting.
From Stdlib Require Import ZArith NArith Lia Bool Ascii String.
From Stdlib Require Import Decimal DecimalString DecimalZ.
From Stdlib Require Hexadecimal HexadecimalString HexadecimalPos HexadecimalN.

Local Open Scope char_scope.
Local Open Scope stdpp_scope.

(** String concatenation computes by [simpl] again. *)
#[local] Arguments String.append !_ _ / : simpl nomatch.

(* ================================================================== *)
(** * Python built-ins used by the module *)
(* ================================================================== *)

Module Py.

(** Characters that cannot be written inside a string literal here. *)
Definition dquote : ascii := "034".
Definition backslash : ascii := "092".
Definition tab : ascii := "009".
Definition cr : ascii := "013".
Definition lf : ascii := "010".

Definition chr (a : ascii) : string := String a EmptyString.

(** [str(n)] for an integer. *)
Definition str_int (n : Z) : string :=
  DecimalString.NilZero.string_of_int (Z.to_int n).

(** ['{:02x}'.format(n)] for a non-negative integer: lower-case
    hexadecimal, padded on the left with zeros to two digits. *)
Definition hex (n : N) : string :=
  HexadecimalString.NilZero.string_of_uint (N.to_hex_uint n).

Fixpoint zeros (k : nat) : string :=
  match k with
  | O => ""
  | S k' => String "0" (zeros k')
  end.

Definition format_02x (n : N) : string :=
  let h := hex n in zeros (2 - String.length h) +:+ h.

(** [s * n]: repetition; a count below one gives the empty string. *)
Fixpoint repeat_string (s : string) (k : nat) : string :=
  match k with
  | O => ""
  | S k' => s +:+ repeat_string s k'
  end.

Definition str_mul (s : string) (n : Z) : string :=
  repeat_string s (Z.to_nat n).

(** [s.startswith(p)]. *)
Definition startswith (s p : string) : bool := String.prefix p s.

(** [s[n:]]. *)
Fixpoint drop_chars (n : nat) (s : string) : string :=
  match n, s with
  | O, _ => s
  | S n', String _ s' => drop_chars n' s'
  | S _, EmptyString => EmptyString
  end.

(** [s.count(c)] for a one-character [c]. *)
Fixpoint count (c : ascii) (s : string) : Z :=
  match s with
  | EmptyString => 0
  | String a s' => (if Ascii.eqb a c then 1 else 0) + count c s'
  end.

(** [s.split(c)] for a one-character separator: never empty. *)
Fixpoint split (c : ascii) (s : string) : list string :=
  match s with
  | EmptyString => [EmptyString]
  | String a s' =>
      if Ascii.eqb a c then EmptyString :: split c s'
      else match split c s' with
           | [] => [chr a]
           | w :: ws => String a w :: ws
           end
  end.

(** [len(l)] as a Python integer. *)
Definition len {A} (l : list A) : Z := Z.of_nat (List.length l).

(** Truthiness of a string, and of a string or [None]. *)
Definition truthy_str (s : string) : bool :=
  match s with EmptyString => false | _ => true end.

Definition truthy (o : option string) : bool :=
  match o with Some s => truthy_str s | None => false end.

(** [a or b] where [a] is a string or [None]. *)
Definition or_else (a : option string) (b : string) : string :=
  match a with
  | Some s => if truthy_str s then s else b
  | None => b
  end.

(** The constants of the [string] module (C locale). *)
Definition string_digits : string := "0123456789".
Definition string_letters : string :=
  "abcdefghijklmnopqrstuvwxyzABCDEFGHIJKLMNOPQRSTUVWXYZ".
Definition string_punctuation : string :=
  "!" +:+ chr dquote +:+ "#$%&'()*+,-./:;<=>?@[\]^_`{|}~".

End Py.

(* ================================================================== *)
(** * Module constants *)
(* ================================================================== *)

Definition _SIMPLE_CHARS : string :=
  Py.string_digits +:+ Py.string_letters +:+ Py.string_punctuation +:+ " ".

(** Keys are code points; [r'\t'] is the two characters backslash, t. *)
Definition _ESCAPES : list (N * string) :=
  [ (9%N, "\t"); (13%N, "\r"); (10%N, "\n");
    (34%N, "\" +:+ Py.chr Py.dquote); (92%N, "\\") ].

Definition _NATIVE_MODULE_PREFIX : string := "__go__.".

(* ================================================================== *)
(** * [go_str] *)
(* ================================================================== *)

(** [c in _ESCAPES] and [_ESCAPES[c]]. *)
Fixpoint escapes_get (c : N) (tbl : list (N * string)) : option string :=
  match tbl with
  | [] => None
  | (k, v) :: tbl' => if N.eqb c k then Some v else escapes_get c tbl'
  end.

(** [c in _SIMPLE_CHARS]: the set holds one-character strings. *)
Fixpoint in_chars (c : N) (set : string) : bool :=
  match set with
  | EmptyString => false
  | String a set' => N.eqb c (N_of_ascii a) || in_chars c set'
  end.

(** What one iteration of the loop of [go_str] writes. *)
Definition go_str_char (c : N) : string :=
  match escapes_get c _ESCAPES with
  | Some e => e
  | None =>
      if in_chars c _SIMPLE_CHARS then Py.chr (ascii_of_N c)
      else "\x" +:+ Py.format_02x c
  end.

Definition go_str (value : list N) : string :=
  let io := Py.chr Py.dquote in
  let io := fold_left (fun io c => io +:+ go_str_char c) value io in
  io +:+ Py.chr Py.dquote.

(** ** Reading a Go string literal back

    The interior of an interpreted Go string literal, read with the
    standard meaning of its escapes. The definitions of this section
    follow the wording of the properties (they are what [go_str] is
    compared with), not the source. *)

Definition hex_digit_value (a : ascii) : option N :=
  let n := N_of_ascii a in
  if (48 <=? n)%N && (n <=? 57)%N then Some (n - 48)%N
  else if (97 <=? n)%N && (n <=? 102)%N then Some (n - 87)%N
  else if (65 <=? n)%N && (n <=? 70)%N then Some (n - 55)%N
  else None.

Definition is_hex_digit (a : ascii) : bool :=
  match hex_digit_value a with Some _ => true | None => false end.

Definition simple_escape_value (e : ascii) : option N :=
  if Ascii.eqb e "t" then Some 9%N
  else if Ascii.eqb e "r" then Some 13%N
  else if Ascii.eqb e "n" then Some 10%N
  else if Ascii.eqb e Py.dquote then Some 34%N
  else if Ascii.eqb e Py.backslash then Some 92%N
  else None.

(** A character that may stand for itself inside the quotes. *)
Definition is_plain (a : ascii) : bool :=
  negb (Ascii.eqb a Py.backslash) && negb (Ascii.eqb a Py.dquote)
  && negb (Ascii.eqb a Py.lf) && negb (Ascii.eqb a Py.cr).

Fixpoint go_unescape (s : string) : option (list N) :=
  match s with
  | EmptyString => Some []
  | String a rest =>
      if Ascii.eqb a Py.backslash then
        match rest with
        | EmptyString => None
        | String e rest' =>
            match simple_escape_value e with
            | Some v => option_map (cons v) (go_unescape rest')
            | None =>
                if Ascii.eqb e "x" then
                  match rest' with
                  | String h1 (String h2 rest'') =>
                      match hex_digit_value h1, hex_digit_value h2 with
                      | Some v1, Some v2 =>
                          option_map (cons (16 * v1 + v2)%N) (go_unescape rest'')
                      | _, _ => None
                      end
                  | _ => None
                  end
                else None
            end
        end
      else if is_plain a then option_map (cons (N_of_ascii a)) (go_unescape rest)
      else None
  end.

(** The interior holds only complete escape sequences and plain
    characters: no raw quote, backslash or line break. *)
Fixpoint well_escaped (s : string) : bool :=
  match s with
  | EmptyString => true
  | String a rest =>
      if Ascii.eqb a Py.backslash then
        match rest with
        | EmptyString => false
        | String e rest' =>
            match simple_escape_value e with
            | Some _ => well_escaped rest'
            | None =>
                if Ascii.eqb e "x" then
                  match rest' with
                  | String h1 (String h2 rest'') =>
                      is_hex_digit h1 && is_hex_digit h2 && well_escaped rest''
                  | _ => false
                  end
                else false
            end
        end
      else is_plain a && well_escaped rest
  end.

(** Printable ASCII, space included. *)
Definition is_printable (a : ascii) : bool :=
  (32 <=? N_of_ascii a)%N && (N_of_ascii a <=? 126)%N.

Fixpoint all_chars (p : ascii -> bool) (s : string) : bool :=
  match s with
  | EmptyString => true
  | String a s' => p a && all_chars p s'
  end.

(** The characters of [str(n)]: digits and the minus sign. *)
Definition is_int_char (a : ascii) : bool :=
  Ascii.eqb a "-" || ((48 <=? N_of_ascii a)%N && (N_of_ascii a <=? 57)%N).

Definition not_lf (a : ascii) : bool := negb (Ascii.eqb a Py.lf).

(** Removing the opening and the closing quote of a literal. *)
Fixpoint drop_closing_quote (s : string) : option string :=
  match s with
  | EmptyString => None
  | String a EmptyString =>
      if Ascii.eqb a Py.dquote then Some EmptyString else None
  | String a rest => option_map (String a) (drop_closing_quote rest)
  end.

Definition strip_quotes (s : string) : option string :=
  match s with
  | EmptyString => None
  | String q body =>
      if Ascii.eqb q Py.dquote then drop_closing_quote body else None
  end.

(** The string a quoted literal denotes. *)
Definition go_unquote (s : string) : option (list N) :=
  match strip_quotes s with
  | Some interior => go_unescape interior
  | None => None
  end.

(** The number a string of hexadecimal digits denotes, read from the
    left. *)
Fixpoint hex_value_from (acc : N) (digits : string) : option N :=
  match digits with
  | EmptyString => Some acc
  | String a rest =>
      match hex_digit_value a with
      | Some v => hex_value_from (16 * acc + v)%N rest
      | None => None
      end
  end.

Definition is_lower_hex (a : ascii) : bool :=
  let n := N_of_ascii a in
  ((48 <=? n)%N && (n <=? 57)%N) || ((97 <=? n)%N && (n <=? 102)%N).

(** The text that stands for one character inside the quotes, in the
    words of the property: the five characters of the escape table are
    written as their escapes, the double quote and the backslash among
    them; any other printable ASCII character stands for itself; any
    other character is a backslash, [x] and its code in lower-case
    hexadecimal digits, two of them up to 255 and no more than needed
    beyond. *)
Inductive char_literal : N -> string -> Prop :=
| literal_tab : char_literal 9 "\t"
| literal_cr : char_literal 13 "\r"
| literal_lf : char_literal 10 "\n"
| literal_quote : char_literal 34 ("\" +:+ Py.chr Py.dquote)
| literal_backslash : char_literal 92 "\\"
| literal_plain (c : N) :
    (32 <= c <= 126)%N -> c <> 34%N -> c <> 92%N ->
    char_literal c (Py.chr (ascii_of_N c))
| literal_hex (c : N) (digits : string) :
    ~ (32 <= c <= 126)%N -> c <> 9%N -> c <> 13%N -> c <> 10%N ->
    all_chars is_lower_hex digits = true ->
    hex_value_from 0 digits = Some c ->
    2 <= String.length digits ->
    (String.length digits = 2 \/ Py.startswith digits "0" = false) ->
    char_literal c ("\x" +:+ digits).

(** The characters for which the losslessness of [go_str] is stated:
    printable ASCII (space, quote and backslash included), tab, carriage
    return and line feed. *)
Definition lossless_char (c : N) : Prop :=
  (32 <= c <= 126)%N \/ c = 9%N \/ c = 13%N \/ c = 10%N.

(** The text between the quotes that [go_str] produces. *)
Fixpoint go_str_interior (value : list N) : string :=
  match value with
  | [] => EmptyString
  | c :: value' => go_str_char c +:+ go_str_interior value'
  end.

(* ================================================================== *)
(** * Exceptions and the monad of mutating code *)
(* ================================================================== *)

(** [ParseError] and [ImportError] are the two subclasses of
    [CompileError]; [KeyError] and [ValueError] are the built-in ones that
    [string.Template.substitute] and a dictionary lookup raise, and
    [AttributeError] the one a method call on [None] raises. *)
Inductive exception : Type :=
| CompileError (msg : string)
| ParseError (msg : string)
| ImportError (msg : string)
| KeyError (key : string)
| ValueError (msg : string)
| AttributeError (msg : string).

Inductive outcome (A : Type) : Type :=
| Return (a : A)
| Raise (e : exception).
Arguments Return {A} a.
Arguments Raise {A} e.

(** A computation on a mutable state [S]. An exception leaves the state as
    it was mutated up to the point of the [raise]. *)
Definition M (S A : Type) : Type := S -> outcome A * S.

Definition ret {S A} (a : A) : M S A := fun s => (Return a, s).

Definition raise {S A} (e : exception) : M S A := fun s => (Raise e, s).

Definition bind {S A B} (m : M S A) (k : A -> M S B) : M S B :=
  fun s =>
    match m s with
    | (Return a, s') => k a s'
    | (Raise e, s') => (Raise e, s')
    end.

Notation "x <- m ;; k" := (bind m (fun x => k))
  (at level 100, m at next level, right associativity).
Notation "m ;;; k" := (bind m (fun _ => k))
  (at level 100, right associativity).

(** [for x in l: body(x)]. *)
Fixpoint for_each {S A} (l : list A) (body : A -> M S unit) : M S unit :=
  match l with
  | [] => ret tt
  | x :: l' => body x ;;; for_each l' body
  end.

(** [CompileError.__init__]: the message is prefixed with the line of the
    node when the node has one. *)
Definition compile_error_msg (lineno : option Z) (msg : string) : string :=
  match lineno with
  | Some n => "line " +:+ Py.str_int n +:+ ": " +:+ msg
  | None => msg
  end.

(* ================================================================== *)
(** * [string.Template.substitute] *)
(* ================================================================== *)

Module Template.

Definition is_id_start (a : ascii) : bool :=
  let n := N_of_ascii a in
  Ascii.eqb a "_" || ((97 <=? n)%N && (n <=? 122)%N)
  || ((65 <=? n)%N && (n <=? 90)%N).

Definition is_id_char (a : ascii) : bool :=
  is_id_start a || ((48 <=? N_of_ascii a)%N && (N_of_ascii a <=? 57)%N).

Fixpoint lookup (name : string) (kwargs : list (string * string)) : option string :=
  match kwargs with
  | [] => None
  | (k, v) :: kwargs' => if String.eqb name k then Some v else lookup name kwargs'
  end.

Definition emit (kwargs : list (string * string)) (name : string)
           (rest : outcome string) : outcome string :=
  match lookup name kwargs with
  | None => Raise (KeyError name)
  | Some v =>
      match rest with
      | Return r => Return (v +:+ r)
      | Raise e => Raise e
      end
  end.

Definition prepend (a : ascii) (rest : outcome string) : outcome string :=
  match rest with
  | Return r => Return (String a r)
  | Raise e => Raise e
  end.

(** Where [_invalid] finds a placeholder: whether the character before
    was a carriage return, the number of the line, and the number of
    characters of that line read so far. The template is a Unicode
    string, held here as its UTF-8 bytes: a character is counted at its
    first byte. *)
Definition position : Type := bool * (N * N).

Definition start : position := (false, (1%N, 0%N)).

Definition is_continuation (a : ascii) : bool :=
  (128 <=? N_of_ascii a)%N && (N_of_ascii a <=? 191)%N.

(** The line boundaries of [unicode.splitlines]: line feed, vertical
    tab, form feed, carriage return, the separators U+001C to U+001E,
    and U+0085, U+2028, U+2029. *)
Definition breaks_line (a : ascii) (rest : string) : bool :=
  let n := N_of_ascii a in
  ((10 <=? n)%N && (n <=? 13)%N) || ((28 <=? n)%N && (n <=? 30)%N)
  || ((n =? 194)%N && Py.startswith rest (Py.chr (ascii_of_N 133)))
  || ((n =? 226)%N
      && (Py.startswith rest (String (ascii_of_N 128) (Py.chr (ascii_of_N 168)))
          || Py.startswith rest (String (ascii_of_N 128) (Py.chr (ascii_of_N 169))))).

(** The position once [a], which [rest] follows, is read; a line feed
    after a carriage return belongs to the same boundary. *)
Definition advance (p : position) (a : ascii) (rest : string) : position :=
  let '(after_cr, (line, col)) := p in
  if is_continuation a then (false, (line, col))
  else if after_cr && Ascii.eqb a Py.lf then (false, (line, col))
  else if breaks_line a rest then (Ascii.eqb a Py.cr, ((line + 1)%N, 0%N))
  else (false, (line, (col + 1)%N)).

(** [_invalid]: the line and the column of the dollar sign. *)
Definition invalid (p : position) : outcome string :=
  let '(_, (line, col)) := p in
  Raise (ValueError ("Invalid placeholder in string: line "
                     +:+ Py.str_int (Z.of_N line) +:+ ", col "
                     +:+ Py.str_int (Z.of_N col))).

Inductive mode : Type :=
| Text                      (* outside a placeholder *)
| Named (name : string)     (* after [$], reading an identifier *)
| Braced (at_ : position) (name : string).
                            (* after [${], reading up to [}] *)

(** One pass over the template: [$$] is a dollar, [$name] and [${name}]
    are replaced by [kwargs[name]], any other [$] is invalid. [p] is the
    position before [tmpl]. *)
Fixpoint go (kwargs : list (string * string)) (p : position) (m : mode)
         (tmpl : string) : outcome string :=
  let text (a : ascii) (rest : string) : outcome string :=
    let p' := advance p a rest in
    if Ascii.eqb a "$" then
      match rest with
      | EmptyString => invalid p'
      | String b rest' =>
          let p'' := advance p' b rest' in
          if Ascii.eqb b "$" then prepend "$" (go kwargs p'' Text rest')
          else if Ascii.eqb b "{" then go kwargs p'' (Braced p' EmptyString) rest'
          else if is_id_start b then go kwargs p'' (Named (Py.chr b)) rest'
          else invalid p'
      end
    else prepend a (go kwargs p' Text rest) in
  match tmpl with
  | EmptyString =>
      match m with
      | Text => Return EmptyString
      | Named name => emit kwargs name (Return EmptyString)
      | Braced at_ _ => invalid at_
      end
  | String a rest =>
      match m with
      | Text => text a rest
      | Named name =>
          if is_id_char a
          then go kwargs (advance p a rest) (Named (name +:+ Py.chr a)) rest
          else emit kwargs name (text a rest)
      | Braced at_ name =>
          if Ascii.eqb a "}" then
            match name with
            | EmptyString => invalid at_
            | _ => emit kwargs name (go kwargs (advance p a rest) Text rest)
            end
          else if (match name with EmptyString => is_id_start a | _ => is_id_char a end)
          then go kwargs (advance p a rest) (Braced at_ (name +:+ Py.chr a)) rest
          else invalid at_
      end
  end.

Definition substitute (tmpl : string) (kwargs : list (string * string))
  : outcome string :=
  go kwargs start Text tmpl.

End Template.

(* ================================================================== *)
(** * [Writer] *)
(* ================================================================== *)

(** [out] is the buffer behind the UTF-8 stream writer: what [getvalue]
    decodes. *)
Record Writer : Type := mkWriter {
  out : string;
  indent_level : Z
}.

(** [Writer()]. *)
Definition Writer_init : Writer := {| out := EmptyString; indent_level := 0 |}.

Definition getvalue (w : Writer) : string := out w.

Definition indent (n : Z) : M Writer unit :=
  fun w => (Return tt, {| out := out w; indent_level := indent_level w + n |}).

Definition dedent (n : Z) : M Writer unit :=
  fun w => (Return tt, {| out := out w; indent_level := indent_level w - n |}).

(** [with self.indent_block(n): body]. The context manager is a generator
    wrapped by [contextlib.contextmanager]: entering runs it up to its
    [yield]; leaving normally resumes it after the [yield]; when [body]
    raises, the exception is thrown into the generator at the [yield],
    which sits in no [try] block, so the generator ends there and the
    exception goes on: what follows the [yield] is not run. *)
Definition indent_block (n : Z) (body : M Writer unit) : M Writer unit :=
  indent n ;;; body ;;; dedent n.

(** One line of [write]: the text [out.write] receives. *)
Definition indented_line (level : Z) (line : string) : string :=
  Py.str_mul (Py.chr Py.tab) level +:+ line +:+ Py.chr Py.lf.

Definition write_line (line : string) : M Writer unit :=
  fun w =>
    if Py.truthy_str line
    then (Return tt, {| out := out w +:+ indented_line (indent_level w) line;
                        indent_level := indent_level w |})
    else (Return tt, w).

Definition write (output : string) : M Writer unit :=
  for_each (Py.split Py.lf output) write_line.

Definition write_tmpl (tmpl : string) (kwargs : list (string * string))
  : M Writer unit :=
  match Template.substitute tmpl kwargs with
  | Return text => write text
  | Raise e => raise e
  end.

(** [write_block(block_, body)]; [checkpoints] is [block_.checkpoints] in
    the order its iteration yields. *)
Definition write_block (checkpoints : list Z) (body : string) : M Writer unit :=
  write "var πE *πg.BaseException; _ = πE" ;;;
  write "for ; πF.State() >= 0; πF.PopCheckpoint() {" ;;;
  indent_block 1 (
    write "switch πF.State() {" ;;;
    write "case 0:" ;;;
    for_each checkpoints (fun checkpoint =>
      write_tmpl "case $state: goto Label$state"
                 [("state", Py.str_int checkpoint)]) ;;;
    write ("default: panic(" +:+ Py.chr Py.dquote +:+ "unexpected function state"
           +:+ Py.chr Py.dquote +:+ ")") ;;;
    write "}" ;;;
    indent_block (-1) (write body) ;;;
    write "return nil, nil") ;;;
  write "}" ;;;
  write "return nil, πE".

(** A dictionary in insertion order; its keys are pairwise distinct. *)
Definition dict (V : Type) : Type := list (string * V).

Fixpoint dict_get {V} (d : dict V) (key : string) : option V :=
  match d with
  | [] => None
  | (k, v) :: d' => if String.eqb key k then Some v else dict_get d' key
  end.

Definition dict_keys {V} (d : dict V) : list string := map fst d.

(** [sorted(l)] on strings: a merge sort on the order of the characters. *)
Definition sorted (l : list string) : list string := merge_sort String.le l.

(** ['{} "{}"'.format(alias, name)]. *)
Definition import_entry (alias name : string) : string :=
  alias +:+ " " +:+ Py.chr Py.dquote +:+ name +:+ Py.chr Py.dquote.

(** [write_import_block(imports)]: [imports] maps a name to an object
    whose [alias] attribute is the string stored here. *)
Definition write_import_block (imports : dict string) : M Writer unit :=
  match imports with
  | [] => ret tt
  | _ =>
      write "import (" ;;;
      indent_block 1 (
        for_each (sorted (dict_keys imports)) (fun name =>
          match dict_get imports name with
          | Some alias => write (import_entry alias name)
          | None => raise (KeyError name)
          end)) ;;;
      write ")"
  end.

Definition write_label (label : Z) : M Writer unit :=
  indent_block (-1) (write ("Label" +:+ Py.str_int label +:+ ":")).

(** ** The text a sequence of writes leaves in the buffer *)

(** The lines [write] keeps: the non-empty ones. *)
Definition kept_lines (output : string) : list string :=
  filter (fun line => Py.truthy_str line = true) (Py.split Py.lf output).

(** [lines] written one after the other at depth [level]. *)
Fixpoint rendered (level : Z) (lines : list string) : string :=
  match lines with
  | [] => EmptyString
  | line :: lines' => indented_line level line +:+ rendered level lines'
  end.

Definition append_out (w : Writer) (text : string) : Writer :=
  {| out := out w +:+ text; indent_level := indent_level w |}.

(** The clause of the dispatch switch for one checkpoint. *)
Definition case_line (state : Z) : string :=
  "case " +:+ Py.str_int state +:+ ": goto Label" +:+ Py.str_int state.

(** A computation that, when it returns, has put the depth back. *)
Definition balanced (body : M Writer unit) : Prop :=
  forall w u w', body w = (Return u, w') -> indent_level w' = indent_level w.

(** The text of one function block at depth [level]: the loop on the
    frame state, the dispatch switch with one clause per checkpoint, the
    body at the depth of the surrounding code, and the two returns. *)
Definition block_text (level : Z) (checkpoints : list Z) (body : string) : string :=
  rendered level
    [ "var πE *πg.BaseException; _ = πE";
      "for ; πF.State() >= 0; πF.PopCheckpoint() {" ]
  +:+ rendered (level + 1)
        ([ "switch πF.State() {"; "case 0:" ]
         ++ map case_line checkpoints
         ++ [ "default: panic(" +:+ Py.chr Py.dquote
                +:+ "unexpected function state" +:+ Py.chr Py.dquote +:+ ")";
              "}" ])
  +:+ rendered level (kept_lines body)
  +:+ rendered (level + 1) [ "return nil, nil" ]
  +:+ rendered level [ "}"; "return nil, πE" ].

(** The text the property gives for a block with an empty body at depth
    0, in its words: state 0 has the empty clause, every other checkpoint
    of the set a jump to its label, and the rest is the panic. *)
Definition claimed_block_text (checkpoints : list Z) : string :=
  rendered 0
    [ "var πE *πg.BaseException; _ = πE";
      "for ; πF.State() >= 0; πF.PopCheckpoint() {" ]
  +:+ rendered 1
        ([ "switch πF.State() {"; "case 0:" ]
         ++ map case_line (List.filter (fun N => negb (N =? 0)%Z) checkpoints)
         ++ [ "default: panic(" +:+ Py.chr Py.dquote
                +:+ "unexpected function state" +:+ Py.chr Py.dquote +:+ ")";
              "}"; "return nil, nil" ])
  +:+ rendered 0 [ "}"; "return nil, πE" ].

(** The text of the entries of an import block, one entry per pair
    (absolute name, alias), in the order of the list. *)
Fixpoint entries_text (level : Z) (entries : list (string * string)) : string :=
  match entries with
  | [] => EmptyString
  | (name, alias) :: entries' =>
      rendered level (kept_lines (import_entry alias name))
      +:+ entries_text level entries'
  end.

(** The items of a dictionary in the order of [sorted(imports)]. *)
Definition sorted_items (imports : dict string) : list (string * string) :=
  omap (fun name => option_map (pair name) (dict_get imports name))
       (sorted (dict_keys imports)).

(** The item of a dictionary found under a key. *)
Definition dict_item (d : dict string) (name : string) : string * string :=
  (name, default EmptyString (dict_get d name)).

(* ================================================================== *)
(** * [os.path] (POSIX) *)
(* ================================================================== *)

Module OsPath.

Definition sep : ascii := "/".
Definition pathsep : ascii := ":".

Fixpoint endswith_sep (s : string) : bool :=
  match s with
  | EmptyString => false
  | String a EmptyString => Ascii.eqb a sep
  | String _ s' => endswith_sep s'
  end.

(** One step of [os.path.join]: an absolute component starts over. *)
Definition join2 (path b : string) : string :=
  if Py.startswith b (Py.chr sep) then b
  else if negb (Py.truthy_str path) || endswith_sep path then path +:+ b
  else path +:+ Py.chr sep +:+ b.

(** [os.path.join(a, *p)]. *)
Definition join (a : string) (p : list string) : string :=
  fold_left join2 p a.

(** [(p[:i], p[i:])] for [i = p.rfind('/') + 1]. *)
Fixpoint cut_last_sep (p : string) : string * string :=
  match p with
  | EmptyString => (EmptyString, EmptyString)
  | String a p' =>
      let (head, tail) := cut_last_sep p' in
      if Ascii.eqb a sep then (String a head, tail)
      else match head with
           | EmptyString => (EmptyString, String a tail)
           | _ => (String a head, tail)
           end
  end.

(** [s.rstrip('/')]. *)
Fixpoint rstrip_sep (s : string) : string :=
  match s with
  | EmptyString => EmptyString
  | String a s' =>
      match rstrip_sep s' with
      | EmptyString => if Ascii.eqb a sep then EmptyString else Py.chr a
      | r => String a r
      end
  end.

(** [os.path.split(p)]. *)
Definition split (p : string) : string * string :=
  let (head, tail) := cut_last_sep p in
  if Py.truthy_str head && negb (all_chars (fun a => Ascii.eqb a sep) head)
  then (rstrip_sep head, tail)
  else (head, tail).

End OsPath.

(* ================================================================== *)
(** * [Path] *)
(* ================================================================== *)

(** More Python built-ins, on module names. *)

(** [s.replace(a, b)] for one-character [a] and [b]. *)
Fixpoint str_replace (a b : ascii) (s : string) : string :=
  match s with
  | EmptyString => EmptyString
  | String c s' => String (if Ascii.eqb c a then b else c) (str_replace a b s')
  end.

(** [s.find(c) != -1] for a one-character [c]. *)
Fixpoint str_contains (c : ascii) (s : string) : bool :=
  match s with
  | EmptyString => false
  | String a s' => Ascii.eqb a c || str_contains c s'
  end.

(** [s[:s.rfind(c)]] when [c] occurs in [s]. *)
Fixpoint before_last (c : ascii) (s : string) : string :=
  match s with
  | EmptyString => EmptyString
  | String a s' => if str_contains c s' then String a (before_last c s')
                   else EmptyString
  end.

(** ['{}'.format(x)] for a string or [None]. *)
Definition format_opt (x : option string) : string :=
  match x with Some s => s | None => "None" end.

Record Path : Type := mkPath {
  dirs : list string;
  package_dir : option string;
  package_name : option string
}.

Section FileSystem.

(** [os.path.isfile]: the state of the file system. *)
Variable isfile : string -> bool.

(** [Path.__init__(gopath, modname, script)]. *)
Definition Path_init (gopath modname script : string) : Path :=
  let dirs :=
    if Py.truthy_str gopath
    then map (fun d => OsPath.join d ["src"; "__python__"])
             (Py.split OsPath.pathsep gopath)
    else [] in
  let (dirname, basename) := OsPath.split script in
  if String.eqb basename "__init__.py" then
    {| dirs := dirs; package_dir := Some dirname; package_name := Some modname |}
  else if str_contains "." modname
          && isfile (OsPath.join dirname ["__init__.py"]) then
    {| dirs := dirs; package_dir := Some dirname;
       package_name := Some (before_last "." modname) |}
  else
    {| dirs := dirs; package_dir := None; package_name := None |}.

(** [Path._find_script(dirname, name)]. *)
Definition _find_script (dirname name : string) : option string :=
  let prefix := OsPath.join dirname [str_replace "." OsPath.sep name] in
  let script := prefix +:+ ".py" in
  if isfile script then Some script
  else
    let script := OsPath.join prefix ["__init__.py"] in
    if isfile script then Some script
    else None.

(** The loop of [resolve_import] over [self.dirs]. *)
Fixpoint resolve_in_dirs (dirs : list string) (modname : string)
  : option string * option string :=
  match dirs with
  | [] => (None, None)
  | dirname :: dirs' =>
      let script := _find_script dirname modname in
      if Py.truthy script then (Some modname, script)
      else resolve_in_dirs dirs' modname
  end.

(** [Path.resolve_import(modname)]: the full name and the script, or
    [(None, None)]. *)
Definition resolve_import (self : Path) (modname : string)
  : option string * option string :=
  let in_package :=
    match package_dir self with
    | Some package_dir =>
        if Py.truthy_str package_dir then
          let script := _find_script package_dir modname in
          if Py.truthy script
          then Some (Some (format_opt (package_name self) +:+ "." +:+ modname),
                     script)
          else None
        else None
    | None => None
    end in
  match in_package with
  | Some found => found
  | None => resolve_in_dirs (dirs self) modname
  end.

End FileSystem.

(* ================================================================== *)
(** * [Import] *)
(* ================================================================== *)

Inductive BindType : Type := MODULE | MEMBER.

(** The value of a binding: an integer for [MODULE], the name of the
    member for [MEMBER]. *)
Inductive BindValue : Type :=
| VInt (n : Z)
| VStr (s : string).

Record Binding : Type := mkBinding {
  bind_type : BindType;
  alias : string;
  value : BindValue
}.

Record Import : Type := mkImport {
  name : string;
  is_native : bool;
  bindings : list Binding
}.

(** [Import.add_binding] on the object itself. *)
Definition with_binding (imp : Import) (b : Binding) : Import :=
  {| name := name imp; is_native := is_native imp;
     bindings := bindings imp ++ [b] |}.

(* ================================================================== *)
(** * The import statements of the syntax tree *)
(* ================================================================== *)

Module ast.

(** One imported name: [name] or [name as asname]. *)
Record alias : Type := mkalias {
  name : string;
  asname : option string
}.

End ast.

(** [import a, b as c]. *)
Module ImportNode.
Record t : Type := mk {
  names : list ast.alias;
  lineno : option Z
}.
End ImportNode.

(** [from module import a, b as c]; [module] is [None] for
    [from . import a]. The level of a relative import is not read by the
    visitor. *)
Module ImportFromNode.
Record t : Type := mk {
  module : option string;
  names : list ast.alias;
  lineno : option Z
}.
End ImportFromNode.

(* ================================================================== *)
(** * [ImportVisitor] *)
(* ================================================================== *)

(** [Import] objects are shared between [self.imports] and local
    variables, and mutated through either: they live in [heap] and are
    named by their address. [queries] records, in order, the names
    [self.path.resolve_import] was called with. *)
Record ImportVisitor : Type := mkImportVisitor {
  path : Path;
  heap : list Import;
  imports : list nat;
  queries : list string
}.

(** [ImportVisitor(path)]. *)
Definition ImportVisitor_init (path : Path) : ImportVisitor :=
  {| path := path; heap := []; imports := []; queries := [] |}.

(** The [Import] objects of [self.imports], in order. *)
Definition imports_of (self : ImportVisitor) : list Import :=
  omap (fun addr => heap self !! addr) (imports self).

Section Visitor.

Variable isfile : string -> bool.

(** [Import(name, is_native)]: a new object. *)
Definition new_Import (name : string) (is_native : bool)
  : M ImportVisitor nat :=
  fun self =>
    (Return (List.length (heap self)),
     {| path := path self;
        heap := heap self ++ [{| name := name; is_native := is_native;
                                 bindings := [] |}];
        imports := imports self;
        queries := queries self |}).

(** [imp.name]. *)
Definition get_name (imp : nat) : M ImportVisitor string :=
  fun self => (Return (default EmptyString (name <$> heap self !! imp)), self).

(** [imp.add_binding(bind_type, alias, value)]. *)
Definition add_binding (imp : nat) (bind_type : BindType) (alias : string)
           (value : BindValue) : M ImportVisitor unit :=
  fun self =>
    (Return tt,
     {| path := path self;
        heap := alter (fun o => with_binding o (mkBinding bind_type alias value))
                      imp (heap self);
        imports := imports self;
        queries := queries self |}).

(** [self.imports.append(imp)]. *)
Definition imports_append (imp : nat) : M ImportVisitor unit :=
  fun self =>
    (Return tt,
     {| path := path self; heap := heap self;
        imports := imports self ++ [imp];
        queries := queries self |}).

(** [self.path.resolve_import(modname)]. *)
Definition path_resolve_import (modname : string)
  : M ImportVisitor (option string * option string) :=
  fun self =>
    (Return (resolve_import isfile (path self) modname),
     {| path := path self; heap := heap self; imports := imports self;
        queries := queries self ++ [modname] |}).

(** [ImportVisitor._resolve_import(node, name)]. *)
Definition _resolve_import (lineno : option Z) (modname : string)
  : M ImportVisitor nat :=
  r <- path_resolve_import modname ;;
  if negb (Py.truthy (fst r))
  then raise (ImportError (compile_error_msg lineno ("no such module: " +:+ modname)))
  else new_Import (format_opt (fst r)) false.

Definition native_import_msg : string :=
  "for native imports use " +:+ Py.chr Py.dquote
  +:+ "from __go__.xyz import ..." +:+ Py.chr Py.dquote +:+ " syntax".

(** The body of the loop of [visit_Import]. *)
Definition visit_Import_alias (lineno : option Z) (a : ast.alias)
  : M ImportVisitor unit :=
  if Py.startswith (ast.name a) _NATIVE_MODULE_PREFIX
  then raise (ImportError (compile_error_msg lineno native_import_msg))
  else
    imp <- _resolve_import lineno (ast.name a) ;;
    imp_name <- get_name imp ;;
    (if Py.truthy (ast.asname a)
     then add_binding imp MODULE (format_opt (ast.asname a))
                      (VInt (Py.count "." imp_name))
     else
       let parts := Py.split "." (ast.name a) in
       add_binding imp MODULE (List.last parts EmptyString)
                   (VInt (Py.count "." imp_name - Py.len parts + 1))) ;;;
    imports_append imp.

Definition visit_Import (node : ImportNode.t) : M ImportVisitor unit :=
  for_each (ImportNode.names node) (visit_Import_alias (ImportNode.lineno node)).

(** The loop of [visit_ImportFrom] over the imported names;
    [member_imp] is the local variable of that name. *)
Fixpoint visit_ImportFrom_loop (lineno : option Z) (module : string)
         (names : list ast.alias) (member_imp : option nat)
  : M ImportVisitor unit :=
  match names with
  | [] => ret tt
  | a :: names' =>
      let asname := Py.or_else (ast.asname a) (ast.name a) in
      r <- path_resolve_import (module +:+ "." +:+ ast.name a) ;;
      if Py.truthy (fst r) then
        imp <- new_Import (format_opt (fst r)) false ;;
        imp_name <- get_name imp ;;
        add_binding imp MODULE asname (VInt (Py.count "." imp_name)) ;;;
        imports_append imp ;;;
        visit_ImportFrom_loop lineno module names' member_imp
      else
        imp <-
          match member_imp with
          | Some imp => ret imp
          | None =>
              imp <- _resolve_import lineno module ;;
              imports_append imp ;;;
              ret imp
          end ;;
        add_binding imp MEMBER asname (VStr (ast.name a)) ;;;
        visit_ImportFrom_loop lineno module names' (Some imp)
  end.

(** The message of the [AttributeError] that [node.module.startswith]
    raises when [node.module] is [None]. *)
Definition none_startswith_msg : string :=
  "'NoneType' object has no attribute 'startswith'".

(** [visit_ImportFrom(node)]. [None == '__future__'] is false, and the
    test that follows calls a method of [node.module]. *)
Definition visit_ImportFrom (node : ImportFromNode.t) : M ImportVisitor unit :=
  let lineno := ImportFromNode.lineno node in
  if existsb (fun a => String.eqb (ast.name a) "*") (ImportFromNode.names node)
  then raise (ImportError (compile_error_msg lineno
         ("wildcard member import is not implemented: from "
          +:+ format_opt (ImportFromNode.module node) +:+ " import *")))
  else if match ImportFromNode.module node with
          | Some module => String.eqb module "__future__"
          | None => false
          end
  then ret tt
  else
    match ImportFromNode.module node with
    | None => raise (AttributeError none_startswith_msg)
    | Some module =>
        if Py.startswith module _NATIVE_MODULE_PREFIX then
          imp <- new_Import
                   (Py.drop_chars (String.length _NATIVE_MODULE_PREFIX) module)
                   true ;;
          for_each (ImportFromNode.names node) (fun a =>
            let asname := Py.or_else (ast.asname a) (ast.name a) in
            add_binding imp MEMBER asname (VStr (ast.name a))) ;;;
          imports_append imp
        else visit_ImportFrom_loop lineno module (ImportFromNode.names node) None
    end.

End Visitor.

(** A file system given by the list of its files. *)
Definition files_system (files : list string) (p : string) : bool :=
  existsb (String.eqb p) files.

(** The binding a from-import adds for a member. *)
Definition member_binding (a : ast.alias) : Binding :=
  {| bind_type := MEMBER;
     alias := Py.or_else (ast.asname a) (ast.name a);
     value := VStr (ast.name a) |}.

Definition is_wildcard (a : ast.alias) : bool := String.eqb (ast.name a) "*".

(** Every address held in [self.imports] names an object. *)
Definition wf_visitor (self : ImportVisitor) : Prop :=
  Forall (fun addr => addr < List.length (heap self)) (imports self).

(** A small tree of sources, used to run the definitions: the package
    [pkg] being compiled, with its modules [sub] and [sub2], and a search
    path rooted at [/go] with the modules [sub2], [os], [a.b.c] and the
    package [lib] with its module [submod]. *)
Definition example_files : list string :=
  [ "/src/pkg/__init__.py"; "/src/pkg/sub.py"; "/src/pkg/sub2.py";
    "/go/src/__python__/sub2.py"; "/go/src/__python__/os/__init__.py";
    "/go/src/__python__/a/b/c.py"; "/go/src/__python__/lib/__init__.py";
    "/go/src/__python__/lib/submod.py" ].

Definition example_isfile : string -> bool := files_system example_files.

(** Compiling [pkg.sub]. *)
Definition example_package_path : Path :=
  Path_init example_isfile "/go" "pkg.sub" "/src/pkg/sub.py".

(** Compiling a script outside any package. *)
Definition example_script_path : Path :=
  Path_init example_isfile "/go" "__main__" "/tmp/main.py".

(** The files of a package compiled from inside its directory, the
    scripts named without a directory, and named from [.]. *)
Definition bare_files : list string := [ "__init__.py"; "sub.py"; "sub2.py" ].

Definition dot_files : list string :=
  [ "./__init__.py"; "./sub.py"; "./sub2.py" ].

(** The binding [visit_Import] adds for [import name] or
    [import name as asname], once [name] is resolved to [full_name]. *)
Definition module_binding (a : ast.alias) (full_name : string) : Binding :=
  if Py.truthy (ast.asname a)
  then {| bind_type := MODULE; alias := format_opt (ast.asname a);
          value := VInt (Py.count "." full_name) |}
  else
    let parts := Py.split "." (ast.name a) in
    {| bind_type := MODULE; alias := List.last parts EmptyString;
       value := VInt (Py.count "." full_name - Py.len parts + 1) |}.

(** The state after one more [Import] was created, bound and appended. *)
Definition with_import (self : ImportVisitor) (imp : Import)
           (asked : list string) : ImportVisitor :=
  {| path := path self;
     heap := heap self ++ [imp];
     imports := imports self ++ [List.length (heap self)];
     queries := queries self ++ asked |}.

(** The state after the resolver was asked for [asked]. *)
Definition with_queries (self : ImportVisitor) (asked : list string)
  : ImportVisitor :=
  {| path := path self; heap := heap self; imports := imports self;
     queries := queries self ++ asked |}.

(** ** The from-import, name by name *)

(** The name [visit_ImportFrom] first asks the resolver for. *)
Definition probe (module : string) (a : ast.alias) : string :=
  module +:+ "." +:+ ast.name a.

Section FromImport.

Variable isfile : string -> bool.
Variable path : Path.
Variable module : string.

(** The imported name is a submodule of [module]. *)
Definition is_submodule (a : ast.alias) : bool :=
  Py.truthy (fst (resolve_import isfile path (probe module a))).

(** The [Import] made for a name that is a submodule. *)
Definition submodule_import (a : ast.alias) : Import :=
  let full_name := format_opt (fst (resolve_import isfile path (probe module a))) in
  {| name := full_name; is_native := false;
     bindings := [{| bind_type := MODULE;
                     alias := Py.or_else (ast.asname a) (ast.name a);
                     value := VInt (Py.count "." full_name) |}] |}.

(** The names of the statement that are members, not submodules. *)
Definition plain_members (names : list ast.alias) : list ast.alias :=
  List.filter (fun a => negb (is_submodule a)) names.

Definition submodules (names : list ast.alias) : list ast.alias :=
  List.filter is_submodule names.

End FromImport.

(** The state after the objects [objs] were created and appended to
    [self.imports], one after the other. *)
Definition with_imports (self : ImportVisitor) (objs : list Import)
           (asked : list string) : ImportVisitor :=
  {| path := path self;
     heap := heap self ++ objs;
     imports := imports self ++ seq (List.length (heap self)) (List.length objs);
     queries := queries self ++ asked |}.

(* ================================================================== *)
(** * Further definitions: the rest of the module *)
(* ================================================================== *)

(** Whether the two-digit escape of a code point reads back as that code
    point. *)
Definition hex_escape_reads_back (c : N) : bool :=
  match Py.format_02x c with
  | String h1 (String h2 EmptyString) =>
      match hex_digit_value h1, hex_digit_value h2 with
      | Some v1, Some v2 => N.eqb (16 * v1 + v2) c
      | _, _ => false
      end
  | _ => false
  end.

(* ================================================================== *)
(** * The other methods of [Writer] *)
(* ================================================================== *)

(** [write_py_context(lineno, line)]. *)
Definition write_py_context (lineno : Z) (line : string) : M Writer unit :=
  write_tmpl "// line $lineno: $line"
             [("lineno", Py.str_int lineno); ("line", line)].

(** The template of [write_checked_call1] once [textwrap.dedent] has
    removed the eight spaces that start each of its lines; the second
    line starts with a tab. *)
Definition checked_call1_tmpl : string :=
  "if πE = $call; πE != nil {" +:+ Py.chr Py.lf
  +:+ Py.chr Py.tab +:+ "continue" +:+ Py.chr Py.lf
  +:+ "}".

Definition checked_call2_tmpl : string :=
  "if $result, πE = $call; πE != nil {" +:+ Py.chr Py.lf
  +:+ Py.chr Py.tab +:+ "continue" +:+ Py.chr Py.lf
  +:+ "}".

(** [write_checked_call1(call, ...)]; [call] is here the text of
    the formatted call, [call.format] applied to the other arguments. *)
Definition write_checked_call1 (call : string) : M Writer unit :=
  write_tmpl checked_call1_tmpl [("call", call)].

(** [write_checked_call2(result, call, ...)]; [result] is
    [result.name] and [call] the formatted call. *)
Definition write_checked_call2 (result call : string) : M Writer unit :=
  write_tmpl checked_call2_tmpl [("result", result); ("call", call)].

(** A temporary variable of a block. *)
Module Temp.
Record t : Type := mk {
  name : string;
  type_ : string
}.
End Temp.

(** [sorted(temps, key=lambda t: t.name)]: a sort on the names, compared
    byte by byte. The temporaries of a block have distinct names; the
    order Python gives to elements of equal names is not that of this
    sort, and nothing is stated of them. *)
Definition name_le (a b : Temp.t) : Prop := String.le (Temp.name a) (Temp.name b).

#[global] Instance name_le_dec : RelDecision name_le :=
  fun a b => String.le_dec (Temp.name a) (Temp.name b).

Definition sorted_by_name (temps : list Temp.t) : list Temp.t :=
  merge_sort name_le temps.

(** ['var {0} {1}\n_ = {0}'.format(temp.name, temp.type_)]. *)
Definition temp_decl (temp : Temp.t) : string :=
  "var " +:+ Temp.name temp +:+ " " +:+ Temp.type_ temp +:+ Py.chr Py.lf
  +:+ "_ = " +:+ Temp.name temp.

(** [write_temp_decls(block_)]; [all_temps] is
    [block_.free_temps | block_.used_temps] in the order its iteration
    yields. *)
Definition write_temp_decls (all_temps : list Temp.t) : M Writer unit :=
  for_each (sorted_by_name all_temps) (fun temp => write (temp_decl temp)).

(** [adjust_local_name(name)]: the two bytes of [µ], then the name. *)
Definition adjust_local_name (name : string) : string := "µ" +:+ name.

(** The two lines that declare a temporary and mark it used. *)
Definition decl_lines (temp : Temp.t) : list string :=
  [ "var " +:+ Temp.name temp +:+ " " +:+ Temp.type_ temp;
    "_ = " +:+ Temp.name temp ].

(** The line of an import block for one item of the mapping. *)
Definition item_entry (item : string * string) : string :=
  import_entry (snd item) (fst item).

Definition item_no_lf (item : string * string) : Prop :=
  all_chars not_lf (fst item) = true /\ all_chars not_lf (snd item) = true.

(* ================================================================== *)
(** * Properties of [go_str] *)
(* ================================================================== *)

Example go_str_abc : go_str [97%N; 9%N; 98%N] = Py.chr Py.dquote +:+ "a\tb" +:+ Py.chr Py.dquote.
Proof. reflexivity. Qed.

Example go_str_hex : go_str [7%N; 233%N; 960%N] = Py.chr Py.dquote +:+ "\x07\xe9\x3c0" +:+ Py.chr Py.dquote.
Proof. reflexivity. Qed.

Section GoStr.

Lemma append_assoc' (a b c : string) : (a +:+ b) +:+ c = a +:+ (b +:+ c).
Proof. induction a as [|x a IH]; simpl; [reflexivity | now rewrite IH]. Qed.

Lemma append_nil_r (a : string) : a +:+ "" = a.
Proof. induction a as [|x a IH]; simpl; [reflexivity | now rewrite IH]. Qed.

(** The accumulation loop only ever appends. *)
Lemma go_str_loop (value : list N) (io : string) :
  fold_left (fun io c => io +:+ go_str_char c) value io
  = io +:+ go_str_interior value.
Proof.
  revert io; induction value as [|c value IH]; intros io; simpl.
  - now rewrite append_nil_r.
  - rewrite IH. apply append_assoc'.
Qed.

Lemma go_str_shape (value : list N) :
  go_str value
  = Py.chr Py.dquote +:+ go_str_interior value +:+ Py.chr Py.dquote.
Proof. unfold go_str. rewrite go_str_loop. apply append_assoc'. Qed.

(** *** The three branches of the loop body *)

Lemma escapes_get_cases (c : N) :
  (c = 9%N /\ go_str_char c = "\t") \/
  (c = 13%N /\ go_str_char c = "\r") \/
  (c = 10%N /\ go_str_char c = "\n") \/
  (c = 34%N /\ go_str_char c = "\" +:+ Py.chr Py.dquote) \/
  (c = 92%N /\ go_str_char c = "\\") \/
  (escapes_get c _ESCAPES = None /\ c <> 34%N /\ c <> 92%N
   /\ c <> 9%N /\ c <> 13%N /\ c <> 10%N).
Proof.
  unfold go_str_char, _ESCAPES; simpl.
  destruct (N.eqb_spec c 9); [subst; auto|].
  destruct (N.eqb_spec c 13); [subst; auto 6|].
  destruct (N.eqb_spec c 10); [subst; auto 6|].
  destruct (N.eqb_spec c 34); [subst; auto 8|].
  destruct (N.eqb_spec c 92); [subst; auto 8|].
  do 5 right. auto 10.
Qed.

Lemma in_chars_inv (c : N) (set : string) :
  in_chars c set = true ->
  exists a, In a (list_ascii_of_string set) /\ c = N_of_ascii a.
Proof.
  induction set as [|a set IH]; simpl; [discriminate|].
  intros H. apply orb_true_iff in H as [H|H].
  - apply N.eqb_eq in H. eauto.
  - destruct (IH H) as (b & Hb & ->). eauto.
Qed.

Lemma in_chars_intro (a : ascii) (set : string) :
  In a (list_ascii_of_string set) -> in_chars (N_of_ascii a) set = true.
Proof.
  induction set as [|b set IH]; simpl; [tauto|].
  intros [->|H]; [now rewrite N.eqb_refl | rewrite IH by assumption; apply orb_true_r].
Qed.

(** Every member of the pass-through set is printable; a member other
    than the quote and the backslash stands for itself. *)
Lemma simple_chars_printable :
  forallb is_printable (list_ascii_of_string _SIMPLE_CHARS) = true.
Proof. vm_compute. reflexivity. Qed.

Lemma simple_chars_plain :
  forallb (fun a => is_plain a || Ascii.eqb a Py.dquote || Ascii.eqb a Py.backslash)
          (list_ascii_of_string _SIMPLE_CHARS) = true.
Proof. vm_compute. reflexivity. Qed.

Lemma simple_char_facts (c : N) :
  in_chars c _SIMPLE_CHARS = true -> c <> 34%N -> c <> 92%N ->
  is_printable (ascii_of_N c) = true /\ is_plain (ascii_of_N c) = true
  /\ N_of_ascii (ascii_of_N c) = c.
Proof.
  intros H H34 H92. apply in_chars_inv in H as (a & Ha & ->).
  rewrite ascii_N_embedding.
  pose proof simple_chars_printable as Hp. pose proof simple_chars_plain as Hq.
  rewrite forallb_forall in Hp, Hq.
  specialize (Hp a Ha). specialize (Hq a Ha). simpl in Hq.
  repeat split; [exact Hp|].
  apply orb_true_iff in Hq as [Hq|Hq].
  - apply orb_true_iff in Hq as [Hq|Hq]; [exact Hq|].
    apply Ascii.eqb_eq in Hq. subst a. now contradiction H34.
  - apply Ascii.eqb_eq in Hq. subst a. now contradiction H92.
Qed.

(** Printable ASCII is exactly the pass-through set. *)
Lemma printable_in_simple_chars (c : N) :
  (32 <= c <= 126)%N -> in_chars c _SIMPLE_CHARS = true.
Proof.
  intros Hc.
  assert (Hall : forallb (fun n => in_chars (N.of_nat n) _SIMPLE_CHARS) (seq 32 95) = true)
    by (vm_compute; reflexivity).
  rewrite forallb_forall in Hall.
  rewrite <- (N2Nat.id c). apply Hall. apply in_seq. lia.
Qed.

(** *** Hexadecimal escapes *)

Lemma hex_uint_all_hex (d : Hexadecimal.uint) :
  all_chars (fun a => is_hex_digit a && is_plain a && is_printable a)
            (HexadecimalString.NilEmpty.string_of_uint d) = true.
Proof. induction d; simpl; auto. Qed.

Lemma hex_all_hex (n : N) :
  all_chars (fun a => is_hex_digit a && is_plain a && is_printable a) (Py.hex n) = true
  /\ 1 <= String.length (Py.hex n).
Proof.
  unfold Py.hex, HexadecimalString.NilZero.string_of_uint.
  destruct (N.to_hex_uint n) eqn:E;
    (split; [first [reflexivity | rewrite <- E; apply hex_uint_all_hex] | simpl; lia]).
Qed.

Lemma all_chars_app (p : ascii -> bool) (s t : string) :
  all_chars p (s +:+ t) = all_chars p s && all_chars p t.
Proof. induction s as [|a s IH]; simpl; [reflexivity|]. now rewrite IH, andb_assoc. Qed.

Lemma format_02x_shape (n : N) :
  exists h1 h2 more,
    Py.format_02x n = String h1 (String h2 more)
    /\ all_chars (fun a => is_hex_digit a && is_plain a && is_printable a)
                 (String h1 (String h2 more)) = true.
Proof.
  unfold Py.format_02x. destruct (hex_all_hex n) as [Hall Hlen].
  destruct (Py.hex n) as [|h1 [|h2 more]] eqn:E; simpl in Hlen; [lia| |].
  - exists "0"%char, h1, EmptyString. split; [reflexivity|].
    simpl in *. now rewrite Hall.
  - exists h1, h2, more. split; [reflexivity | exact Hall].
Qed.

Lemma plain_not_backslash (a : ascii) :
  is_plain a = true -> Ascii.eqb a Py.backslash = false.
Proof.
  unfold is_plain. destruct (Ascii.eqb a Py.backslash); [discriminate | reflexivity].
Qed.

Lemma well_escaped_plain (s rest : string) :
  all_chars is_plain s = true -> well_escaped (s +:+ rest) = well_escaped rest.
Proof.
  induction s as [|a s IH]; simpl; [reflexivity|].
  intros H. apply andb_true_iff in H as [Ha Hs].
  rewrite (plain_not_backslash a Ha), Ha. simpl. auto.
Qed.

Lemma all_chars_weaken (p q : ascii -> bool) (s : string) :
  (forall a, p a = true -> q a = true) ->
  all_chars p s = true -> all_chars q s = true.
Proof.
  intros Hpq. induction s as [|a s IH]; simpl; [reflexivity|].
  intros H. apply andb_true_iff in H as [Ha Hs]. rewrite (Hpq a Ha). simpl. auto.
Qed.

(** *** One iteration: what it writes is well formed and printable *)

Lemma go_str_char_well_escaped (c : N) (rest : string) :
  well_escaped (go_str_char c +:+ rest) = well_escaped rest.
Proof.
  destruct (escapes_get_cases c)
    as [[_ E]|[[_ E]|[[_ E]|[[_ E]|[[_ E]|(E & H34 & H92 & _)]]]]];
    try (rewrite E; reflexivity).
  unfold go_str_char. rewrite E.
  destruct (in_chars c _SIMPLE_CHARS) eqn:S.
  - destruct (simple_char_facts c S H34 H92) as (_ & Hpl & _).
    simpl. now rewrite (plain_not_backslash _ Hpl), Hpl.
  - destruct (format_02x_shape c) as (h1 & h2 & more & -> & Hall).
    simpl in Hall |- *.
    repeat (apply andb_true_iff in Hall as [? Hall]).
    repeat match goal with H : _ && _ = true |- _ => apply andb_true_iff in H as [? ?] end.
    replace (is_hex_digit h1) with true by congruence.
    replace (is_hex_digit h2) with true by congruence. simpl.
    apply well_escaped_plain.
    eapply all_chars_weaken; [|exact Hall].
    intros a Ha. apply andb_true_iff in Ha as [Ha _].
    now apply andb_true_iff in Ha as [_ Ha].
Qed.

Lemma go_str_char_printable (c : N) :
  all_chars is_printable (go_str_char c) = true.
Proof.
  destruct (escapes_get_cases c)
    as [[_ E]|[[_ E]|[[_ E]|[[_ E]|[[_ E]|(E & H34 & H92 & _)]]]]];
    try (rewrite E; reflexivity).
  unfold go_str_char. rewrite E.
  destruct (in_chars c _SIMPLE_CHARS) eqn:S.
  - destruct (simple_char_facts c S H34 H92) as (Hp & _ & _).
    simpl. now rewrite Hp.
  - destruct (format_02x_shape c) as (h1 & h2 & more & -> & Hall).
    change ("\x" +:+ String h1 (String h2 more))
      with (String "\" (String "x" (String h1 (String h2 more)))).
    change (all_chars is_printable (String "\" (String "x" (String h1 (String h2 more)))))
      with (all_chars is_printable (String h1 (String h2 more))).
    eapply all_chars_weaken; [|exact Hall].
    intros a Ha. now apply andb_true_iff in Ha as [_ Ha].
Qed.

Lemma go_str_interior_well_escaped (value : list N) :
  well_escaped (go_str_interior value) = true.
Proof.
  induction value as [|c value IH]; simpl; [reflexivity|].
  now rewrite go_str_char_well_escaped.
Qed.

Lemma go_str_interior_printable (value : list N) :
  all_chars is_printable (go_str_interior value) = true.
Proof.
  induction value as [|c value IH]; simpl; [reflexivity|].
  now rewrite all_chars_app, go_str_char_printable.
Qed.

(** *** Reading back what one iteration wrote *)

Lemma go_str_char_unescape (c : N) (rest : string) :
  lossless_char c ->
  go_unescape (go_str_char c +:+ rest) = option_map (cons c) (go_unescape rest).
Proof.
  intros Hc.
  destruct (escapes_get_cases c)
    as [[-> E]|[[-> E]|[[-> E]|[[-> E]|[[-> E]|(E & H34 & H92 & H9 & H13 & H10)]]]]];
    try (rewrite E; reflexivity).
  assert (Hp : (32 <= c <= 126)%N) by (destruct Hc as [?|[?|[?|?]]]; congruence).
  unfold go_str_char. rewrite E, (printable_in_simple_chars c Hp).
  destruct (simple_char_facts c (printable_in_simple_chars c Hp) H34 H92)
    as (_ & Hpl & Hid).
  simpl. now rewrite (plain_not_backslash _ Hpl), Hpl, Hid.
Qed.

Lemma go_str_interior_unescape (value : list N) :
  Forall lossless_char value ->
  go_unescape (go_str_interior value) = Some value.
Proof.
  induction 1 as [|c value Hc _ IH]; simpl; [reflexivity|].
  now rewrite go_str_char_unescape, IH.
Qed.

Lemma drop_closing_quote_app (i : string) :
  drop_closing_quote (i +:+ Py.chr Py.dquote) = Some i.
Proof.
  induction i as [|a i IH]; [reflexivity|].
  change (String a i +:+ Py.chr Py.dquote) with (String a (i +:+ Py.chr Py.dquote)).
  cbn [drop_closing_quote]. rewrite IH.
  destruct (i +:+ Py.chr Py.dquote) eqn:E; [|reflexivity].
  destruct i; discriminate.
Qed.

Lemma strip_quotes_go_str (value : list N) :
  strip_quotes (go_str value) = Some (go_str_interior value).
Proof. rewrite go_str_shape. simpl. apply drop_closing_quote_app. Qed.

End GoStr.

(** C8. For every string made only of printable ASCII characters, spaces
    and the five specially escaped characters (tab, carriage return, line
    feed, double quote, backslash), [go_str] is lossless: reading the
    produced literal back, with the standard meaning of the escapes, gives
    the original string. *)
Theorem go_str_lossless (value : list N) :
  Forall lossless_char value -> go_unquote (go_str value) = Some value.
Proof.
  intros H. unfold go_unquote. rewrite strip_quotes_go_str.
  now apply go_str_interior_unescape.
Qed.

Lemma go_str_lossless_witness :
  Forall lossless_char [72%N; 105%N; 9%N; 34%N; 92%N; 10%N; 32%N; 126%N; 13%N]
  /\ go_unquote (go_str [72%N; 105%N; 9%N; 34%N; 92%N; 10%N; 32%N; 126%N; 13%N])
     = Some [72%N; 105%N; 9%N; 34%N; 92%N; 10%N; 32%N; 126%N; 13%N].
Proof.
  assert (H : Forall lossless_char
                [72%N; 105%N; 9%N; 34%N; 92%N; 10%N; 32%N; 126%N; 13%N])
    by (repeat constructor; unfold lossless_char; lia).
  split; [exact H | apply (go_str_lossless _ H)].
Defined.

(** Outside that set the scheme is one byte per character: a code point
    above 255 is written with more than two hexadecimal digits and does
    not read back. *)
Example go_str_wide_char_not_lossless :
  go_unquote (go_str [960%N]) = Some [60%N; 48%N].
Proof. reflexivity. Qed.

Section CharLiteralFacts.

Lemma hex_value_step (a : ascii) (v acc : N) (rest : string) :
  hex_digit_value a = Some v ->
  hex_value_from acc (String a rest) = hex_value_from (16 * acc + v) rest.
Proof. intros H. cbn [hex_value_from]. now rewrite H. Qed.

Lemma hex_value_acc (d : Hexadecimal.uint) (acc : positive) :
  hex_value_from (Npos acc) (HexadecimalString.NilEmpty.string_of_uint d)
  = Some (Npos (Pos.of_hex_uint_acc d acc)).
Proof.
  revert acc.
  induction d; intros acc; cbn [HexadecimalString.NilEmpty.string_of_uint];
    [reflexivity|..];
    (erewrite hex_value_step by reflexivity);
    cbn [Pos.of_hex_uint_acc]; rewrite <- IHd; f_equal; lia.
Qed.

Lemma hex_value_uint (d : Hexadecimal.uint) :
  hex_value_from 0 (HexadecimalString.NilEmpty.string_of_uint d)
  = Some (N.of_hex_uint d).
Proof.
  induction d; cbn [HexadecimalString.NilEmpty.string_of_uint];
    [reflexivity|..];
    (erewrite hex_value_step by reflexivity);
    [exact IHd | apply hex_value_acc..].
Qed.

Lemma to_hex_uint_not_nil (n : N) : N.to_hex_uint n <> Hexadecimal.Nil.
Proof.
  destruct n as [|p]; [discriminate|].
  apply HexadecimalPos.Unsigned.to_uint_nonnil.
Qed.

Lemma hex_as_uint (n : N) :
  Py.hex n = HexadecimalString.NilEmpty.string_of_uint (N.to_hex_uint n).
Proof.
  unfold Py.hex, HexadecimalString.NilZero.string_of_uint.
  pose proof (to_hex_uint_not_nil n).
  destruct (N.to_hex_uint n); [congruence|reflexivity..].
Qed.

Lemma hex_value_hex (n : N) : hex_value_from 0 (Py.hex n) = Some n.
Proof.
  rewrite hex_as_uint, hex_value_uint.
  now rewrite HexadecimalN.Unsigned.of_to.
Qed.

Lemma hex_value_zeros (k : nat) (s : string) :
  hex_value_from 0 (Py.zeros k +:+ s) = hex_value_from 0 s.
Proof. induction k as [|k IH]; [reflexivity|]. exact IH. Qed.

Lemma uint_lower_hex (d : Hexadecimal.uint) :
  all_chars is_lower_hex (HexadecimalString.NilEmpty.string_of_uint d) = true.
Proof. induction d; simpl; auto. Qed.

Lemma zeros_lower_hex (k : nat) : all_chars is_lower_hex (Py.zeros k) = true.
Proof. induction k; simpl; auto. Qed.

Lemma nzhead_not_D0 (d l : Hexadecimal.uint) :
  Hexadecimal.nzhead d <> Hexadecimal.D0 l.
Proof. induction d; cbn [Hexadecimal.nzhead]; try discriminate. exact IHd. Qed.

Lemma unorm_D0_nil (d l : Hexadecimal.uint) :
  Hexadecimal.unorm d = Hexadecimal.D0 l -> l = Hexadecimal.Nil.
Proof.
  unfold Hexadecimal.unorm. pose proof (nzhead_not_D0 d l).
  destruct (Hexadecimal.nzhead d); congruence.
Qed.

(** The digits of a number have no zero in front, but for [0]. *)
Lemma hex_no_leading_zero (n : N) :
  2 <= String.length (Py.hex n) -> Py.startswith (Py.hex n) "0" = false.
Proof.
  rewrite hex_as_uint.
  assert (E : N.to_hex_uint n = Hexadecimal.unorm (N.to_hex_uint n)).
  { rewrite <- HexadecimalN.Unsigned.to_of.
    now rewrite HexadecimalN.Unsigned.of_to. }
  destruct (N.to_hex_uint n) eqn:En; try reflexivity.
  symmetry in E. apply unorm_D0_nil in E. subst. cbn. lia.
Qed.

Lemma format_02x_digits (n : N) :
  all_chars is_lower_hex (Py.format_02x n) = true
  /\ hex_value_from 0 (Py.format_02x n) = Some n
  /\ 2 <= String.length (Py.format_02x n)
  /\ (String.length (Py.format_02x n) = 2
      \/ Py.startswith (Py.format_02x n) "0" = false).
Proof.
  unfold Py.format_02x. split; [|split].
  - rewrite all_chars_app, zeros_lower_hex, hex_as_uint. apply uint_lower_hex.
  - rewrite hex_value_zeros. apply hex_value_hex.
  - pose proof (hex_no_leading_zero n) as Hz.
    destruct (hex_all_hex n) as [_ Hlen].
    destruct (Py.hex n) as [|h1 [|h2 [|h3 more]]] eqn:E;
      cbn [String.length] in *; try lia.
    + split; [cbn; lia | left; reflexivity].
    + split; [cbn; lia | left; reflexivity].
    + split; [cbn; lia|]. right. cbn [Nat.sub Py.zeros String.append].
      apply Hz. lia.
Qed.

Lemma go_str_char_literal (c : N) : char_literal c (go_str_char c).
Proof.
  destruct (escapes_get_cases c)
    as [[-> ->]|[[-> ->]|[[-> ->]|[[-> ->]|[[-> ->]|(He & H34 & H92 & H9 & H13 & H10)]]]]];
    try constructor.
  unfold go_str_char. rewrite He.
  destruct (in_chars c _SIMPLE_CHARS) eqn:Hs.
  - destruct (simple_char_facts c Hs H34 H92) as (Hp & _ & Hc).
    apply literal_plain; try assumption.
    unfold is_printable in Hp. rewrite Hc in Hp.
    apply andb_true_iff in Hp as [H1 H2].
    apply N.leb_le in H1, H2. lia.
  - destruct (format_02x_digits c) as (Hl & Hv & Hlen & Hmin).
    apply literal_hex; try assumption.
    intros Hc. apply printable_in_simple_chars in Hc. congruence.
Qed.

Lemma concat_empty_cons (x : string) (xs : list string) :
  String.concat EmptyString (x :: xs) = x +:+ String.concat EmptyString xs.
Proof. destruct xs; cbn [String.concat]; [now rewrite append_nil_r | reflexivity]. Qed.

Lemma go_str_interior_pieces (value : list N) :
  go_str_interior value = String.concat EmptyString (map go_str_char value).
Proof.
  induction value as [|c value IH]; [reflexivity|].
  cbn [map go_str_interior]. now rewrite concat_empty_cons, IH.
Qed.

End CharLiteralFacts.

(** C10. For every input string, whatever its characters, [go_str] returns
    a double quote, the texts of its characters one after the other, and
    a double quote. The text of a character is its escape when it is one
    of the five characters of the escape table, the character itself when
    it is another printable ASCII character, and otherwise a backslash,
    [x] and its code in hexadecimal. The escape table is looked up before
    the pass-through set: the double quote and the backslash, both
    members of that set (which is printable ASCII), are written escaped.
    The interior so made holds only complete escape sequences and plain
    characters (no raw double quote, backslash or line break) and only
    printable ASCII, so that the result is one closed literal on one
    line. *)
Theorem go_str_closed_literal (value : list N) :
  (exists pieces,
      Forall2 char_literal value pieces
      /\ go_str value
         = Py.chr Py.dquote +:+ String.concat EmptyString pieces
           +:+ Py.chr Py.dquote
      /\ strip_quotes (go_str value) = Some (String.concat EmptyString pieces)
      /\ well_escaped (String.concat EmptyString pieces) = true
      /\ all_chars is_printable (String.concat EmptyString pieces) = true)
  /\ in_chars 34%N _SIMPLE_CHARS = true
  /\ in_chars 92%N _SIMPLE_CHARS = true
  /\ (forall c, in_chars c _SIMPLE_CHARS = true <-> (32 <= c <= 126)%N).
Proof.
  split; [|split; [reflexivity|split; [reflexivity|]]].
  - exists (map go_str_char value).
    rewrite <- go_str_interior_pieces. split; [|repeat split].
    + apply Forall2_fmap_r, Forall_Forall2_diag, Forall_forall.
      intros c _. apply go_str_char_literal.
    + apply go_str_shape.
    + apply strip_quotes_go_str.
    + apply go_str_interior_well_escaped.
    + apply go_str_interior_printable.
  - intros c. split; [|apply printable_in_simple_chars].
    intros H. apply in_chars_inv in H as (a & Ha & ->).
    pose proof simple_chars_printable as Hp.
    rewrite forallb_forall in Hp. specialize (Hp a Ha).
    unfold is_printable in Hp. apply andb_true_iff in Hp as [H1 H2].
    apply N.leb_le in H1, H2. lia.
Qed.

(* ================================================================== *)
(** * Properties of [Writer] *)
(* ================================================================== *)

Section WriterFacts.

Lemma bind_Return {S A B} (m : M S A) (k : A -> M S B) (s s' : S) (a : A) :
  m s = (Return a, s') -> bind m k s = k a s'.
Proof. intros H. unfold bind. now rewrite H. Qed.

Lemma bind_Raise {S A B} (m : M S A) (k : A -> M S B) (s s' : S) (e : exception) :
  m s = (Raise e, s') -> bind m k s = (Raise e, s').
Proof. intros H. unfold bind. now rewrite H. Qed.

Lemma append_out_out (w : Writer) (a b : string) :
  append_out (append_out w a) b = append_out w (a +:+ b).
Proof. unfold append_out; simpl. now rewrite append_assoc'. Qed.

Lemma append_out_nil (w : Writer) : append_out w "" = w.
Proof. destruct w. unfold append_out; simpl. now rewrite append_nil_r. Qed.

Lemma rendered_app (level : Z) (l1 l2 : list string) :
  rendered level (l1 ++ l2) = rendered level l1 +:+ rendered level l2.
Proof.
  induction l1 as [|x l1 IH]; simpl; [reflexivity|].
  now rewrite IH, append_assoc'.
Qed.

(** *** [write] *)

Lemma write_line_spec (line : string) (w : Writer) :
  write_line line w
  = (Return tt,
     append_out w (if Py.truthy_str line
                   then indented_line (indent_level w) line else "")).
Proof.
  unfold write_line. destruct (Py.truthy_str line); [reflexivity|].
  now rewrite append_out_nil.
Qed.

Lemma for_each_write_line (lines : list string) (w : Writer) :
  for_each lines write_line w
  = (Return tt,
     append_out w (rendered (indent_level w)
                     (filter (fun line => Py.truthy_str line = true) lines))).
Proof.
  revert w; induction lines as [|line lines IH]; intros w; cbn [for_each].
  - unfold ret. now rewrite append_out_nil.
  - erewrite bind_Return by apply write_line_spec. rewrite IH.
    destruct (Py.truthy_str line) eqn:E.
    + rewrite append_out_out, filter_cons_True by exact E. reflexivity.
    + rewrite append_out_nil, filter_cons_False by congruence. reflexivity.
Qed.

(** [write] always returns, adds the kept lines at the current depth
    and leaves the depth alone. *)
Lemma write_spec (output : string) (w : Writer) :
  write output w
  = (Return tt, append_out w (rendered (indent_level w) (kept_lines output))).
Proof. apply for_each_write_line. Qed.

Lemma indent_spec (n : Z) (w : Writer) :
  indent n w = (Return tt, {| out := out w; indent_level := indent_level w + n |}).
Proof. reflexivity. Qed.

Lemma dedent_spec (n : Z) (w : Writer) :
  dedent n w = (Return tt, {| out := out w; indent_level := indent_level w - n |}).
Proof. reflexivity. Qed.

(** *** Balanced computations *)

Lemma balanced_ret : balanced (ret tt).
Proof. intros w u w' [= _ <-]. reflexivity. Qed.

Lemma balanced_raise (e : exception) : balanced (raise e).
Proof. intros w u w' [=]. Qed.

Lemma balanced_write (output : string) : balanced (write output).
Proof. intros w u w'. rewrite write_spec. intros [= _ <-]. reflexivity. Qed.

Lemma balanced_bind (m : M Writer unit) (k : unit -> M Writer unit) :
  balanced m -> (forall u, balanced (k u)) -> balanced (bind m k).
Proof.
  intros Hm Hk w u w'. unfold bind.
  destruct (m w) as [[a|e] w1] eqn:E; [|discriminate].
  intros H. rewrite (Hk a _ _ _ H). eauto.
Qed.

Lemma balanced_for_each {A} (l : list A) (body : A -> M Writer unit) :
  (forall x, balanced (body x)) -> balanced (for_each l body).
Proof.
  intros Hb. induction l as [|x l IH]; simpl.
  - apply balanced_ret.
  - apply balanced_bind; auto.
Qed.

(** What [indent_block] does, by the way its body ends. *)
Lemma indent_block_unfold (n : Z) (body : M Writer unit) (w : Writer) :
  indent_block n body w
  = match body {| out := out w; indent_level := indent_level w + n |} with
    | (Return _, wb) =>
        (Return tt, {| out := out wb; indent_level := indent_level wb - n |})
    | (Raise e, wb) => (Raise e, wb)
    end.
Proof.
  unfold indent_block. erewrite bind_Return by apply indent_spec.
  unfold bind. destruct (body _) as [[u|e] wb]; reflexivity.
Qed.

Lemma balanced_indent_block (n : Z) (body : M Writer unit) :
  balanced body -> balanced (indent_block n body).
Proof.
  intros Hb w u w'. rewrite indent_block_unfold.
  destruct (body _) as [[v|e] wb] eqn:E; [|discriminate].
  intros [= _ <-]. apply Hb in E. simpl in *. lia.
Qed.

End WriterFacts.

Create HintDb balanced.
#[local] Hint Resolve balanced_ret balanced_raise balanced_write
  balanced_bind balanced_for_each balanced_indent_block : balanced.

(** The exit paths of an [indent_block] region whose body is itself
    balanced (writes, loops of writes, nested [indent_block] regions,
    nothing at all): when the body runs to its end the region returns and
    the depth after it is the depth before it; when an exception leaves
    the body the region ends with that exception and the writer is left
    exactly as it was at the [raise]. *)
Theorem indent_block_depth (n : Z) (body : M Writer unit) (w : Writer) :
  balanced body ->
  (forall u w', indent_block n body w = (Return u, w') ->
                indent_level w' = indent_level w)
  /\ (forall u wb, body (snd (indent n w)) = (Return u, wb) ->
        indent_block n body w
        = (Return tt, {| out := out wb; indent_level := indent_level w |}))
  /\ (forall e wb, body (snd (indent n w)) = (Raise e, wb) ->
        indent_block n body w = (Raise e, wb)).
Proof.
  intros Hb. split; [|split].
  - intros u w'. apply balanced_indent_block, Hb.
  - intros u wb H. rewrite indent_block_unfold. simpl in H. rewrite H.
    apply Hb in H. simpl in H. do 2 f_equal. lia.
  - intros e wb H. rewrite indent_block_unfold. simpl in H. now rewrite H.
Qed.

(** Two nested regions around no write at all. *)
Lemma indent_block_depth_witness :
  balanced (indent_block 2 (ret tt))
  /\ indent_block 1 (indent_block 2 (ret tt)) Writer_init = (Return tt, Writer_init).
Proof.
  assert (Hb : balanced (indent_block 2 (ret tt))) by auto with balanced.
  split; [exact Hb|].
  exact (proj1 (proj2 (indent_block_depth 1 _ Writer_init Hb)) tt _ eq_refl).
Defined.

(** C2. The depth is to be restored on every exit path of a region, and
    the docstring of [indent_block] says that it dedents on exit. It is
    not so when an exception leaves the body: for
    [with w.indent_block(): w.write('x := 1'); raise ...] on a new writer
    the exception goes on and the depth stays at 1, one deeper than
    before the region, the [yield] of the generator being in no [try]
    with a [finally]. *)
Lemma indent_block_exception_keeps_depth :
  balanced (write "x := 1" ;;; raise (CompileError "early exit"))
  /\ indent_block 1 (write "x := 1" ;;; raise (CompileError "early exit")) Writer_init
     = (Raise (CompileError "early exit"),
        {| out := Py.chr Py.tab +:+ "x := 1" +:+ Py.chr Py.lf; indent_level := 1 |})
  /\ indent_level
       (snd (indent_block 1 (write "x := 1" ;;; raise (CompileError "early exit"))
                          Writer_init))
     <> indent_level Writer_init.
Proof.
  split; [|split].
  - auto with balanced.
  - reflexivity.
  - simpl. discriminate.
Qed.

(** The kept lines of a literal are computed. *)
Ltac kept_literals :=
  repeat match goal with
         | |- context [kept_lines ?s] =>
             assert_fails (is_var s);
             let r := eval vm_compute in (kept_lines s) in
             change (kept_lines s) with r
         end.

Ltac flatten_rendered :=
  rewrite ?rendered_app; cbn [rendered];
  rewrite ?append_nil_r, ?append_assoc'.

Section BlockFacts.

(** *** [str] of an integer *)

Lemma string_of_uint_int_chars (d : Decimal.uint) :
  all_chars is_int_char (DecimalString.NilEmpty.string_of_uint d) = true.
Proof. induction d; simpl; auto. Qed.

Lemma str_int_chars (n : Z) : all_chars is_int_char (Py.str_int n) = true.
Proof.
  unfold Py.str_int, DecimalString.NilZero.string_of_int,
    DecimalString.NilZero.string_of_uint.
  destruct (Z.to_int n) as [d|d]; destruct d eqn:E; try reflexivity;
    rewrite <- E; try apply string_of_uint_int_chars;
    change (all_chars is_int_char
              (String "-" (DecimalString.NilEmpty.string_of_uint d)))
      with (all_chars is_int_char (DecimalString.NilEmpty.string_of_uint d));
    apply string_of_uint_int_chars.
Qed.

Lemma to_int_not_nil (n : Z) :
  Z.to_int n <> Decimal.Pos Decimal.Nil /\ Z.to_int n <> Decimal.Neg Decimal.Nil.
Proof.
  destruct n as [|p|p]; simpl; split; try discriminate;
    intros [= H]; now apply (DecimalPos.Unsigned.to_uint_nonnil p).
Qed.

Lemma str_int_inj (n m : Z) : Py.str_int n = Py.str_int m -> n = m.
Proof.
  unfold Py.str_int. intros H.
  apply DecimalZ.to_int_inj.
  destruct (to_int_not_nil n) as [Hn1 Hn2], (to_int_not_nil m) as [Hm1 Hm2].
  pose proof (DecimalString.NilZero.isi _ Hn1 Hn2) as En.
  pose proof (DecimalString.NilZero.isi _ Hm1 Hm2) as Em.
  rewrite H in En. congruence.
Qed.

(** *** Lines without a line break *)

Lemma split_no_lf (s : string) :
  all_chars not_lf s = true -> Py.split Py.lf s = [s].
Proof.
  induction s as [|a s IH]; simpl; [reflexivity|].
  intros H. apply andb_true_iff in H as [Ha Hs].
  unfold not_lf in Ha. apply negb_true_iff in Ha. rewrite Ha, (IH Hs).
  reflexivity.
Qed.

Lemma kept_lines_single (s : string) :
  all_chars not_lf s = true -> Py.truthy_str s = true -> kept_lines s = [s].
Proof.
  intros H1 H2. unfold kept_lines. rewrite (split_no_lf s H1).
  now rewrite filter_cons_True, filter_nil.
Qed.

Lemma int_char_not_lf (a : ascii) : is_int_char a = true -> not_lf a = true.
Proof.
  unfold is_int_char, not_lf. intros H.
  destruct (Ascii.eqb_spec a Py.lf) as [->|]; [discriminate H | reflexivity].
Qed.

Lemma case_line_kept (state : Z) : kept_lines (case_line state) = [case_line state].
Proof.
  apply kept_lines_single; [|reflexivity].
  unfold case_line.
  pose proof (all_chars_weaken _ _ _ int_char_not_lf (str_int_chars state)) as H.
  rewrite !all_chars_app, H. reflexivity.
Qed.

(** *** The clauses determine the states *)

Lemma int_chars_colon_split (a b r r' : string) :
  all_chars is_int_char a = true -> all_chars is_int_char b = true ->
  a +:+ String ":" r = b +:+ String ":" r' -> a = b.
Proof.
  revert b. induction a as [|x a IH]; intros [|y b] Ha Hb; simpl in *.
  - reflexivity.
  - intros [= <- _]. discriminate Hb.
  - intros [= -> _]. discriminate Ha.
  - intros [= -> H]. f_equal.
    apply andb_true_iff in Ha as [_ Ha]. apply andb_true_iff in Hb as [_ Hb].
    eauto.
Qed.

Lemma case_line_inj (s s' : Z) : case_line s = case_line s' -> s = s'.
Proof.
  unfold case_line. intros H. apply str_int_inj.
  simpl in H. injection H as H.
  eapply int_chars_colon_split; [apply str_int_chars..|exact H].
Qed.

Lemma int_chars_colon_rest (a b r r' : string) :
  all_chars is_int_char a = true -> all_chars is_int_char b = true ->
  a +:+ String ":" r = b +:+ String ":" r' -> a = b /\ r = r'.
Proof.
  intros Ha Hb H.
  pose proof (int_chars_colon_split a b r r' Ha Hb H) as ->.
  split; [reflexivity|].
  clear Ha Hb. induction b as [|x b IH]; cbn [String.append] in H.
  - now injection H.
  - injection H as H. auto.
Qed.

(** A line that begins as a clause for the state [N] is the clause
    [case M: goto LabelM] only for [M = N]. *)
Lemma clause_of_case_line (N M : Z) (rest : string) :
  "case " +:+ Py.str_int N +:+ ":" +:+ rest = case_line M ->
  N = M /\ rest = " goto Label" +:+ Py.str_int M.
Proof.
  unfold case_line. intros H. cbn [String.append] in H. injection H as H.
  change (": goto Label" +:+ Py.str_int M)
    with (String ":" (" goto Label" +:+ Py.str_int M)) in H.
  change (":" +:+ rest) with (String ":" rest) in H.
  apply int_chars_colon_rest in H as [E ->]; [|apply str_int_chars..].
  split; [now apply str_int_inj | reflexivity].
Qed.

Lemma clause_of_case_0 (N : Z) (rest : string) :
  "case " +:+ Py.str_int N +:+ ":" +:+ rest = "case 0:" ->
  N = 0%Z /\ rest = EmptyString.
Proof.
  intros H. cbn [String.append] in H. injection H as H.
  change (":" +:+ rest) with (String ":" rest) in H.
  change "0:" with (Py.str_int 0 +:+ String ":" EmptyString) in H.
  apply int_chars_colon_rest in H as [E ->]; [|apply str_int_chars..].
  split; [now apply str_int_inj | reflexivity].
Qed.

(** *** The pieces of [write_block] *)

Lemma bind_write {B} (output : string) (k : unit -> M Writer B) (w : Writer) :
  bind (write output) k w
  = k tt (append_out w (rendered (indent_level w) (kept_lines output))).
Proof. apply bind_Return, write_spec. Qed.

Lemma substitute_case_line (state : Z) :
  Template.substitute "case $state: goto Label$state"
                      [("state", Py.str_int state)]
  = Return (case_line state).
Proof.
  unfold Template.substitute, case_line. simpl.
  now rewrite append_nil_r.
Qed.

Lemma write_case_line (state : Z) (w : Writer) :
  write_tmpl "case $state: goto Label$state" [("state", Py.str_int state)] w
  = (Return tt, append_out w (rendered (indent_level w) [case_line state])).
Proof.
  unfold write_tmpl. rewrite substitute_case_line, write_spec.
  now rewrite case_line_kept.
Qed.

Lemma write_case_lines (checkpoints : list Z) (w : Writer) :
  for_each checkpoints (fun checkpoint =>
    write_tmpl "case $state: goto Label$state"
               [("state", Py.str_int checkpoint)]) w
  = (Return tt,
     append_out w (rendered (indent_level w) (map case_line checkpoints))).
Proof.
  revert w. induction checkpoints as [|c cps IH]; intros w; cbn [for_each map].
  - unfold ret. now rewrite append_out_nil.
  - erewrite bind_Return by apply write_case_line.
    rewrite IH, append_out_out. cbn [rendered indent_level append_out].
    now rewrite append_nil_r.
Qed.

Lemma append_out_level (w : Writer) (text : string) :
  indent_level (append_out w text) = indent_level w.
Proof. reflexivity. Qed.

Lemma write_body_dedented (body : string) (w : Writer) :
  indent_block (-1) (write body) w
  = (Return tt, append_out w (rendered (indent_level w - 1) (kept_lines body))).
Proof.
  rewrite indent_block_unfold, write_spec. cbn [append_out out indent_level].
  unfold append_out.
  replace (indent_level w + -1 - -1)%Z with (indent_level w) by lia.
  now replace (indent_level w + -1)%Z with (indent_level w - 1)%Z by lia.
Qed.

Lemma write_block_inside (checkpoints : list Z) (body : string) (w : Writer) :
  (write "switch πF.State() {" ;;;
   write "case 0:" ;;;
   for_each checkpoints (fun checkpoint =>
     write_tmpl "case $state: goto Label$state"
                [("state", Py.str_int checkpoint)]) ;;;
   write ("default: panic(" +:+ Py.chr Py.dquote +:+ "unexpected function state"
          +:+ Py.chr Py.dquote +:+ ")") ;;;
   write "}" ;;;
   indent_block (-1) (write body) ;;;
   write "return nil, nil") w
  = (Return tt,
     append_out w
       (rendered (indent_level w)
          ([ "switch πF.State() {"; "case 0:" ]
           ++ map case_line checkpoints
           ++ [ "default: panic(" +:+ Py.chr Py.dquote
                  +:+ "unexpected function state" +:+ Py.chr Py.dquote +:+ ")";
                "}" ])
        +:+ rendered (indent_level w - 1) (kept_lines body)
        +:+ rendered (indent_level w) [ "return nil, nil" ])).
Proof.
  rewrite !bind_write.
  erewrite bind_Return by apply write_case_lines.
  rewrite !bind_write.
  erewrite bind_Return by apply write_body_dedented.
  rewrite write_spec. rewrite !append_out_level, !append_out_out.
  do 2 f_equal. kept_literals. flatten_rendered. reflexivity.
Qed.

End BlockFacts.

(** What [write_block] leaves in the buffer, for every list of
    checkpoints. *)
Lemma write_block_text (checkpoints : list Z) (body : string) (w : Writer) :
  write_block checkpoints body w
  = (Return tt, append_out w (block_text (indent_level w) checkpoints body)).
Proof.
  unfold write_block.
  rewrite !bind_write.
  erewrite bind_Return.
  2:{ rewrite indent_block_unfold.
      rewrite (write_block_inside checkpoints body
                 {| out := _; indent_level := _ |}).
      cbn [append_out out indent_level]. reflexivity. }
  rewrite !bind_write, write_spec.
  rewrite !append_out_level; cbn [indent_level].
  rewrite !append_out_out.
  replace (indent_level w + 1 - 1)%Z with (indent_level w) by lia.
  unfold append_out, block_text; cbn [out indent_level].
  do 2 f_equal. kept_literals. flatten_rendered. reflexivity.
Qed.

(** C3, as the code has it. For every checkpoint set that does not hold
    0, [write_block] returns and emits: the declaration of the pending
    exception; a loop that goes on while the saved state of the frame is
    non-negative and pops a checkpoint at each turn; inside it a switch
    on that state, closed by a brace; then the body, at the depth of the
    surrounding code, and the two returns. The clauses of the switch are
    the empty clause [case 0:], one clause [case N: goto LabelN] for each
    checkpoint [N] of the set, in order, and a [default] clause that
    panics. A line that begins as a clause for a state is there exactly
    when the state is 0, and the clause is then the empty one (state 0
    goes on to the body), or a checkpoint of the set, and the clause is
    then the jump to its label: any other state has no clause and reaches
    the panic. *)
Theorem write_block_dispatch (checkpoints : list Z) (body : string) (w : Writer) :
  ~ In 0%Z checkpoints ->
  exists clauses,
    write_block checkpoints body w
    = (Return tt,
       append_out w
         (rendered (indent_level w)
            [ "var πE *πg.BaseException; _ = πE";
              "for ; πF.State() >= 0; πF.PopCheckpoint() {" ]
          +:+ rendered (indent_level w + 1)
                ("switch πF.State() {" :: clauses ++ ["}"])
          +:+ rendered (indent_level w) (kept_lines body)
          +:+ rendered (indent_level w + 1) [ "return nil, nil" ]
          +:+ rendered (indent_level w) [ "}"; "return nil, πE" ]))
    /\ clauses
       = "case 0:"
         :: map (fun N => "case " +:+ Py.str_int N +:+ ": goto Label"
                          +:+ Py.str_int N) checkpoints
         ++ [ "default: panic(" +:+ Py.chr Py.dquote
              +:+ "unexpected function state" +:+ Py.chr Py.dquote +:+ ")" ]
    /\ (forall (N : Z) (rest : string),
           In ("case " +:+ Py.str_int N +:+ ":" +:+ rest) clauses
           <-> (N = 0%Z /\ rest = EmptyString)
               \/ (In N checkpoints /\ N <> 0%Z
                   /\ rest = " goto Label" +:+ Py.str_int N)).
Proof.
  intros H0. eexists. split; [|split; [reflexivity|]].
  - rewrite write_block_text. unfold block_text, case_line.
    do 4 f_equal. rewrite <- !app_comm_cons, app_nil_l.
    do 2 f_equal. now rewrite <- app_assoc.
  - intros N rest. split.
    + intros [H|H].
      * left. symmetry in H. now apply clause_of_case_0 in H.
      * apply in_app_iff in H as [H|[H|[]]].
        -- apply in_map_iff in H as (M & E & HM). right.
           symmetry in E. apply clause_of_case_line in E as [-> ->].
           split; [exact HM|]. split; [|reflexivity].
           intros ->. contradiction.
        -- discriminate H.
    + intros [[-> ->]|(HN & _ & ->)].
      * left. reflexivity.
      * right. apply in_app_iff. left. apply in_map_iff.
        exists N. split; [|exact HN].
        cbn [String.append]. reflexivity.
Qed.

(** The checkpoints 3 and 7: the clauses of the switch. *)
Lemma write_block_dispatch_witness :
  ~ In 0%Z [3%Z; 7%Z]
  /\ write_block [3%Z; 7%Z] "x = 1" Writer_init
     = (Return tt,
        append_out Writer_init
          (rendered 0 [ "var πE *πg.BaseException; _ = πE";
                        "for ; πF.State() >= 0; πF.PopCheckpoint() {" ]
           +:+ rendered 1 [ "switch πF.State() {";
                            "case 0:";
                            "case 3: goto Label3";
                            "case 7: goto Label7";
                            "default: panic(" +:+ Py.chr Py.dquote
                            +:+ "unexpected function state"
                            +:+ Py.chr Py.dquote +:+ ")";
                            "}" ]
           +:+ rendered 0 [ "x = 1" ]
           +:+ rendered 1 [ "return nil, nil" ]
           +:+ rendered 0 [ "}"; "return nil, πE" ])).
Proof.
  assert (H0 : ~ In 0%Z [3%Z; 7%Z]) by (cbn; intuition discriminate).
  split; [exact H0|].
  destruct (write_block_dispatch [3%Z; 7%Z] "x = 1" Writer_init H0)
    as (clauses & Hrun & -> & _).
  exact Hrun.
Defined.

(** C3 as stated fails. For the checkpoints 0, 3 and 7 the switch holds,
    after the empty clause [case 0:], the clause [case 0: goto Label0]:
    the clauses are not those of the property, which gives a jump to
    every checkpoint other than 0 only. *)
Lemma write_block_zero_counterexample :
  kept_lines (out (snd (write_block [0%Z; 3%Z; 7%Z] "" Writer_init)))
  = [ "var πE *πg.BaseException; _ = πE";
      "for ; πF.State() >= 0; πF.PopCheckpoint() {";
      Py.chr Py.tab +:+ "switch πF.State() {";
      Py.chr Py.tab +:+ "case 0:";
      Py.chr Py.tab +:+ "case 0: goto Label0";
      Py.chr Py.tab +:+ "case 3: goto Label3";
      Py.chr Py.tab +:+ "case 7: goto Label7";
      Py.chr Py.tab +:+ "default: panic(" +:+ Py.chr Py.dquote
      +:+ "unexpected function state" +:+ Py.chr Py.dquote +:+ ")";
      Py.chr Py.tab +:+ "}";
      Py.chr Py.tab +:+ "return nil, nil";
      "}";
      "return nil, πE" ]
  /\ kept_lines (out (snd (write_block [0%Z; 3%Z; 7%Z] "" Writer_init)))
     <> kept_lines (claimed_block_text [0%Z; 3%Z; 7%Z])
  /\ ~ In (Py.chr Py.tab +:+ "case 0: goto Label0")
          (kept_lines (claimed_block_text [0%Z; 3%Z; 7%Z])).
Proof.
  split; [vm_compute; reflexivity|]. split.
  - vm_compute. discriminate.
  - vm_compute. intuition discriminate.
Qed.

Section ImportBlockFacts.

Lemma for_each_ext {S A} (l : list A) (f g : A -> M S unit) (s : S) :
  (forall x s, In x l -> f x s = g x s) -> for_each l f s = for_each l g s.
Proof.
  revert s. induction l as [|x l IH]; intros s H; cbn [for_each]; [reflexivity|].
  unfold bind. rewrite (H x s) by (left; reflexivity).
  destruct (g x s) as [[u|e] s']; [|reflexivity].
  apply IH. intros y s'' Hy. apply H. now right.
Qed.

(** Lookup in a dictionary whose keys are distinct. *)
Lemma dict_get_In (d : dict string) (name alias : string) :
  NoDup (dict_keys d) -> In (name, alias) d -> dict_get d name = Some alias.
Proof.
  induction d as [|[k v] d IH]; simpl; [tauto|].
  intros Hnd [[= -> ->]|Hin].
  - now rewrite String.eqb_refl.
  - apply NoDup_cons in Hnd as [Hk Hnd].
    destruct (String.eqb_spec name k) as [->|_]; [|auto].
    exfalso. apply Hk. apply list_elem_of_In.
    change k with (fst (k, alias)). now apply in_map.
Qed.


Lemma dict_get_key (d : dict string) (name : string) :
  In name (dict_keys d) -> exists alias, dict_get d name = Some alias.
Proof.
  induction d as [|[k v] d IH]; simpl; [tauto|].
  destruct (String.eqb_spec name k) as [->|Hne]; [eauto|].
  intros [E|H]; [congruence | auto].
Qed.


Lemma sorted_items_map (d : dict string) :
  sorted_items d = map (dict_item d) (sorted (dict_keys d)).
Proof.
  unfold sorted_items.
  assert (H : forall name, In name (sorted (dict_keys d)) -> In name (dict_keys d)).
  { intros name Hn. apply list_elem_of_In.
    rewrite <- (merge_sort_Permutation String.le). now apply list_elem_of_In. }
  induction (sorted (dict_keys d)) as [|name l IH]; [reflexivity|].
  cbn [omap list_omap map].
  destruct (dict_get_key d name (H name (or_introl eq_refl))) as [alias E].
  unfold dict_item at 1. rewrite E. cbn. f_equal.
  apply IH. intros n Hn. apply H. now right.
Qed.

Lemma map_item_keys (d : dict string) :
  NoDup (dict_keys d) -> map (dict_item d) (dict_keys d) = d.
Proof.
  intros Hnd. unfold dict_keys. rewrite map_map.
  rewrite <- (map_id d) at 2. apply map_ext_in.
  intros [k v] Hin. unfold dict_item. cbn [fst].
  now rewrite (dict_get_In d k v Hnd Hin).
Qed.

Lemma sorted_items_perm (d : dict string) :
  NoDup (dict_keys d) -> sorted_items d ≡ₚ d.
Proof.
  intros Hnd. rewrite sorted_items_map.
  transitivity (map (dict_item d) (dict_keys d)).
  - apply Permutation_map, merge_sort_Permutation.
  - now rewrite map_item_keys.
Qed.




(** The loop over the sorted names. *)
Lemma write_entries (d : dict string) (names : list string) (w : Writer) :
  (forall name, In name names -> In name (dict_keys d)) ->
  for_each names (fun name =>
    match dict_get d name with
    | Some alias => write (import_entry alias name)
    | None => raise (KeyError name)
    end) w
  = (Return tt,
     append_out w (entries_text (indent_level w) (map (dict_item d) names))).
Proof.
  revert w. induction names as [|name names IH]; intros w H; cbn [for_each map].
  - unfold ret. now rewrite append_out_nil.
  - destruct (dict_get_key d name (H name (or_introl eq_refl))) as [alias E].
    unfold dict_item at 1. rewrite E. cbn [default entries_text].
    rewrite bind_write, IH by (intros n Hn; apply H; now right).
    now rewrite append_out_level, append_out_out.
Qed.

(** [write_import_block] in one equation. *)
Lemma write_import_block_spec (d : dict string) (w : Writer) :
  d <> [] ->
  write_import_block d w
  = (Return tt,
     append_out w
       (rendered (indent_level w) ["import ("]
        +:+ entries_text (indent_level w + 1) (sorted_items d)
        +:+ rendered (indent_level w) [")"])).
Proof.
  intros Hne. unfold write_import_block.
  destruct d as [|p d0] eqn:Ed; [congruence|]. rewrite <- Ed. clear Hne.
  rewrite bind_write.
  erewrite bind_Return.
  2:{ rewrite indent_block_unfold.
      rewrite (write_entries d (sorted (dict_keys d))
                 {| out := _; indent_level := _ |}).
      - cbn [append_out out indent_level]. reflexivity.
      - intros name Hn. apply list_elem_of_In.
        rewrite <- (merge_sort_Permutation String.le). now apply list_elem_of_In. }
  rewrite write_spec. cbn [append_out out indent_level].
  replace (indent_level w + 1 - 1)%Z with (indent_level w) by lia.
  rewrite <- sorted_items_map.
  unfold append_out. cbn [out indent_level]. do 2 f_equal. kept_literals.
  now rewrite !append_assoc'.
Qed.

End ImportBlockFacts.



(* ================================================================== *)
(** * Properties of [Path] *)
(* ================================================================== *)

Section PathFacts.

Variable isfile : string -> bool.

Lemma truthy_app_r (a b : string) :
  Py.truthy_str b = true -> Py.truthy_str (a +:+ b) = true.
Proof. destruct a; simpl; [auto | reflexivity]. Qed.

Lemma join2_truthy (a b : string) :
  Py.truthy_str b = true -> Py.truthy_str (OsPath.join2 a b) = true.
Proof.
  intros Hb. unfold OsPath.join2.
  destruct (Py.startswith b _); [exact Hb|].
  destruct (_ || _); repeat apply truthy_app_r; exact Hb.
Qed.

(** A script that is found has a name. *)
Lemma find_script_truthy (dirname modname script : string) :
  _find_script isfile dirname modname = Some script ->
  Py.truthy_str script = true.
Proof.
  unfold _find_script.
  destruct (isfile _).
  - intros [= <-]. now apply truthy_app_r.
  - destruct (isfile _); [|discriminate].
    intros [= <-]. now apply join2_truthy.
Qed.

Lemma find_script_truthy_iff (dirname modname : string) :
  Py.truthy (_find_script isfile dirname modname)
  = match _find_script isfile dirname modname with
    | Some _ => true
    | None => false
    end.
Proof.
  destruct (_find_script isfile dirname modname) as [s|] eqn:E; [|reflexivity].
  simpl. now apply find_script_truthy in E.
Qed.

(** The search path: the first directory with a match wins. *)
Lemma resolve_in_dirs_first (before after : list string)
      (dirname modname script : string) :
  Forall (fun d => _find_script isfile d modname = None) before ->
  _find_script isfile dirname modname = Some script ->
  resolve_in_dirs isfile (before ++ dirname :: after) modname
  = (Some modname, Some script).
Proof.
  intros Hb Hd. induction Hb as [|d before Hd' _ IH]; simpl.
  - rewrite find_script_truthy_iff, Hd. reflexivity.
  - rewrite find_script_truthy_iff, Hd'. exact IH.
Qed.

Lemma resolve_in_dirs_none (dirs : list string) (modname : string) :
  Forall (fun d => _find_script isfile d modname = None) dirs ->
  resolve_in_dirs isfile dirs modname = (None, None).
Proof.
  induction 1 as [|d dirs Hd _ IH]; simpl; [reflexivity|].
  rewrite find_script_truthy_iff, Hd. exact IH.
Qed.

(** Without a match in the package, the search path decides. *)
Lemma resolve_import_outside_package (self : Path) (modname : string) :
  (forall d, package_dir self = Some d -> d <> EmptyString ->
             _find_script isfile d modname = None) ->
  resolve_import isfile self modname
  = resolve_in_dirs isfile (dirs self) modname.
Proof.
  intros H. unfold resolve_import.
  destruct (package_dir self) as [d|]; [|reflexivity].
  destruct d as [|a d]; [reflexivity|]. cbn [Py.truthy_str].
  rewrite find_script_truthy_iff, (H _ eq_refl) by discriminate. reflexivity.
Qed.

Lemma resolve_import_in_package (self : Path) (modname d script : string) :
  package_dir self = Some d -> d <> EmptyString ->
  _find_script isfile d modname = Some script ->
  resolve_import isfile self modname
  = (Some (format_opt (package_name self) +:+ "." +:+ modname), Some script).
Proof.
  intros Hd Hne Hs. unfold resolve_import. rewrite Hd.
  destruct d as [|a d]; [congruence|]. cbn [Py.truthy_str].
  rewrite find_script_truthy_iff, Hs. reflexivity.
Qed.

(** The order of [Path.resolve_import], a total function of the path
    object, the file system and the name. When the path object holds a
    package directory of non-empty name and the name has a script in
    that directory, the result is the package name, a dot and the name,
    with that script, whatever the search path holds. Otherwise the
    directories of the search path are tried in order and the first one
    with a script gives the name itself with that script. When nothing
    matches the result is [(None, None)]. *)
Theorem resolve_import_order (self : Path) (modname : string) :
  (forall d script,
      package_dir self = Some d -> d <> EmptyString ->
      _find_script isfile d modname = Some script ->
      resolve_import isfile self modname
      = (Some (format_opt (package_name self) +:+ "." +:+ modname), Some script))
  /\ (forall before dirname after script,
      (forall d, package_dir self = Some d -> d <> EmptyString ->
                 _find_script isfile d modname = None) ->
      dirs self = before ++ dirname :: after ->
      Forall (fun d => _find_script isfile d modname = None) before ->
      _find_script isfile dirname modname = Some script ->
      resolve_import isfile self modname = (Some modname, Some script))
  /\ ((forall d, package_dir self = Some d -> d <> EmptyString ->
                 _find_script isfile d modname = None) ->
      Forall (fun d => _find_script isfile d modname = None) (dirs self) ->
      resolve_import isfile self modname = (None, None))
  /\ (forall dirname,
      _find_script isfile dirname modname
      = let prefix := OsPath.join dirname [str_replace "." "/" modname] in
        if isfile (prefix +:+ ".py") then Some (prefix +:+ ".py")
        else if isfile (OsPath.join prefix ["__init__.py"])
             then Some (OsPath.join prefix ["__init__.py"])
             else None)
  /\ (forall gopath modname0 script0,
      gopath <> EmptyString ->
      dirs (Path_init isfile gopath modname0 script0)
      = map (fun root => OsPath.join root ["src"; "__python__"])
            (Py.split ":" gopath))
  /\ (forall gopath modname0 script0 dirname basename,
      OsPath.split script0 = (dirname, basename) ->
      (basename = "__init__.py" ->
       package_dir (Path_init isfile gopath modname0 script0) = Some dirname
       /\ package_name (Path_init isfile gopath modname0 script0) = Some modname0)
      /\ (basename <> "__init__.py" ->
          str_contains "." modname0 = true ->
          isfile (OsPath.join dirname ["__init__.py"]) = true ->
          package_dir (Path_init isfile gopath modname0 script0) = Some dirname
          /\ package_name (Path_init isfile gopath modname0 script0)
             = Some (before_last "." modname0))).
Proof.
  repeat split.
  - intros d script. apply resolve_import_in_package.
  - intros before dirname after script Hp Hd Hb Hs.
    rewrite resolve_import_outside_package, Hd by exact Hp.
    now apply resolve_in_dirs_first.
  - intros Hp Hd. rewrite resolve_import_outside_package by exact Hp.
    now apply resolve_in_dirs_none.
  - intros gopath modname0 script0 Hg. unfold Path_init.
    destruct gopath; [congruence|]. cbn [Py.truthy_str].
    destruct (OsPath.split script0) as [dn bn].
    destruct (String.eqb bn _); [reflexivity|].
    destruct (_ && _); reflexivity.
  - unfold Path_init. rewrite H. subst basename. reflexivity.
  - unfold Path_init. rewrite H. subst basename. reflexivity.
  - unfold Path_init. rewrite H.
    apply String.eqb_neq in H0. rewrite H0, H1, H2. reflexivity.
  - unfold Path_init. rewrite H.
    apply String.eqb_neq in H0. rewrite H0, H1, H2. reflexivity.
Qed.

End PathFacts.

Lemma resolve_import_order_witness :
  package_dir example_package_path = Some "/src/pkg"
  /\ _find_script example_isfile "/src/pkg" "sub2" = Some "/src/pkg/sub2.py"
  /\ _find_script example_isfile "/go/src/__python__" "sub2"
     = Some "/go/src/__python__/sub2.py"
  /\ resolve_import example_isfile example_package_path "sub2"
     = (Some "pkg.sub2", Some "/src/pkg/sub2.py")
  /\ resolve_import example_isfile example_package_path "nothing" = (None, None).
Proof.
  split; [reflexivity|]. split; [reflexivity|]. split; [reflexivity|]. split.
  - refine (proj1 (resolve_import_order example_isfile example_package_path "sub2")
                  "/src/pkg" "/src/pkg/sub2.py" eq_refl _ eq_refl).
    discriminate.
  - refine (proj1 (proj2 (proj2
      (resolve_import_order example_isfile example_package_path "nothing"))) _ _).
    + intros d [= <-] _. reflexivity.
    + repeat constructor.
Defined.

(** C5. A module that is part of a package is to have its imports
    tried against the package first. It is not so when the script is
    named without a directory: compiling [pkg.sub] from [sub.py], next to
    [__init__.py] and [sub2.py], the constructor records the package
    [pkg] with the directory [''], the test [if self.package_dir] takes
    that directory for none, and [sub2] is not found, although its script
    is in the package directory. The same package compiled from
    [./sub.py] resolves [sub2] to [pkg.sub2]. *)
Lemma resolve_import_bare_package :
  package_dir (Path_init (files_system bare_files) "/go" "pkg.sub" "sub.py")
  = Some EmptyString
  /\ package_name (Path_init (files_system bare_files) "/go" "pkg.sub" "sub.py")
     = Some "pkg"
  /\ _find_script (files_system bare_files) EmptyString "sub2" = Some "sub2.py"
  /\ resolve_import (files_system bare_files)
       (Path_init (files_system bare_files) "/go" "pkg.sub" "sub.py") "sub2"
     = (None, None)
  /\ resolve_import (files_system dot_files)
       (Path_init (files_system dot_files) "/go" "pkg.sub" "./sub.py") "sub2"
     = (Some "pkg.sub2", Some "./sub2.py").
Proof. repeat split. Qed.

(* ================================================================== *)
(** * Properties of [ImportVisitor] *)
(* ================================================================== *)

Section VisitorFacts.

Variable isfile : string -> bool.

Lemma native_not_future (module : string) :
  Py.startswith module _NATIVE_MODULE_PREFIX = true ->
  String.eqb module "__future__" = false.
Proof.
  intros H. destruct (String.eqb_spec module "__future__") as [->|]; [|reflexivity].
  discriminate H.
Qed.

(** The bindings added one by one to the object just allocated. *)
Lemma add_member_bindings (names : list ast.alias) (self : ImportVisitor)
      (h : list Import) (obj : Import) :
  heap self = h ++ [obj] ->
  for_each names (fun a =>
    add_binding (List.length h) MEMBER
                (Py.or_else (ast.asname a) (ast.name a)) (VStr (ast.name a))) self
  = (Return tt,
     {| path := path self;
        heap := h ++ [{| name := name obj; is_native := is_native obj;
                         bindings := bindings obj ++ map member_binding names |}];
        imports := imports self;
        queries := queries self |}).
Proof.
  revert self obj. induction names as [|a names IH]; intros self obj Hh;
    cbn [for_each map].
  - unfold ret. rewrite app_nil_r. destruct self, obj; simpl in *. now subst.
  - unfold bind, add_binding at 1.
    rewrite (IH _ (with_binding obj (member_binding a))).
    + cbn [path imports queries with_binding name is_native bindings].
      now rewrite <- app_assoc.
    + cbn [heap]. rewrite Hh.
      replace (List.length h) with (List.length h + 0) by lia.
      now rewrite alter_app_r.
Qed.

Lemma imports_of_app (self : ImportVisitor) (h' : list Import) (new : list nat) pth q :
  wf_visitor self ->
  imports_of {| path := pth; heap := heap self ++ h';
                imports := imports self ++ new; queries := q |}
  = imports_of self
    ++ omap (fun addr => (heap self ++ h') !! addr) new.
Proof.
  intros Hwf. unfold imports_of. cbn [heap imports].
  rewrite omap_app. f_equal.
  induction Hwf as [|addr l Haddr _ IH]; [reflexivity|].
  cbn [omap list_omap]. now rewrite lookup_app_l, IH by exact Haddr.
Qed.

Lemma wf_visitor_init (p : Path) : wf_visitor (ImportVisitor_init p).
Proof. constructor. Qed.

(** *** The native from-import *)

Lemma native_from_import_spec (node : ImportFromNode.t) (module : string)
      (self : ImportVisitor) :
  ImportFromNode.module node = Some module ->
  Py.startswith module _NATIVE_MODULE_PREFIX = true ->
  existsb is_wildcard (ImportFromNode.names node) = false ->
  visit_ImportFrom isfile node self
  = (Return tt,
     {| path := path self;
        heap := heap self
                ++ [{| name := Py.drop_chars 7 module;
                       is_native := true;
                       bindings := map member_binding (ImportFromNode.names node) |}];
        imports := imports self ++ [List.length (heap self)];
        queries := queries self |}).
Proof.
  intros Hm Hn Hw. unfold visit_ImportFrom.
  change (existsb _ (ImportFromNode.names node))
    with (existsb is_wildcard (ImportFromNode.names node)).
  rewrite Hw, Hm, (native_not_future _ Hn), Hn.
  unfold bind at 1, new_Import at 1.
  erewrite bind_Return by (apply add_member_bindings; reflexivity).
  reflexivity.
Qed.

End VisitorFacts.

(** C6. For every from-import whose module begins with [__go__.] and
    that imports no wildcard, [visit_ImportFrom] returns having created
    exactly one [Import]: its name is the module without the prefix, it
    is native, and it carries one [MEMBER] binding per imported name, in
    the order of the statement, from the alias (the name itself when
    there is none) to the name. That [Import] is appended to
    [self.imports]; the path resolver is not called (the record of its
    calls is unchanged, and the result is the same in every file
    system). *)
Theorem visit_ImportFrom_native (isfile : string -> bool)
        (node : ImportFromNode.t) (module : string) (self : ImportVisitor) :
  ImportFromNode.module node = Some module ->
  Py.startswith module _NATIVE_MODULE_PREFIX = true ->
  existsb is_wildcard (ImportFromNode.names node) = false ->
  wf_visitor self ->
  exists self',
    visit_ImportFrom isfile node self = (Return tt, self')
    /\ imports_of self'
       = imports_of self
         ++ [{| name := Py.drop_chars 7 module;
                is_native := true;
                bindings := map member_binding (ImportFromNode.names node) |}]
    /\ queries self' = queries self
    /\ wf_visitor self'
    /\ (forall isfile' : string -> bool,
           visit_ImportFrom isfile' node self = (Return tt, self')).
Proof.
  intros Hm Hn Hw Hwf. eexists.
  split; [now apply (native_from_import_spec isfile node module)|].
  split; [|split; [reflexivity|split]].
  - rewrite imports_of_app by exact Hwf. f_equal.
    cbn [omap list_omap]. rewrite lookup_app_r by lia.
    now rewrite Nat.sub_diag.
  - unfold wf_visitor in *. cbn [heap imports]. rewrite length_app. cbn.
    apply Forall_app. split; [|repeat constructor; lia].
    eapply Forall_impl; [exact Hwf|]. cbn. intros; lia.
  - intros isfile'. now apply (native_from_import_spec isfile' node module).
Qed.

(** [from __go__.foo import Bar as Baz]. *)
Lemma visit_ImportFrom_native_witness :
  exists self',
    visit_ImportFrom example_isfile
      (ImportFromNode.mk (Some "__go__.foo") [ast.mkalias "Bar" (Some "Baz")]
                         (Some 1%Z))
      (ImportVisitor_init example_script_path)
    = (Return tt, self')
    /\ imports_of self'
       = [{| name := "foo"; is_native := true;
             bindings := [{| bind_type := MEMBER; alias := "Baz";
                             value := VStr "Bar" |}] |}]
    /\ queries self' = [].
Proof.
  destruct (visit_ImportFrom_native example_isfile
              (ImportFromNode.mk (Some "__go__.foo") [ast.mkalias "Bar" (Some "Baz")]
                         (Some 1%Z))
              "__go__.foo" (ImportVisitor_init example_script_path)
              eq_refl eq_refl eq_refl (wf_visitor_init _))
    as (self' & Hrun & Himp & Hq & _).
  exists self'. split; [exact Hrun|]. split; [exact Himp | exact Hq].
Defined.

Section PlainImportFacts.

Variable isfile : string -> bool.

Lemma alter_last {A} (f : A -> A) (h : list A) (x : A) :
  alter f (List.length h) (h ++ [x]) = h ++ [f x].
Proof.
  replace (List.length h) with (List.length h + 0) by lia.
  now rewrite alter_app_r.
Qed.

Lemma lookup_last {A} (h : list A) (x : A) :
  (h ++ [x]) !! List.length h = Some x.
Proof. now apply list_lookup_middle. Qed.

(** One name of a plain import, resolved. *)
Lemma visit_Import_alias_ok (lineno : option Z) (a : ast.alias)
      (self : ImportVisitor) (full_name : string) :
  Py.startswith (ast.name a) _NATIVE_MODULE_PREFIX = false ->
  fst (resolve_import isfile (path self) (ast.name a)) = Some full_name ->
  Py.truthy_str full_name = true ->
  visit_Import_alias isfile lineno a self
  = (Return tt,
     with_import self
       {| name := full_name; is_native := false;
          bindings := [module_binding a full_name] |}
       [ast.name a]).
Proof.
  intros Hn Hr Ht. unfold visit_Import_alias. rewrite Hn.
  unfold _resolve_import, bind, path_resolve_import. cbn [path].
  rewrite Hr. cbn [Py.truthy format_opt]. rewrite Ht. cbn [negb].
  unfold new_Import, get_name. cbn [heap path imports queries].
  rewrite lookup_last. cbn [fmap option_fmap option_map default name].
  unfold module_binding, with_import.
  destruct (Py.truthy (ast.asname a));
    unfold add_binding, imports_append; cbn [heap path imports queries];
    rewrite alter_last; reflexivity.
Qed.

(** One name of a plain import, not found. *)
Lemma visit_Import_alias_unresolved (lineno : option Z) (a : ast.alias)
      (self : ImportVisitor) :
  Py.startswith (ast.name a) _NATIVE_MODULE_PREFIX = false ->
  Py.truthy (fst (resolve_import isfile (path self) (ast.name a))) = false ->
  visit_Import_alias isfile lineno a self
  = (Raise (ImportError (compile_error_msg lineno
                           ("no such module: " +:+ ast.name a))),
     with_queries self [ast.name a]).
Proof.
  intros Hn Hr. unfold visit_Import_alias. rewrite Hn.
  unfold _resolve_import, bind, path_resolve_import. cbn [path].
  rewrite Hr. reflexivity.
Qed.

(** One name of a plain import, native. *)
Lemma visit_Import_alias_native (lineno : option Z) (a : ast.alias)
      (self : ImportVisitor) :
  Py.startswith (ast.name a) _NATIVE_MODULE_PREFIX = true ->
  visit_Import_alias isfile lineno a self
  = (Raise (ImportError (compile_error_msg lineno native_import_msg)), self).
Proof. intros Hn. unfold visit_Import_alias. now rewrite Hn. Qed.

(** Whatever the name, the iteration returns or raises an import
    error that cites the line of the statement. *)
Lemma visit_Import_alias_outcome (lineno : option Z) (a : ast.alias)
      (self : ImportVisitor) :
  (exists self',
      visit_Import_alias isfile lineno a self = (Return tt, self')
      /\ Py.startswith (ast.name a) _NATIVE_MODULE_PREFIX = false)
  \/ (exists msg self',
         visit_Import_alias isfile lineno a self
         = (Raise (ImportError (compile_error_msg lineno msg)), self')).
Proof.
  destruct (Py.startswith (ast.name a) _NATIVE_MODULE_PREFIX) eqn:Hn.
  - right. eexists _, _. now apply visit_Import_alias_native.
  - destruct (fst (resolve_import isfile (path self) (ast.name a)))
      as [full_name|] eqn:Hr.
    + destruct (Py.truthy_str full_name) eqn:Ht.
      * left. eexists. split; [|reflexivity].
        eapply visit_Import_alias_ok; eassumption.
      * right. eexists _, _. apply visit_Import_alias_unresolved; [exact Hn|].
        rewrite Hr. exact Ht.
    + right. eexists _, _. apply visit_Import_alias_unresolved; [exact Hn|].
      now rewrite Hr.
Qed.

Lemma visit_Import_native_raises (lineno : option Z) (names : list ast.alias)
      (self : ImportVisitor) :
  existsb (fun a => Py.startswith (ast.name a) _NATIVE_MODULE_PREFIX) names = true ->
  exists msg self',
    for_each names (visit_Import_alias isfile lineno) self
    = (Raise (ImportError (compile_error_msg lineno msg)), self').
Proof.
  revert self. induction names as [|a names IH]; intros self H; [discriminate|].
  cbn [for_each existsb] in *.
  destruct (visit_Import_alias_outcome lineno a self)
    as [(self' & Hrun & Hn)|(msg & self' & Hrun)].
  - rewrite Hn in H. cbn [orb] in H.
    destruct (IH self' H) as (msg & self'' & Hrest).
    exists msg, self''. erewrite bind_Return by exact Hrun. exact Hrest.
  - exists msg, self'. now apply bind_Raise.
Qed.

Lemma with_import_imports_of (self : ImportVisitor) (imp : Import)
      (asked : list string) :
  wf_visitor self ->
  imports_of (with_import self imp asked) = imports_of self ++ [imp]
  /\ wf_visitor (with_import self imp asked).
Proof.
  intros Hwf. split.
  - unfold with_import. rewrite imports_of_app by exact Hwf. f_equal.
    cbn [omap list_omap]. now rewrite lookup_last.
  - unfold wf_visitor, with_import in *. cbn [heap imports].
    rewrite length_app. cbn [List.length].
    apply Forall_app. split; [|repeat constructor; lia].
    eapply Forall_impl; [exact Hwf|]. cbn. intros; lia.
Qed.

Lemma count_nonneg (c : ascii) (s : string) : (0 <= Py.count c s)%Z.
Proof.
  induction s as [|a s IH]; cbn [Py.count]; [lia|].
  destruct (Ascii.eqb a c); lia.
Qed.

Lemma len_split (c : ascii) (s : string) :
  Py.len (Py.split c s) = (Py.count c s + 1)%Z.
Proof.
  unfold Py.len. induction s as [|a s IH]; [reflexivity|].
  cbn [Py.split Py.count]. pose proof (count_nonneg c s).
  destruct (Ascii.eqb a c).
  - cbn [List.length]. lia.
  - destruct (Py.split c s) as [|w ws]; cbn [List.length] in *; lia.
Qed.

(** What [module_binding] binds, in terms of the counts of dots. *)
Lemma module_binding_value (a : ast.alias) (full_name : string) :
  bind_type (module_binding a full_name) = MODULE
  /\ (Py.truthy (ast.asname a) = true ->
      Some (alias (module_binding a full_name)) = ast.asname a
      /\ value (module_binding a full_name) = VInt (Py.count "." full_name))
  /\ (Py.truthy (ast.asname a) = false ->
      value (module_binding a full_name)
      = VInt (Py.count "." full_name - Py.count "." (ast.name a))).
Proof.
  unfold module_binding.
  destruct (Py.truthy (ast.asname a)) eqn:E.
  - split; [reflexivity|]. split; [|discriminate].
    intros _. destruct (ast.asname a); [|discriminate]. now split.
  - split; [reflexivity|]. split; [discriminate|].
    intros _. cbn [value]. rewrite len_split. f_equal. lia.
Qed.

(** All the names of a plain import, each of them resolved. *)
Lemma visit_Import_all_resolved (lineno : option Z) (names : list ast.alias)
      (self : ImportVisitor) :
  wf_visitor self ->
  Forall (fun a =>
            Py.startswith (ast.name a) _NATIVE_MODULE_PREFIX = false
            /\ Py.truthy (fst (resolve_import isfile (path self) (ast.name a)))
               = true) names ->
  exists self',
    for_each names (visit_Import_alias isfile lineno) self = (Return tt, self')
    /\ path self' = path self
    /\ wf_visitor self'
    /\ queries self' = queries self ++ map ast.name names
    /\ imports_of self'
       = imports_of self
         ++ map (fun a =>
                   {| name := format_opt
                                (fst (resolve_import isfile (path self) (ast.name a)));
                      is_native := false;
                      bindings :=
                        [module_binding a
                           (format_opt (fst (resolve_import isfile (path self)
                                                            (ast.name a))))] |})
                names.
Proof.
  intros Hwf Hall. revert self Hwf Hall.
  induction names as [|a names IH]; intros self Hwf Hall; cbn [for_each map].
  - exists self. now rewrite !app_nil_r.
  - apply Forall_cons in Hall as [[Hn Hr] Hall].
    destruct (fst (resolve_import isfile (path self) (ast.name a)))
      as [full_name|] eqn:Hf; [|discriminate].
    cbn [Py.truthy format_opt] in *.
    pose proof (visit_Import_alias_ok lineno a self full_name Hn Hf Hr) as Hrun.
    destruct (with_import_imports_of self
                {| name := full_name; is_native := false;
                   bindings := [module_binding a full_name] |}
                [ast.name a] Hwf) as [Himp Hwf1].
    destruct (IH _ Hwf1 Hall) as (self' & Hrest & Hp & Hwf' & Hq & Hi).
    exists self'. erewrite bind_Return by exact Hrun.
    split; [exact Hrest|]. split; [exact Hp|]. split; [exact Hwf'|].
    split.
    + rewrite Hq. cbn [with_import queries]. now rewrite <- app_assoc.
    + rewrite Hi, Himp. cbn [with_import path]. now rewrite <- app_assoc.
Qed.

End PlainImportFacts.

(** C1, as the code has it. For every plain import statement whose names
    are all resolved (none of them native), [visit_Import] returns and
    has appended exactly one [Import] per imported name, in order; each
    is the [Import] of the absolute name the written name resolves to,
    not native, with one binding, of type [MODULE]. When an alias is
    given the binding is from the alias and its value is the number of
    dots of the absolute name; when none is given its value is the
    number of dots of the absolute name minus the number of dots of the
    written name. *)
Theorem visit_Import_bindings (isfile : string -> bool)
        (node : ImportNode.t) (self : ImportVisitor) :
  wf_visitor self ->
  Forall (fun a =>
            Py.startswith (ast.name a) _NATIVE_MODULE_PREFIX = false
            /\ Py.truthy (fst (resolve_import isfile (path self) (ast.name a)))
               = true) (ImportNode.names node) ->
  exists self' new,
    visit_Import isfile node self = (Return tt, self')
    /\ imports_of self' = imports_of self ++ new
    /\ Forall2 (fun a imp =>
                  fst (resolve_import isfile (path self) (ast.name a))
                  = Some (name imp)
                  /\ is_native imp = false
                  /\ exists b,
                      bindings imp = [b] /\ bind_type b = MODULE
                      /\ (Py.truthy (ast.asname a) = true ->
                          Some (alias b) = ast.asname a
                          /\ value b = VInt (Py.count "." (name imp)))
                      /\ (Py.truthy (ast.asname a) = false ->
                          value b = VInt (Py.count "." (name imp)
                                          - Py.count "." (ast.name a))))
               (ImportNode.names node) new.
Proof.
  intros Hwf Hall.
  destruct (visit_Import_all_resolved isfile (ImportNode.lineno node) _ self Hwf Hall)
    as (self' & Hrun & _ & _ & _ & Hi).
  eexists self', _. split; [exact Hrun|]. split; [exact Hi|].
  apply Forall2_fmap_r, Forall_Forall2_diag.
  eapply Forall_impl; [exact Hall|]. cbn beta. intros a [_ Hr].
  unfold compose. cbn [name is_native bindings].
  destruct (fst (resolve_import isfile (path self) (ast.name a)))
    as [full_name|]; [|discriminate].
  cbn [format_opt].
  split; [reflexivity|]. split; [reflexivity|].
  exists (module_binding a full_name). split; [reflexivity|].
  apply module_binding_value.
Qed.

(** [import a.b.c as x, os] in a script. *)
Lemma visit_Import_bindings_witness :
  exists self',
    visit_Import example_isfile
      (ImportNode.mk [ast.mkalias "a.b.c" (Some "x"); ast.mkalias "os" None] (Some 4%Z))
      (ImportVisitor_init example_script_path)
    = (Return tt, self')
    /\ List.length (imports_of self') = 2.
Proof.
  destruct (visit_Import_bindings example_isfile
              (ImportNode.mk [ast.mkalias "a.b.c" (Some "x"); ast.mkalias "os" None]
                             (Some 4%Z))
              (ImportVisitor_init example_script_path) (wf_visitor_init _))
    as (self' & new & Hrun & Hi & Hall).
  - repeat constructor.
  - exists self'. split; [exact Hrun|].
    rewrite Hi. apply Forall2_length in Hall. cbn in Hall |- *. now rewrite <- Hall.
Defined.

(** C1 as stated fails: the value bound for [import a.b.c as x] is 2, the
    number of dots of [a.b.c], not 0; the value bound for [import a.b.c]
    is 0, not 2 - 2 + 1. *)
Lemma visit_Import_values_counterexample :
  map (fun imp => (name imp, map value (bindings imp)))
      (imports_of (snd (visit_Import example_isfile
         (ImportNode.mk [ast.mkalias "a.b.c" (Some "x"); ast.mkalias "a.b.c" None]
                        (Some 4%Z))
         (ImportVisitor_init example_script_path))))
  = [("a.b.c", [VInt 2]); ("a.b.c", [VInt 0])]
  /\ VInt 2 <> VInt 0
  /\ VInt 0 <> VInt (Py.count "." "a.b.c" - Py.count "." "a.b.c" + 1).
Proof. split; [reflexivity|]. split; discriminate. Qed.

(** The local name bound by [import a.b.c]: the last component of the
    written name. *)
Example visit_Import_local_name :
  map (fun imp => map alias (bindings imp))
      (imports_of (snd (visit_Import example_isfile
         (ImportNode.mk [ast.mkalias "a.b.c" None] (Some 4%Z))
         (ImportVisitor_init example_script_path))))
  = [["c"]].
Proof. reflexivity. Qed.

(** C7. A from-import with a wildcard among its names raises an
    [ImportError] whose message names the module and leaves the visitor
    as it was; a plain import with a name that begins with [__go__.]
    raises an [ImportError] (that of the native name when it comes
    first, with the visitor as it was); the message of either begins with
    the line of the statement when the node has one. Neither returns. *)
Theorem import_errors (isfile : string -> bool) :
  (forall (node : ImportFromNode.t) (self : ImportVisitor),
      existsb is_wildcard (ImportFromNode.names node) = true ->
      visit_ImportFrom isfile node self
      = (Raise (ImportError
                  (compile_error_msg (ImportFromNode.lineno node)
                     ("wildcard member import is not implemented: from "
                      +:+ format_opt (ImportFromNode.module node) +:+ " import *"))),
         self))
  /\ (forall (node : ImportNode.t) (self : ImportVisitor),
         existsb (fun a => Py.startswith (ast.name a) _NATIVE_MODULE_PREFIX)
                 (ImportNode.names node) = true ->
         exists msg self',
           visit_Import isfile node self
           = (Raise (ImportError (compile_error_msg (ImportNode.lineno node) msg)),
              self'))
  /\ (forall (a : ast.alias) (rest : list ast.alias) (lineno : option Z)
             (self : ImportVisitor),
         Py.startswith (ast.name a) _NATIVE_MODULE_PREFIX = true ->
         visit_Import isfile (ImportNode.mk (a :: rest) lineno) self
         = (Raise (ImportError (compile_error_msg lineno native_import_msg)), self))
  /\ (forall (n : Z) (msg : string),
         compile_error_msg (Some n) msg = "line " +:+ Py.str_int n +:+ ": " +:+ msg).
Proof.
  split; [|split; [|split]].
  - intros node self H. unfold visit_ImportFrom.
    change (existsb _ (ImportFromNode.names node))
      with (existsb is_wildcard (ImportFromNode.names node)).
    now rewrite H.
  - intros node self H. now apply visit_Import_native_raises.
  - intros a rest lineno self H. unfold visit_Import. cbn [ImportNode.names for_each].
    apply bind_Raise. now apply visit_Import_alias_native.
  - reflexivity.
Qed.

(** [from __go__.foo import *] at line 7 and [import __go__.foo] at line 9. *)
Lemma import_errors_witness :
  visit_ImportFrom example_isfile
    (ImportFromNode.mk (Some "__go__.foo") [ast.mkalias "*" None] (Some 7%Z))
    (ImportVisitor_init example_script_path)
  = (Raise (ImportError
       "line 7: wildcard member import is not implemented: from __go__.foo import *"),
     ImportVisitor_init example_script_path)
  /\ visit_Import example_isfile
       (ImportNode.mk [ast.mkalias "__go__.foo" None] (Some 9%Z))
       (ImportVisitor_init example_script_path)
     = (Raise (ImportError (compile_error_msg (Some 9%Z) native_import_msg)),
        ImportVisitor_init example_script_path).
Proof.
  split.
  - exact (proj1 (import_errors example_isfile)
             (ImportFromNode.mk (Some "__go__.foo") [ast.mkalias "*" None] (Some 7%Z))
             (ImportVisitor_init example_script_path) eq_refl).
  - exact (proj1 (proj2 (proj2 (import_errors example_isfile)))
             (ast.mkalias "__go__.foo" None) [] (Some 9%Z)
             (ImportVisitor_init example_script_path) eq_refl).
Defined.

Section FromImportFacts.

Variable isfile : string -> bool.
Variable lineno : option Z.
Variable module : string.

Abbreviation loop := (visit_ImportFrom_loop isfile lineno module).

(** *** One iteration *)

Lemma loop_submodule (a : ast.alias) (names : list ast.alias)
      (member_imp : option nat) (self : ImportVisitor) :
  is_submodule isfile (path self) module a = true ->
  loop (a :: names) member_imp self
  = loop names member_imp
      (with_import self (submodule_import isfile (path self) module a)
                   [probe module a]).
Proof.
  intros Hs. cbn [visit_ImportFrom_loop].
  unfold bind at 1, path_resolve_import at 1. cbn [path].
  unfold is_submodule, probe in Hs. rewrite Hs.
  unfold bind, new_Import, get_name, add_binding, imports_append.
  cbn [heap path imports queries].
  rewrite lookup_last. cbn [fmap option_fmap option_map default name].
  rewrite alter_last. reflexivity.
Qed.

Lemma loop_member_known (a : ast.alias) (names : list ast.alias)
      (imp : nat) (self : ImportVisitor) :
  is_submodule isfile (path self) module a = false ->
  loop (a :: names) (Some imp) self
  = loop names (Some imp)
      {| path := path self;
         heap := alter (fun o => with_binding o (member_binding a)) imp (heap self);
         imports := imports self;
         queries := queries self ++ [probe module a] |}.
Proof.
  intros Hs. cbn [visit_ImportFrom_loop].
  unfold bind at 1, path_resolve_import at 1. cbn [path].
  unfold is_submodule, probe in Hs. rewrite Hs. reflexivity.
Qed.

Lemma loop_member_first (a : ast.alias) (names : list ast.alias)
      (self : ImportVisitor) (full_name : string) :
  is_submodule isfile (path self) module a = false ->
  fst (resolve_import isfile (path self) module) = Some full_name ->
  Py.truthy_str full_name = true ->
  loop (a :: names) None self
  = loop names (Some (List.length (heap self)))
      (with_import self
         {| name := full_name; is_native := false;
            bindings := [member_binding a] |}
         [probe module a; module]).
Proof.
  intros Hs Hr Ht. cbn [visit_ImportFrom_loop].
  unfold bind at 1, path_resolve_import at 1. cbn [path].
  unfold is_submodule, probe in Hs. rewrite Hs.
  unfold _resolve_import, bind, path_resolve_import. cbn [path].
  rewrite Hr. cbn [Py.truthy format_opt]. rewrite Ht. cbn [negb].
  unfold new_Import, imports_append, ret, add_binding.
  cbn [heap path imports queries].
  rewrite alter_last. unfold with_import, with_binding, member_binding.
  cbn [name is_native bindings app]. now rewrite <- app_assoc.
Qed.

Lemma loop_member_unresolved (a : ast.alias) (names : list ast.alias)
      (self : ImportVisitor) :
  is_submodule isfile (path self) module a = false ->
  Py.truthy (fst (resolve_import isfile (path self) module)) = false ->
  loop (a :: names) None self
  = (Raise (ImportError (compile_error_msg lineno ("no such module: " +:+ module))),
     with_queries self [probe module a; module]).
Proof.
  intros Hs Hr. cbn [visit_ImportFrom_loop].
  unfold bind at 1, path_resolve_import at 1. cbn [path].
  unfold is_submodule, probe in Hs. rewrite Hs.
  unfold _resolve_import, bind, path_resolve_import. cbn [path].
  rewrite Hr. cbn [negb]. unfold raise, with_queries. cbn [heap path imports queries].
  now rewrite <- app_assoc.
Qed.

(** *** Several iterations *)

Lemma with_imports_nil (self : ImportVisitor) : with_imports self [] [] = self.
Proof.
  destruct self. unfold with_imports. cbn. now rewrite !app_nil_r.
Qed.

Lemma with_import_imports (self : ImportVisitor) (imp : Import)
      (objs : list Import) (asked asked' : list string) :
  with_imports (with_import self imp asked) objs asked'
  = with_imports self (imp :: objs) (asked ++ asked').
Proof.
  unfold with_imports, with_import. cbn [path heap imports queries List.length seq].
  rewrite length_app. cbn [List.length].
  rewrite <- !app_assoc. cbn [app].
  now replace (List.length (heap self) + 1) with (S (List.length (heap self))) by lia.
Qed.

(** Names that are submodules, whatever [member_imp] is. *)
Lemma loop_submodules (pre rest : list ast.alias) (member_imp : option nat)
      (self : ImportVisitor) :
  forallb (is_submodule isfile (path self) module) pre = true ->
  loop (pre ++ rest) member_imp self
  = loop rest member_imp
      (with_imports self
         (map (submodule_import isfile (path self) module) pre)
         (map (probe module) pre)).
Proof.
  revert self. induction pre as [|a pre IH]; intros self H.
  - cbn [app map]. now rewrite with_imports_nil.
  - cbn [forallb] in H. apply andb_true_iff in H as [Ha Hpre].
    cbn [map]. rewrite <- app_comm_cons, loop_submodule by exact Ha.
    rewrite IH by exact Hpre. cbn [with_import path].
    now rewrite with_import_imports.
Qed.

(** Once the [Import] of the module exists: it gets the member
    bindings, the submodules get their own [Import]s, and nothing is
    raised. *)
Lemma loop_members (names : list ast.alias) (self : ImportVisitor)
      (h1 h2 : list Import) (obj : Import) :
  heap self = h1 ++ obj :: h2 ->
  loop names (Some (List.length h1)) self
  = (Return tt,
     {| path := path self;
        heap := h1
                ++ {| name := name obj; is_native := is_native obj;
                      bindings := bindings obj
                                  ++ map member_binding
                                       (plain_members isfile (path self) module names) |}
                :: h2
                ++ map (submodule_import isfile (path self) module)
                       (submodules isfile (path self) module names);
        imports := imports self
                   ++ seq (List.length (heap self))
                          (List.length (submodules isfile (path self) module names));
        queries := queries self ++ map (probe module) names |}).
Proof.
  revert self h2 obj. induction names as [|a names IH]; intros self h2 obj Hh.
  - cbn. unfold ret. rewrite !app_nil_r. destruct self, obj; cbn in *. now subst.
  - unfold plain_members, submodules. cbn [List.filter].
    destruct (is_submodule isfile (path self) module a) eqn:Ha; cbn [negb].
    + rewrite loop_submodule by exact Ha.
      erewrite IH.
      2:{ cbn [with_import heap]. rewrite Hh, <- app_assoc. cbn [app]. reflexivity. }
      cbn [with_import path heap imports queries map List.length seq].
      f_equal. f_equal.
      * rewrite <- !app_assoc. reflexivity.
      * rewrite length_app. cbn [List.length]. rewrite <- !app_assoc. cbn [app].
        now replace (List.length (heap self) + 1)
          with (S (List.length (heap self))) by lia.
      * now rewrite <- app_assoc.
    + rewrite loop_member_known by exact Ha.
      erewrite IH.
      2:{ cbn [heap]. rewrite Hh.
          replace (List.length h1) with (List.length h1 + 0) by lia.
          rewrite alter_app_r. cbn [alter list_alter]. reflexivity. }
      cbn [path heap imports queries map with_binding name is_native bindings].
      f_equal. f_equal.
      * now rewrite <- !app_assoc.
      * rewrite Hh. rewrite length_alter. reflexivity.
      * now rewrite <- app_assoc.
Qed.

Lemma omap_lookup_seq {A} (l1 l2 : list A) :
  omap (fun i => (l1 ++ l2) !! i) (seq (List.length l1) (List.length l2)) = l2.
Proof.
  revert l1. induction l2 as [|x l2 IH]; intros l1; [reflexivity|].
  cbn [List.length seq omap list_omap].
  rewrite list_lookup_middle by reflexivity. f_equal.
  specialize (IH (l1 ++ [x])). rewrite <- app_assoc in IH. cbn [app] in IH.
  rewrite length_app in IH. cbn [List.length] in IH.
  now replace (List.length l1 + 1) with (S (List.length l1)) in IH by lia.
Qed.

Lemma imports_of_with_imports (self : ImportVisitor) (objs : list Import)
      (asked : list string) :
  wf_visitor self ->
  imports_of (with_imports self objs asked) = imports_of self ++ objs.
Proof.
  intros Hwf. unfold with_imports. rewrite imports_of_app by exact Hwf.
  now rewrite omap_lookup_seq.
Qed.

Lemma probe_not_module (a : ast.alias) : probe module a <> module.
Proof.
  unfold probe. induction module as [|c m IH]; [discriminate|].
  cbn [String.append]. intros [= H]. now apply IH.
Qed.

(** *** The whole loop, from [member_imp = None] *)

Lemma loop_all_submodules (names : list ast.alias) (self : ImportVisitor) :
  forallb (is_submodule isfile (path self) module) names = true ->
  loop names None self
  = (Return tt,
     with_imports self
       (map (submodule_import isfile (path self) module) names)
       (map (probe module) names)).
Proof.
  intros H. rewrite <- (app_nil_r names) at 1.
  now rewrite loop_submodules.
Qed.

Lemma plain_members_split (p : Path) (pre rest : list ast.alias) (a : ast.alias) :
  forallb (is_submodule isfile p module) pre = true ->
  is_submodule isfile p module a = false ->
  plain_members isfile p module (pre ++ a :: rest)
  = a :: plain_members isfile p module rest.
Proof.
  intros Hpre Ha. unfold plain_members.
  induction pre as [|b pre IH].
  - rewrite app_nil_l. cbn [List.filter]. now rewrite Ha.
  - cbn [forallb] in Hpre. apply andb_true_iff in Hpre as [Hb Hpre].
    rewrite <- app_comm_cons. cbn [List.filter]. rewrite Hb. cbn [negb]. auto.
Qed.

Lemma loop_with_members (pre rest : list ast.alias) (a : ast.alias)
      (self : ImportVisitor) (full_name : string) :
  forallb (is_submodule isfile (path self) module) pre = true ->
  is_submodule isfile (path self) module a = false ->
  fst (resolve_import isfile (path self) module) = Some full_name ->
  Py.truthy_str full_name = true ->
  loop (pre ++ a :: rest) None self
  = (Return tt,
     with_imports self
       (map (submodule_import isfile (path self) module) pre
        ++ [{| name := full_name; is_native := false;
               bindings := map member_binding
                             (plain_members isfile (path self) module
                                            (pre ++ a :: rest)) |}]
        ++ map (submodule_import isfile (path self) module)
               (submodules isfile (path self) module rest))
       (map (probe module) pre ++ [probe module a; module]
        ++ map (probe module) rest)).
Proof.
  intros Hpre Ha Hr Ht.
  rewrite loop_submodules by exact Hpre.
  rewrite (loop_member_first a rest _ full_name) by assumption.
  erewrite (loop_members rest _ _ []) by reflexivity.
  rewrite plain_members_split by assumption.
  unfold with_imports, with_import.
  cbn [path heap imports queries name is_native bindings map].
  f_equal. f_equal.
  - rewrite <- !app_assoc. reflexivity.
  - rewrite !length_app, !length_map. cbn [List.length].
    rewrite <- !app_assoc. f_equal.
    rewrite seq_app. f_equal.
    replace (List.length (heap self) + List.length pre + 1)
      with (S (List.length (heap self) + List.length pre)) by lia.
    reflexivity.
  - rewrite <- !app_assoc. reflexivity.
Qed.

Lemma loop_module_unresolved (pre rest : list ast.alias) (a : ast.alias)
      (self : ImportVisitor) :
  forallb (is_submodule isfile (path self) module) pre = true ->
  is_submodule isfile (path self) module a = false ->
  Py.truthy (fst (resolve_import isfile (path self) module)) = false ->
  loop (pre ++ a :: rest) None self
  = (Raise (ImportError (compile_error_msg lineno ("no such module: " +:+ module))),
     with_imports self
       (map (submodule_import isfile (path self) module) pre)
       (map (probe module) pre ++ [probe module a; module])).
Proof.
  intros Hpre Ha Hr.
  rewrite loop_submodules by exact Hpre.
  rewrite loop_member_unresolved by assumption.
  unfold with_queries, with_imports. cbn [path heap imports queries].
  now rewrite <- app_assoc.
Qed.

End FromImportFacts.

(** C4. For every from-import that is neither a wildcard import, nor
    from [__future__], nor native, each imported name [n] is first asked
    of the resolver as [m.n]. A name that resolves gets an [Import] of its
    own for the absolute name found, with one [MODULE] binding. At the
    first name that does not resolve, [m] itself is asked of the resolver,
    once: when it is not found the statement ends in an [ImportError]
    that names [m]; when it is found, one [Import] for it is appended
    there, and it carries one [MEMBER] binding (alias, or the name itself,
    to the name) for every name of the statement that is not a
    submodule, in order. No name asked as [m.n] is [m], so [m] is asked
    at most once. *)
Theorem visit_ImportFrom_members (isfile : string -> bool)
        (node : ImportFromNode.t) (module : string) (self : ImportVisitor) :
  ImportFromNode.module node = Some module ->
  existsb is_wildcard (ImportFromNode.names node) = false ->
  String.eqb module "__future__" = false ->
  Py.startswith module _NATIVE_MODULE_PREFIX = false ->
  wf_visitor self ->
  (forallb (is_submodule isfile (path self) module)
           (ImportFromNode.names node) = true ->
   exists self',
     visit_ImportFrom isfile node self = (Return tt, self')
     /\ imports_of self'
        = imports_of self
          ++ map (submodule_import isfile (path self) module)
                 (ImportFromNode.names node)
     /\ queries self'
        = queries self
          ++ map (probe module) (ImportFromNode.names node))
  /\ (forall pre a rest full_name,
         ImportFromNode.names node = pre ++ a :: rest ->
         forallb (is_submodule isfile (path self) module) pre
         = true ->
         is_submodule isfile (path self) module a = false ->
         fst (resolve_import isfile (path self) module)
         = Some full_name ->
         Py.truthy_str full_name = true ->
         exists self',
           visit_ImportFrom isfile node self = (Return tt, self')
           /\ imports_of self'
              = imports_of self
                ++ map (submodule_import isfile (path self)
                                         module) pre
                ++ [{| name := full_name; is_native := false;
                       bindings :=
                         map member_binding
                             (plain_members isfile (path self)
                                module
                                (ImportFromNode.names node)) |}]
                ++ map (submodule_import isfile (path self)
                                         module)
                       (submodules isfile (path self)
                                   module rest)
           /\ queries self'
              = queries self
                ++ map (probe module) pre
                ++ [probe module a; module]
                ++ map (probe module) rest)
  /\ (forall pre a rest,
         ImportFromNode.names node = pre ++ a :: rest ->
         forallb (is_submodule isfile (path self) module) pre
         = true ->
         is_submodule isfile (path self) module a = false ->
         Py.truthy (fst (resolve_import isfile (path self)
                                        module)) = false ->
         exists self',
           visit_ImportFrom isfile node self
           = (Raise (ImportError
                       (compile_error_msg (ImportFromNode.lineno node)
                          ("no such module: " +:+ module))),
              self')
           /\ imports_of self'
              = imports_of self
                ++ map (submodule_import isfile (path self)
                                         module) pre)
  /\ (forall a, probe module a <> module).
Proof.
  intros Hm Hw Hf Hn Hwf.
  assert (Hrun : visit_ImportFrom isfile node self
                 = visit_ImportFrom_loop isfile (ImportFromNode.lineno node)
                     module (ImportFromNode.names node)
                     None self).
  { unfold visit_ImportFrom.
    change (existsb _ (ImportFromNode.names node))
      with (existsb is_wildcard (ImportFromNode.names node)).
    now rewrite Hw, Hm, Hf, Hn. }
  rewrite Hrun. split; [|split; [|split]].
  - intros Hall. eexists. split; [now apply loop_all_submodules|].
    split; [now apply imports_of_with_imports | reflexivity].
  - intros pre a rest full_name -> Hpre Ha Hr Ht.
    eexists. split; [now apply (loop_with_members _ _ _ pre rest a self full_name)|].
    split; [now apply imports_of_with_imports | reflexivity].
  - intros pre a rest -> Hpre Ha Hr.
    eexists. split; [now apply loop_module_unresolved|].
    now apply imports_of_with_imports.
  - apply probe_not_module.
Qed.

(** [from lib import CONST, submod, X as Y], where [lib/submod.py]
    exists. *)
Lemma visit_ImportFrom_members_witness :
  exists self',
    visit_ImportFrom example_isfile
      (ImportFromNode.mk (Some "lib")
         [ast.mkalias "CONST" None; ast.mkalias "submod" None;
          ast.mkalias "X" (Some "Y")] (Some 2%Z))
      (ImportVisitor_init example_script_path)
    = (Return tt, self')
    /\ imports_of self'
       = [ {| name := "lib"; is_native := false;
              bindings := [ {| bind_type := MEMBER; alias := "CONST";
                               value := VStr "CONST" |};
                            {| bind_type := MEMBER; alias := "Y";
                               value := VStr "X" |} ] |};
           {| name := "lib.submod"; is_native := false;
              bindings := [ {| bind_type := MODULE; alias := "submod";
                               value := VInt 1 |} ] |} ]
    /\ queries self' = ["lib.CONST"; "lib"; "lib.submod"; "lib.X"].
Proof.
  exact (proj1 (proj2
    (visit_ImportFrom_members example_isfile
       (ImportFromNode.mk (Some "lib")
          [ast.mkalias "CONST" None; ast.mkalias "submod" None;
           ast.mkalias "X" (Some "Y")] (Some 2%Z))
       "lib" (ImportVisitor_init example_script_path)
       eq_refl eq_refl eq_refl eq_refl (wf_visitor_init _)))
    [] (ast.mkalias "CONST" None)
    [ast.mkalias "submod" None; ast.mkalias "X" (Some "Y")]
    "lib" eq_refl eq_refl eq_refl eq_refl eq_refl).
Defined.

(* ================================================================== *)
(** * Further properties of [go_str] *)
(* ================================================================== *)

Section GoStrBytes.

Lemma hex_escapes_read_back :
  forallb hex_escape_reads_back (map N.of_nat (seq 0 256)) = true.
Proof. vm_compute. reflexivity. Qed.

Lemma hex_escape_byte (c : N) :
  (c < 256)%N -> hex_escape_reads_back c = true.
Proof.
  intros Hc. pose proof hex_escapes_read_back as H.
  rewrite forallb_forall in H. apply H.
  rewrite <- (N2Nat.id c). apply in_map, in_seq. lia.
Qed.

(** One character below 256, read back. *)
Lemma go_str_char_unescape_byte (c : N) (rest : string) :
  (c < 256)%N ->
  go_unescape (go_str_char c +:+ rest) = option_map (cons c) (go_unescape rest).
Proof.
  intros Hc.
  destruct (escapes_get_cases c)
    as [[-> E]|[[-> E]|[[-> E]|[[-> E]|[[-> E]|(E & H34 & H92 & _)]]]]];
    try (rewrite E; reflexivity).
  unfold go_str_char. rewrite E.
  destruct (in_chars c _SIMPLE_CHARS) eqn:S.
  - destruct (simple_char_facts c S H34 H92) as (_ & Hpl & Hid).
    simpl. now rewrite (plain_not_backslash _ Hpl), Hpl, Hid.
  - pose proof (hex_escape_byte c Hc) as Hx. unfold hex_escape_reads_back in Hx.
    destruct (Py.format_02x c) as [|h1 [|h2 [|? ?]]]; try discriminate Hx.
    destruct (hex_digit_value h1) as [v1|] eqn:E1; [|discriminate Hx].
    destruct (hex_digit_value h2) as [v2|] eqn:E2; [|discriminate Hx].
    apply N.eqb_eq in Hx. simpl. now rewrite E1, E2, Hx.
Qed.

Lemma hex_digit_value_bound (a : ascii) (v : N) :
  hex_digit_value a = Some v -> (v <= 15)%N.
Proof.
  unfold hex_digit_value.
  repeat match goal with
         | |- context [if ?b then _ else _] => destruct b eqn:?
         end; intros [= <-];
    repeat match goal with
           | H : _ && _ = true |- _ => apply andb_true_iff in H as [? ?]
           | H : (_ <=? _)%N = true |- _ => apply N.leb_le in H
           end; lia.
Qed.

(** A code point above 255 is read back as a smaller one. *)
Lemma go_str_char_unescape_wide (c : N) (rest : string) (l : list N) :
  (256 <= c)%N -> go_unescape (go_str_char c +:+ rest) <> Some (c :: l).
Proof.
  intros Hc.
  destruct (escapes_get_cases c)
    as [[-> E]|[[-> E]|[[-> E]|[[-> E]|[[-> E]|(E & H34 & H92 & _)]]]]];
    try lia.
  unfold go_str_char. rewrite E.
  destruct (in_chars c _SIMPLE_CHARS) eqn:S.
  - apply in_chars_inv in S as (a & _ & ->).
    pose proof (N_ascii_bounded a). lia.
  - destruct (format_02x_shape c) as (h1 & h2 & more & -> & Hall).
    simpl in Hall |- *.
    repeat match goal with
           | H : _ && _ = true |- _ => apply andb_true_iff in H as [? ?]
           end.
    unfold is_hex_digit in *.
    destruct (hex_digit_value h1) as [v1|] eqn:E1; [|discriminate].
    destruct (hex_digit_value h2) as [v2|] eqn:E2; [|discriminate].
    apply hex_digit_value_bound in E1, E2.
    destruct (go_unescape (more +:+ rest)); simpl; [|discriminate].
    intros [= Hv _]. lia.
Qed.

Lemma go_str_interior_unescape_iff (value : list N) :
  go_unescape (go_str_interior value) = Some value
  <-> Forall (fun c => (c < 256)%N) value.
Proof.
  induction value as [|c value IH]; simpl.
  - split; [constructor | reflexivity].
  - destruct (N.lt_ge_cases c 256) as [Hc|Hc].
    + rewrite go_str_char_unescape_byte by exact Hc. split.
      * intros H. constructor; [exact Hc|]. apply IH.
        destruct (go_unescape (go_str_interior value)); [|discriminate].
        simpl in H. congruence.
      * intros H. apply Forall_cons in H as [_ H]. apply IH in H.
        now rewrite H.
    + split.
      * intros H. now apply go_str_char_unescape_wide in H.
      * intros H. apply Forall_cons in H as [H _]. lia.
Qed.

End GoStrBytes.

(** [go_str] reads back as its argument exactly when every character of
    the argument is below 256: the hexadecimal escape has two digits for a
    byte, and more for a wider code point, of which Go reads two. *)
Theorem go_str_lossless_iff_bytes (value : list N) :
  go_unquote (go_str value) = Some value
  <-> Forall (fun c => (c < 256)%N) value.
Proof.
  unfold go_unquote. rewrite strip_quotes_go_str.
  apply go_str_interior_unescape_iff.
Qed.

(** The literal of a concatenation: the interiors follow each other
    between one pair of quotes. *)
Theorem go_str_app (value1 value2 : list N) :
  go_str (value1 ++ value2)
  = Py.chr Py.dquote +:+ go_str_interior value1 +:+ go_str_interior value2
    +:+ Py.chr Py.dquote
  /\ strip_quotes (go_str (value1 ++ value2))
     = option_map (fun i => i +:+ go_str_interior value2)
                  (strip_quotes (go_str value1)).
Proof.
  assert (H : go_str_interior (value1 ++ value2)
              = go_str_interior value1 +:+ go_str_interior value2).
  { induction value1 as [|c v IH]; [reflexivity|].
    rewrite <- app_comm_cons. cbn [go_str_interior].
    now rewrite IH, append_assoc'. }
  split.
  - now rewrite go_str_shape, H, append_assoc'.
  - now rewrite !strip_quotes_go_str, H.
Qed.

(** Two byte strings with the same literal are equal; beyond bytes two
    different strings can have the same literal. *)
Theorem go_str_injective_bytes :
  (forall value1 value2 : list N,
      Forall (fun c => (c < 256)%N) value1 ->
      Forall (fun c => (c < 256)%N) value2 ->
      go_str value1 = go_str value2 -> value1 = value2)
  /\ go_str [256%N] = go_str [16%N; 48%N].
Proof.
  split; [|reflexivity].
  intros value1 value2 H1 H2 E.
  assert (E' : go_unescape (go_str_interior value1)
               = go_unescape (go_str_interior value2)).
  { pose proof (strip_quotes_go_str value1) as S1.
    pose proof (strip_quotes_go_str value2) as S2.
    rewrite E in S1. congruence. }
  apply go_str_interior_unescape_iff in H1, H2. congruence.
Qed.

Lemma go_str_injective_bytes_witness :
  Forall (fun c => (c < 256)%N) [0%N; 233%N; 34%N]
  /\ (go_str [0%N; 233%N; 34%N] = go_str [0%N; 233%N; 34%N] ->
      [0%N; 233%N; 34%N] = [0%N; 233%N; 34%N]).
Proof.
  assert (H : Forall (fun c => (c < 256)%N) [0%N; 233%N; 34%N])
    by (repeat constructor).
  split; [exact H|].
  exact (proj1 go_str_injective_bytes _ _ H H).
Defined.

(* ================================================================== *)
(** * Further properties of [Writer] *)
(* ================================================================== *)

Section WriteFacts.

Lemma split_nonempty (c : ascii) (s : string) : Py.split c s <> [].
Proof.
  destruct s as [|a s]; cbn [Py.split]; [discriminate|].
  destruct (Ascii.eqb a c); [discriminate|].
  destruct (Py.split c s); discriminate.
Qed.

(** Splitting at a separator that is known to be there. *)
Lemma split_app (c : ascii) (s t : string) :
  Py.split c (s +:+ String c t) = Py.split c s ++ Py.split c t.
Proof.
  induction s as [|a s IH].
  - cbn [String.append Py.split]. now rewrite Ascii.eqb_refl.
  - change (String a s +:+ String c t) with (String a (s +:+ String c t)).
    cbn [Py.split]. rewrite IH.
    destruct (Ascii.eqb a c); [reflexivity|].
    pose proof (split_nonempty c s).
    destruct (Py.split c s) as [|w ws]; [congruence | reflexivity].
Qed.

Lemma kept_lines_app (s t : string) :
  kept_lines (s +:+ String Py.lf t) = kept_lines s ++ kept_lines t.
Proof. unfold kept_lines. now rewrite split_app, filter_app. Qed.

End WriteFacts.

(** Writing two texts joined by a line feed is writing the one, then the
    other. *)
Theorem write_concat (output1 output2 : string) (w : Writer) :
  write (output1 +:+ Py.chr Py.lf +:+ output2) w
  = (write output1 ;;; write output2) w.
Proof.
  rewrite bind_write, !write_spec. cbn [append_out indent_level].
  change (output1 +:+ Py.chr Py.lf +:+ output2)
    with (output1 +:+ String Py.lf output2).
  rewrite kept_lines_app, rendered_app.
  unfold append_out. cbn [out indent_level]. now rewrite append_assoc'.
Qed.

(** [write_label] never raises, keeps the depth, and writes the label one
    level to the left of the current depth: at depth one or less, in the
    first column. *)
Theorem write_label_dedented (label : Z) (w : Writer) :
  write_label label w
  = (Return tt,
     append_out w (indented_line (indent_level w - 1)
                                 ("Label" +:+ Py.str_int label +:+ ":")))
  /\ ((indent_level w <= 1)%Z ->
      write_label label w
      = (Return tt,
         append_out w ("Label" +:+ Py.str_int label +:+ ":" +:+ Py.chr Py.lf))).
Proof.
  assert (Hk : kept_lines ("Label" +:+ Py.str_int label +:+ ":")
               = ["Label" +:+ Py.str_int label +:+ ":"]).
  { apply kept_lines_single; [|reflexivity].
    pose proof (all_chars_weaken _ _ _ int_char_not_lf (str_int_chars label)) as H.
    rewrite !all_chars_app, H. reflexivity. }
  assert (E : write_label label w
              = (Return tt,
                 append_out w (indented_line (indent_level w - 1)
                                 ("Label" +:+ Py.str_int label +:+ ":")))).
  { unfold write_label. rewrite write_body_dedented, Hk.
    cbn [rendered]. now rewrite append_nil_r. }
  split; [exact E|].
  intros Hl. rewrite E. unfold indented_line, Py.str_mul.
  replace (Z.to_nat (indent_level w - 1)) with 0 by lia.
  cbn [Py.repeat_string]. do 2 f_equal.
  change (EmptyString +:+ ?x) with x. now rewrite !append_assoc'.
Qed.

Lemma write_label_dedented_witness :
  (indent_level Writer_init <= 1)%Z
  /\ write_label 3 Writer_init
     = (Return tt, append_out Writer_init ("Label3:" +:+ Py.chr Py.lf)).
Proof.
  assert (H : (indent_level Writer_init <= 1)%Z) by (cbn; lia).
  split; [exact H|].
  exact (proj2 (write_label_dedented 3 Writer_init) H).
Defined.

Section CommentAndCallFacts.

Lemma no_lf_kept (s : string) :
  all_chars not_lf s = true ->
  kept_lines s = if Py.truthy_str s then [s] else [].
Proof.
  intros H. unfold kept_lines. rewrite (split_no_lf s H).
  destruct (Py.truthy_str s) eqn:E.
  - now rewrite filter_cons_True, filter_nil.
  - rewrite filter_cons_False by congruence. apply filter_nil.
Qed.

Lemma str_int_no_lf (n : Z) : all_chars not_lf (Py.str_int n) = true.
Proof. exact (all_chars_weaken _ _ _ int_char_not_lf (str_int_chars n)). Qed.

Lemma substitute_py_context (lineno : Z) (line : string) :
  Template.substitute "// line $lineno: $line"
                      [("lineno", Py.str_int lineno); ("line", line)]
  = Return ("// line " +:+ Py.str_int lineno +:+ ": " +:+ line).
Proof. unfold Template.substitute. simpl. now rewrite append_nil_r. Qed.

Lemma substitute_checked_call1 (call : string) :
  Template.substitute checked_call1_tmpl [("call", call)]
  = Return (("if πE = " +:+ call +:+ "; πE != nil {")
            +:+ String Py.lf ((Py.chr Py.tab +:+ "continue")
            +:+ String Py.lf "}")).
Proof.
  unfold Template.substitute. simpl. now rewrite !append_assoc'.
Qed.

Lemma substitute_checked_call2 (result call : string) :
  Template.substitute checked_call2_tmpl [("result", result); ("call", call)]
  = Return (("if " +:+ result +:+ ", πE = " +:+ call +:+ "; πE != nil {")
            +:+ String Py.lf ((Py.chr Py.tab +:+ "continue")
            +:+ String Py.lf "}")).
Proof.
  unfold Template.substitute. simpl.
  rewrite !append_assoc'. simpl. now rewrite !append_assoc'.
Qed.

End CommentAndCallFacts.

(** For a source line without a line break, [write_py_context] never
    raises and writes one comment line, [// line N: text], at the current
    depth. *)
Theorem write_py_context_comment (lineno : Z) (line : string) (w : Writer) :
  all_chars not_lf line = true ->
  write_py_context lineno line w
  = (Return tt,
     append_out w (indented_line (indent_level w)
                     ("// line " +:+ Py.str_int lineno +:+ ": " +:+ line))).
Proof.
  intros Hl. unfold write_py_context, write_tmpl.
  rewrite substitute_py_context, write_spec, no_lf_kept.
  - cbn [Py.truthy_str String.append rendered]. now rewrite append_nil_r.
  - rewrite !all_chars_app, str_int_no_lf, Hl. reflexivity.
Qed.

Lemma write_py_context_comment_witness :
  all_chars not_lf "x = f(1)" = true
  /\ write_py_context 12 "x = f(1)" Writer_init
     = (Return tt, append_out Writer_init ("// line 12: x = f(1)" +:+ Py.chr Py.lf)).
Proof.
  split; [reflexivity|].
  exact (write_py_context_comment 12 "x = f(1)" Writer_init eq_refl).
Defined.

(** For a call (and a result variable) without a line break, a checked
    call never raises and writes three lines at the current depth: the
    call with the pending exception as its last result and the test of
    that exception, a [continue] one tab further, and the closing
    brace. *)
Theorem write_checked_call_lines (result call : string) (w : Writer) :
  all_chars not_lf result = true -> all_chars not_lf call = true ->
  write_checked_call1 call w
  = (Return tt,
     append_out w (rendered (indent_level w)
                     [ "if πE = " +:+ call +:+ "; πE != nil {";
                       Py.chr Py.tab +:+ "continue";
                       "}" ]))
  /\ write_checked_call2 result call w
     = (Return tt,
        append_out w (rendered (indent_level w)
                        [ "if " +:+ result +:+ ", πE = " +:+ call +:+ "; πE != nil {";
                          Py.chr Py.tab +:+ "continue";
                          "}" ])).
Proof.
  intros Hr Hc. split.
  - unfold write_checked_call1, write_tmpl.
    rewrite substitute_checked_call1, write_spec, !kept_lines_app.
    rewrite (no_lf_kept ("if πE = " +:+ call +:+ "; πE != nil {"))
      by (rewrite !all_chars_app, Hc; reflexivity).
    reflexivity.
  - unfold write_checked_call2, write_tmpl.
    rewrite substitute_checked_call2, write_spec, !kept_lines_app.
    rewrite (no_lf_kept ("if " +:+ result +:+ ", πE = " +:+ call +:+ "; πE != nil {"))
      by (rewrite !all_chars_app, Hr, Hc; reflexivity).
    reflexivity.
Qed.

Lemma write_checked_call_lines_witness :
  all_chars not_lf "πTemp001" = true
  /\ all_chars not_lf "πg.Add(πF, a, b)" = true
  /\ write_checked_call2 "πTemp001" "πg.Add(πF, a, b)" Writer_init
     = (Return tt,
        append_out Writer_init
          (rendered 0 [ "if πTemp001, πE = πg.Add(πF, a, b); πE != nil {";
                        Py.chr Py.tab +:+ "continue"; "}" ])).
Proof.
  split; [reflexivity|]. split; [reflexivity|].
  exact (proj2 (write_checked_call_lines "πTemp001" "πg.Add(πF, a, b)"
                  Writer_init eq_refl eq_refl)).
Defined.

Section TempFacts.

#[local] Instance name_le_total : Total name_le.
Proof. intros a b. apply (total String.le). Qed.

#[local] Instance name_le_trans : Transitive name_le.
Proof. intros a b c. unfold name_le. apply transitivity. Qed.

Lemma temp_decl_kept (temp : Temp.t) :
  all_chars not_lf (Temp.name temp) = true ->
  all_chars not_lf (Temp.type_ temp) = true ->
  kept_lines (temp_decl temp) = decl_lines temp.
Proof.
  intros Hn Ht. unfold temp_decl, decl_lines.
  replace ("var " +:+ Temp.name temp +:+ " " +:+ Temp.type_ temp +:+ Py.chr Py.lf
           +:+ "_ = " +:+ Temp.name temp)
    with (("var " +:+ Temp.name temp +:+ " " +:+ Temp.type_ temp)
          +:+ String Py.lf ("_ = " +:+ Temp.name temp))
    by (now rewrite !append_assoc').
  rewrite kept_lines_app, !no_lf_kept
    by (rewrite ?all_chars_app, ?Hn, ?Ht; reflexivity).
  reflexivity.
Qed.

Lemma write_decls (temps : list Temp.t) (w : Writer) :
  Forall (fun t => all_chars not_lf (Temp.name t) = true
                   /\ all_chars not_lf (Temp.type_ t) = true) temps ->
  for_each temps (fun temp => write (temp_decl temp)) w
  = (Return tt,
     append_out w (rendered (indent_level w) (flat_map decl_lines temps))).
Proof.
  intros H. revert w. induction H as [|t temps [Hn Ht] _ IH]; intros w.
  - cbn. unfold ret. now rewrite append_out_nil.
  - cbn [for_each flat_map]. rewrite bind_write, IH.
    rewrite append_out_level, append_out_out, rendered_app.
    now rewrite temp_decl_kept.
Qed.

Lemma same_name_same_temp (temps : list Temp.t) (a b : Temp.t) :
  NoDup (map Temp.name temps) -> In a temps -> In b temps ->
  Temp.name a = Temp.name b -> a = b.
Proof.
  induction temps as [|t temps IH]; [intros _ []|].
  cbn [map]. intros Hnd Ha Hb E. apply NoDup_cons in Hnd as [Ht Hnd].
  destruct Ha as [->|Ha], Hb as [->|Hb]; auto.
  - exfalso. apply Ht. rewrite E. apply list_elem_of_In. now apply in_map.
  - exfalso. apply Ht. rewrite <- E. apply list_elem_of_In. now apply in_map.
Qed.

Lemma sorted_by_name_order (temps temps' : list Temp.t) :
  NoDup (map Temp.name temps) -> temps ≡ₚ temps' ->
  sorted_by_name temps' = sorted_by_name temps.
Proof.
  intros Hnd Hp. unfold sorted_by_name.
  apply (StronglySorted_unique_strong name_le).
  - intros a b Ha Hb Hab Hba.
    rewrite merge_sort_Permutation in Ha, Hb. rewrite <- Hp in Ha.
    apply (same_name_same_temp temps); try (now apply list_elem_of_In); auto.
    apply (anti_symm String.le); assumption.
  - apply StronglySorted_merge_sort; apply _.
  - apply StronglySorted_merge_sort; apply _.
  - now rewrite !merge_sort_Permutation.
Qed.

End TempFacts.

(** For temporaries of pairwise distinct names, whose names and types
    hold no line break, [write_temp_decls] never raises and declares
    every temporary of the set exactly once, in the order of their names,
    each with the two lines [var name type] and [_ = name]. The output
    does not depend on the order in which the set yields its elements. *)
Theorem write_temp_decls_sorted (all_temps : list Temp.t) (w : Writer) :
  NoDup (map Temp.name all_temps) ->
  Forall (fun t => all_chars not_lf (Temp.name t) = true
                   /\ all_chars not_lf (Temp.type_ t) = true) all_temps ->
  write_temp_decls all_temps w
  = (Return tt,
     append_out w (rendered (indent_level w)
                     (flat_map decl_lines (sorted_by_name all_temps))))
  /\ sorted_by_name all_temps ≡ₚ all_temps
  /\ Sorted String.le (map Temp.name (sorted_by_name all_temps))
  /\ (forall temps' : list Temp.t,
        all_temps ≡ₚ temps' ->
        write_temp_decls temps' w = write_temp_decls all_temps w).
Proof.
  intros Hnd Hall. split; [|split; [|split]].
  - unfold write_temp_decls. apply write_decls.
    unfold sorted_by_name. now rewrite merge_sort_Permutation.
  - apply merge_sort_Permutation.
  - apply (Sorted_fmap Temp.name name_le String.le).
    + auto.
    + apply Sorted_merge_sort. apply name_le_total.
  - intros temps' Hp. unfold write_temp_decls.
    now rewrite (sorted_by_name_order all_temps temps' Hnd Hp).
Qed.

Lemma write_temp_decls_sorted_witness :
  Forall (fun t => all_chars not_lf (Temp.name t) = true
                   /\ all_chars not_lf (Temp.type_ t) = true)
         [Temp.mk "πTemp002" "*πg.Object"; Temp.mk "πTemp001" "[]*πg.Object"]
  /\ NoDup (map Temp.name
              [Temp.mk "πTemp002" "*πg.Object"; Temp.mk "πTemp001" "[]*πg.Object"])
  /\ write_temp_decls
       [Temp.mk "πTemp002" "*πg.Object"; Temp.mk "πTemp001" "[]*πg.Object"]
       Writer_init
     = (Return tt,
        append_out Writer_init
          (rendered 0 [ "var πTemp001 []*πg.Object"; "_ = πTemp001";
                        "var πTemp002 *πg.Object"; "_ = πTemp002" ]))
  /\ write_temp_decls
       [Temp.mk "πTemp001" "[]*πg.Object"; Temp.mk "πTemp002" "*πg.Object"]
       Writer_init
     = write_temp_decls
         [Temp.mk "πTemp002" "*πg.Object"; Temp.mk "πTemp001" "[]*πg.Object"]
         Writer_init.
Proof.
  assert (Hall : Forall (fun t => all_chars not_lf (Temp.name t) = true
                                  /\ all_chars not_lf (Temp.type_ t) = true)
                        [Temp.mk "πTemp002" "*πg.Object";
                         Temp.mk "πTemp001" "[]*πg.Object"])
    by (repeat constructor).
  assert (Hnd : NoDup (map Temp.name
                         [Temp.mk "πTemp002" "*πg.Object";
                          Temp.mk "πTemp001" "[]*πg.Object"]))
    by (apply (bool_decide_unpack _); vm_compute; exact I).
  split; [exact Hall|]. split; [exact Hnd|]. split.
  - exact (proj1 (write_temp_decls_sorted _ Writer_init Hnd Hall)).
  - apply (proj2 (proj2 (proj2 (write_temp_decls_sorted _ Writer_init Hnd Hall)))).
    apply perm_swap.
Defined.

Section ImportBlockLines.

Lemma import_entry_kept (alias name : string) :
  all_chars not_lf name = true -> all_chars not_lf alias = true ->
  kept_lines (import_entry alias name) = [import_entry alias name].
Proof.
  intros Hn Ha. rewrite no_lf_kept.
  - unfold import_entry. now rewrite truthy_app_r.
  - unfold import_entry. rewrite !all_chars_app, Hn, Ha. reflexivity.
Qed.

Lemma entries_text_lines (level : Z) (items : list (string * string)) :
  Forall item_no_lf items ->
  entries_text level items = rendered level (map item_entry items).
Proof.
  induction 1 as [|[name alias] items [Hn Ha] _ IH]; [reflexivity|].
  cbn [entries_text map rendered]. cbn [fst snd] in Hn, Ha.
  rewrite IH, import_entry_kept by assumption.
  cbn [rendered]. now rewrite append_nil_r.
Qed.

End ImportBlockLines.

(** An empty mapping writes nothing. A mapping whose names and aliases
    hold no line break is written as [import (], then one line
    [alias "name"] per item, one level deeper and in the order of the
    names, then [)]: as many lines as items, and two. *)
Theorem write_import_block_lines (imports : dict string) (w : Writer) :
  NoDup (dict_keys imports) -> Forall item_no_lf imports ->
  write_import_block [] w = (Return tt, w)
  /\ (imports <> [] ->
      write_import_block imports w
      = (Return tt,
         append_out w
           (rendered (indent_level w) ["import ("]
            +:+ rendered (indent_level w + 1) (map item_entry (sorted_items imports))
            +:+ rendered (indent_level w) [")"]))
      /\ List.length (map item_entry (sorted_items imports)) = List.length imports).
Proof.
  intros Hnd Hall. split; [reflexivity|]. intros Hne.
  pose proof (sorted_items_perm imports Hnd) as Hp. split.
  - rewrite write_import_block_spec by exact Hne.
    rewrite entries_text_lines; [reflexivity|]. now rewrite Hp.
  - rewrite length_map. now rewrite Hp.
Qed.

Lemma write_import_block_lines_witness :
  NoDup (dict_keys [("os", "π_os"); ("a/b", "b")])
  /\ Forall item_no_lf [("os", "π_os"); ("a/b", "b")]
  /\ write_import_block [("os", "π_os"); ("a/b", "b")] Writer_init
     = (Return tt,
        append_out Writer_init
          (rendered 0 ["import ("]
           +:+ rendered 1 [ "b " +:+ Py.chr Py.dquote +:+ "a/b" +:+ Py.chr Py.dquote;
                            "π_os " +:+ Py.chr Py.dquote +:+ "os" +:+ Py.chr Py.dquote ]
           +:+ rendered 0 [")"])).
Proof.
  assert (Hnd : NoDup (dict_keys [("os", "π_os"); ("a/b", "b")]))
    by (apply (bool_decide_unpack _); vm_compute; exact I).
  assert (Hall : Forall item_no_lf [("os", "π_os"); ("a/b", "b")])
    by (repeat constructor).
  split; [exact Hnd|]. split; [exact Hall|].
  refine (proj1 (proj2 (write_import_block_lines _ Writer_init Hnd Hall) _)).
  discriminate.
Defined.

(* ================================================================== *)
(** * Further properties of [Path] *)
(* ================================================================== *)

Section PathSound.

Variable isfile : string -> bool.

Lemma join2_suffix (a b : string) : exists x, OsPath.join2 a b = x +:+ b.
Proof.
  unfold OsPath.join2. destruct (Py.startswith b _).
  - now exists EmptyString.
  - destruct (_ || _).
    + now exists a.
    + exists (a +:+ Py.chr OsPath.sep). now rewrite append_assoc'.
Qed.

(** What [_find_script] finds is a file whose name ends in [.py]. *)
Lemma find_script_sound (dirname modname script : string) :
  _find_script isfile dirname modname = Some script ->
  isfile script = true /\ exists stem, script = stem +:+ ".py".
Proof.
  unfold _find_script.
  destruct (isfile (_ +:+ ".py")) eqn:E1.
  - intros [= <-]. split; [exact E1 | eauto].
  - destruct (isfile (OsPath.join _ _)) eqn:E2; [|discriminate].
    intros [= <-]. split; [exact E2|].
    cbn [OsPath.join fold_left].
    destruct (join2_suffix
                (OsPath.join dirname [str_replace "." OsPath.sep modname])
                "__init__.py") as [x Hx].
    exists (x +:+ "__init__"). cbn [OsPath.join fold_left] in Hx.
    rewrite Hx. now rewrite append_assoc'.
Qed.

Lemma resolve_in_dirs_sound (dirs : list string) (modname : string) :
  match resolve_in_dirs isfile dirs modname with
  | (Some full_name, Some script) =>
      full_name = modname
      /\ exists dirname, In dirname dirs
                         /\ _find_script isfile dirname modname = Some script
  | (None, None) =>
      Forall (fun d => _find_script isfile d modname = None) dirs
  | _ => False
  end.
Proof.
  induction dirs as [|d dirs IH]; cbn [resolve_in_dirs]; [constructor|].
  rewrite find_script_truthy_iff.
  destruct (_find_script isfile d modname) as [s|] eqn:E.
  - split; [reflexivity|]. exists d. split; [now left | exact E].
  - destruct (resolve_in_dirs isfile dirs modname) as [[f|] [s|]]; try exact IH.
    + destruct IH as [-> (d' & Hd & Hs)]. split; [reflexivity|].
      exists d'. split; [now right | exact Hs].
    + now constructor.
Qed.

End PathSound.

(** What [resolve_import] returns is either a full name with a script, or
    [(None, None)]. A script it returns is a file of the file system and
    its name ends in [.py]; it was found in the package directory, of
    non-empty name, and the full name is then the package name, a dot and
    the name asked, or in a directory of the search path, and the full
    name is then the name asked. [(None, None)] is returned only when no
    directory of the search path has a script for the name and the
    package directory, if there is one of non-empty name, has none
    either; a package directory of empty name is not looked at. *)
Theorem resolve_import_sound (isfile : string -> bool) (self : Path)
        (modname : string) :
  match resolve_import isfile self modname with
  | (Some full_name, Some script) =>
      isfile script = true
      /\ (exists stem, script = stem +:+ ".py")
      /\ ((exists d, package_dir self = Some d /\ d <> EmptyString
                     /\ _find_script isfile d modname = Some script
                     /\ full_name = format_opt (package_name self) +:+ "."
                                    +:+ modname)
          \/ (full_name = modname
              /\ exists dirname, In dirname (dirs self)
                                 /\ _find_script isfile dirname modname
                                    = Some script))
  | (None, None) =>
      Forall (fun d => _find_script isfile d modname = None) (dirs self)
      /\ (forall d, package_dir self = Some d -> d <> EmptyString ->
                    _find_script isfile d modname = None)
  | _ => False
  end.
Proof.
  pose proof (resolve_in_dirs_sound isfile (dirs self) modname) as Hd.
  unfold resolve_import.
  destruct (package_dir self) as [[|a d]|] eqn:Hp; cbn [Py.truthy_str].
  - destruct (resolve_in_dirs isfile (dirs self) modname) as [[f|] [s|]];
      try exact Hd.
    + destruct Hd as [-> (dn & Hin & Hs)].
      destruct (find_script_sound isfile _ _ _ Hs) as [Hf Hst].
      split; [exact Hf|]. split; [exact Hst|]. right. eauto.
    + split; [exact Hd|]. intros d' [= <-] Hne. congruence.
  - rewrite find_script_truthy_iff.
    destruct (_find_script isfile (String a d) modname) as [s|] eqn:Es.
    + destruct (find_script_sound isfile _ _ _ Es) as [Hf Hst].
      split; [exact Hf|]. split; [exact Hst|]. left.
      exists (String a d). repeat split; [discriminate | exact Es].
    + destruct (resolve_in_dirs isfile (dirs self) modname) as [[f|] [s|]];
        try exact Hd.
      * destruct Hd as [-> (dn & Hin & Hs)].
        destruct (find_script_sound isfile _ _ _ Hs) as [Hf Hst].
        split; [exact Hf|]. split; [exact Hst|]. right. eauto.
      * split; [exact Hd|]. intros d' [= <-] _. exact Es.
  - destruct (resolve_in_dirs isfile (dirs self) modname) as [[f|] [s|]];
      try exact Hd.
    + destruct Hd as [-> (dn & Hin & Hs)].
      destruct (find_script_sound isfile _ _ _ Hs) as [Hf Hst].
      split; [exact Hf|]. split; [exact Hst|]. right. eauto.
    + split; [exact Hd|]. intros d' [=].
Qed.

(* ================================================================== *)
(** * What the visitor does to its state, whatever the statement *)
(* ================================================================== *)

Section VisitorGrowth.

Variable isfile : string -> bool.

Lemma with_imports_wf (self : ImportVisitor) (objs : list Import)
      (asked : list string) :
  wf_visitor self -> wf_visitor (with_imports self objs asked).
Proof.
  unfold wf_visitor, with_imports. cbn [heap imports]. intros Hwf.
  rewrite length_app. apply Forall_app. split.
  - eapply Forall_impl; [exact Hwf|]. cbn beta. intros; lia.
  - apply Forall_forall. intros addr Hin. apply elem_of_seq in Hin. lia.
Qed.

Lemma with_queries_imports (self : ImportVisitor) (asked : list string) :
  with_queries self asked = with_imports self [] asked.
Proof.
  unfold with_queries, with_imports. cbn [List.length seq].
  now rewrite !app_nil_r.
Qed.

Lemma names_decompose {A} (p : A -> bool) (names : list A) :
  forallb p names = true
  \/ exists pre a rest,
      names = pre ++ a :: rest /\ forallb p pre = true /\ p a = false.
Proof.
  induction names as [|a names IH]; [now left|].
  cbn [forallb]. destruct (p a) eqn:Ha.
  - destruct IH as [IH|(pre & b & rest & -> & Hpre & Hb)]; [now left|].
    right. exists (a :: pre), b, rest. cbn [forallb]. now rewrite Ha.
  - right. now exists [], a, names.
Qed.

(** The loop of [visit_Import]: the state it leaves, and how far it
    got. *)
Lemma visit_Import_loop_shape (lineno : option Z) (names : list ast.alias)
      (self : ImportVisitor) :
  exists r objs asked,
    for_each names (visit_Import_alias isfile lineno) self
    = (r, with_imports self objs asked)
    /\ List.length objs <= List.length asked
    /\ List.length asked <= List.length names
    /\ ((r = Return tt /\ List.length objs = List.length names)
        \/ (exists msg,
               r = Raise (ImportError (compile_error_msg lineno msg))
               /\ List.length objs < List.length names)).
Proof.
  revert self. induction names as [|a names IH]; intros self.
  - exists (Return tt), [], []. rewrite with_imports_nil.
    cbn [for_each List.length]. repeat split; try lia. now left.
  - cbn [for_each List.length].
    destruct (Py.startswith (ast.name a) _NATIVE_MODULE_PREFIX) eqn:Hn.
    { eexists _, [], []. rewrite with_imports_nil.
      erewrite bind_Raise by (now apply visit_Import_alias_native).
      cbn [List.length]. repeat split; try lia. right. eexists. split; [reflexivity|lia]. }
    destruct (Py.truthy (fst (resolve_import isfile (path self) (ast.name a))))
      eqn:Hr.
    + destruct (fst (resolve_import isfile (path self) (ast.name a)))
        as [full_name|] eqn:Hf; [|discriminate].
      cbn [Py.truthy] in Hr.
      erewrite bind_Return
        by (eapply visit_Import_alias_ok; eassumption).
      destruct (IH (with_import self
                      {| name := full_name; is_native := false;
                         bindings := [module_binding a full_name] |}
                      [ast.name a]))
        as (r & objs & asked & Hrun & Hoa & Han & Hres).
      rewrite with_import_imports in Hrun.
      eexists r, (_ :: objs), (_ :: asked). split; [exact Hrun|].
      cbn [List.length app]. repeat split; try lia.
      destruct Hres as [[-> Hlen]|(msg & -> & Hlen)].
      * left. split; [reflexivity|lia].
      * right. exists msg. split; [reflexivity|lia].
    + erewrite bind_Raise
        by (apply visit_Import_alias_unresolved; eassumption).
      rewrite with_queries_imports.
      eexists _, [], [_]. split; [reflexivity|].
      cbn [List.length]. repeat split; try lia.
      right. eexists. split; [reflexivity|lia].
Qed.

(** [visit_ImportFrom]: the state it leaves, and the number of calls of
    the resolver. *)
Lemma visit_ImportFrom_shape (node : ImportFromNode.t) (self : ImportVisitor) :
  exists r objs asked,
    visit_ImportFrom isfile node self = (r, with_imports self objs asked)
    /\ List.length asked <= List.length (ImportFromNode.names node) + 1
    /\ List.length objs <= Nat.max 1 (List.length (ImportFromNode.names node))
    /\ (r = Return tt
        \/ (exists msg,
               r = Raise (ImportError
                            (compile_error_msg (ImportFromNode.lineno node) msg)))
        \/ (ImportFromNode.module node = None
            /\ existsb is_wildcard (ImportFromNode.names node) = false
            /\ r = Raise (AttributeError none_startswith_msg)
            /\ objs = [] /\ asked = [])).
Proof.
  destruct (existsb is_wildcard (ImportFromNode.names node)) eqn:Hw.
  { unfold visit_ImportFrom.
    change (existsb _ (ImportFromNode.names node))
      with (existsb is_wildcard (ImportFromNode.names node)).
    rewrite Hw. eexists _, [], []. rewrite with_imports_nil.
    split; [reflexivity|]. cbn [List.length]. repeat split; try lia.
    right. left. eexists. reflexivity. }
  destruct (ImportFromNode.module node) as [module|] eqn:Hm.
  2:{ unfold visit_ImportFrom.
      change (existsb _ (ImportFromNode.names node))
        with (existsb is_wildcard (ImportFromNode.names node)).
      rewrite Hw, Hm. eexists _, [], []. rewrite with_imports_nil.
      split; [reflexivity|]. cbn [List.length]. repeat split; try lia.
      right. right. repeat split. }
  destruct (Py.startswith module _NATIVE_MODULE_PREFIX) eqn:Hn.
  { rewrite (native_from_import_spec isfile node module self Hm Hn Hw).
    eexists (Return tt), [_], []. split.
    - unfold with_imports. cbn [List.length seq]. now rewrite app_nil_r.
    - cbn [List.length]. repeat split; try lia. now left. }
  unfold visit_ImportFrom.
  change (existsb _ (ImportFromNode.names node))
    with (existsb is_wildcard (ImportFromNode.names node)).
  rewrite Hw, Hm, Hn.
  destruct (String.eqb module "__future__").
  { exists (Return tt), [], []. rewrite with_imports_nil.
    split; [reflexivity|]. cbn [List.length]. repeat split; try lia. now left. }
  destruct (names_decompose
              (is_submodule isfile (path self) module)
              (ImportFromNode.names node))
    as [Hall|(pre & a & rest & -> & Hpre & Ha)].
  - rewrite loop_all_submodules by exact Hall.
    eexists _, _, _. split; [reflexivity|].
    rewrite !length_map. repeat split; try lia. now left.
  - destruct (fst (resolve_import isfile (path self) module))
      as [full_name|] eqn:Hf.
    + destruct (Py.truthy_str full_name) eqn:Ht.
      * rewrite (loop_with_members isfile _ _ pre rest a self full_name)
          by assumption.
        eexists _, _, _. split; [reflexivity|].
        rewrite !length_app, !length_map. cbn [List.length].
        pose proof (List.filter_length_le
                      (is_submodule isfile (path self) module) rest) as Hle.
        unfold submodules. repeat split; try lia. now left.
      * rewrite loop_module_unresolved by (try assumption; now rewrite Hf).
        eexists _, _, _. split; [reflexivity|].
        rewrite !length_app, !length_map. cbn [List.length].
        repeat split; try lia. right. left. eexists. reflexivity.
    + rewrite loop_module_unresolved by (try assumption; now rewrite Hf).
      eexists _, _, _. split; [reflexivity|].
      rewrite !length_app, !length_map. cbn [List.length].
      repeat split; try lia. right. left. eexists. reflexivity.
Qed.

End VisitorGrowth.

Section PlainImportFailure.

Variable isfile : string -> bool.

Lemma for_each_app {S A} (l1 l2 : list A) (body : A -> M S unit) (s s1 : S) :
  for_each l1 body s = (Return tt, s1) ->
  for_each (l1 ++ l2) body s = for_each l2 body s1.
Proof.
  revert s. induction l1 as [|x l1 IH]; intros s H.
  - cbn [for_each] in H. unfold ret in H. now injection H as <-.
  - rewrite <- app_comm_cons. cbn [for_each] in *. unfold bind in *.
    destruct (body x s) as [[[]|e] s']; [|discriminate].
    now apply IH.
Qed.

End PlainImportFailure.

(** Whatever the plain import statement, and whether it returns or
    raises: the visitor keeps its path, the [Import]s it held stay as
    they were and new ones are only appended, the resolver is asked at
    most once per imported name and at least once per [Import] created,
    and the only exception raised is an [ImportError] that cites the line
    of the statement. The statement returns exactly when it has created
    one [Import] per name; when it raises, the [Import]s of the names
    before the failing one have been appended all the same. *)
Theorem visit_Import_grows (isfile : string -> bool) (node : ImportNode.t)
        (self : ImportVisitor) :
  wf_visitor self ->
  exists r self' new asked,
    visit_Import isfile node self = (r, self')
    /\ path self' = path self
    /\ wf_visitor self'
    /\ imports_of self' = imports_of self ++ new
    /\ queries self' = queries self ++ asked
    /\ List.length new <= List.length asked
    /\ List.length asked <= List.length (ImportNode.names node)
    /\ ((r = Return tt /\ List.length new = List.length (ImportNode.names node))
        \/ (exists msg,
               r = Raise (ImportError
                            (compile_error_msg (ImportNode.lineno node) msg))
               /\ List.length new < List.length (ImportNode.names node))).
Proof.
  intros Hwf.
  destruct (visit_Import_loop_shape isfile (ImportNode.lineno node)
              (ImportNode.names node) self)
    as (r & objs & asked & Hrun & Hoa & Han & Hres).
  exists r, (with_imports self objs asked), objs, asked.
  split; [exact Hrun|]. split; [reflexivity|].
  split; [now apply with_imports_wf|].
  split; [now apply imports_of_with_imports|].
  split; [reflexivity|]. auto.
Qed.

(** [import os, nosuch, lib] in a script. *)
Lemma visit_Import_grows_witness :
  exists r self' new asked,
    visit_Import example_isfile
      (ImportNode.mk [ast.mkalias "os" None; ast.mkalias "nosuch" None;
                      ast.mkalias "lib" None] (Some 3%Z))
      (ImportVisitor_init example_script_path) = (r, self')
    /\ path self' = example_script_path
    /\ wf_visitor self'
    /\ imports_of self' = [] ++ new
    /\ queries self' = [] ++ asked
    /\ List.length new <= List.length asked
    /\ List.length asked <= 3
    /\ ((r = Return tt /\ List.length new = 3)
        \/ (exists msg,
               r = Raise (ImportError (compile_error_msg (Some 3%Z) msg))
               /\ List.length new < 3)).
Proof.
  exact (visit_Import_grows example_isfile
           (ImportNode.mk [ast.mkalias "os" None; ast.mkalias "nosuch" None;
                           ast.mkalias "lib" None] (Some 3%Z))
           (ImportVisitor_init example_script_path)
           (wf_visitor_init example_script_path)).
Defined.

(** A plain import statement whose first name that cannot be resolved is
    [a], the names before it being resolved and none of them native,
    raises the [ImportError] [no such module: a]. It is not undone: the
    [Import]s of the names before [a] have been appended, in order, the
    resolver has been asked for these names and for [a], and the names
    after [a] have not been looked at. *)
Theorem visit_Import_first_failure (isfile : string -> bool)
        (pre rest : list ast.alias) (a : ast.alias) (lineno : option Z)
        (self : ImportVisitor) :
  wf_visitor self ->
  Forall (fun b =>
            Py.startswith (ast.name b) _NATIVE_MODULE_PREFIX = false
            /\ Py.truthy (fst (resolve_import isfile (path self) (ast.name b)))
               = true) pre ->
  Py.startswith (ast.name a) _NATIVE_MODULE_PREFIX = false ->
  Py.truthy (fst (resolve_import isfile (path self) (ast.name a))) = false ->
  exists self' new,
    visit_Import isfile (ImportNode.mk (pre ++ a :: rest) lineno) self
    = (Raise (ImportError (compile_error_msg lineno
                             ("no such module: " +:+ ast.name a))),
       self')
    /\ imports_of self' = imports_of self ++ new
    /\ map name new
       = map (fun b => format_opt
                         (fst (resolve_import isfile (path self) (ast.name b))))
             pre
    /\ queries self' = queries self ++ map ast.name pre ++ [ast.name a].
Proof.
  intros Hwf Hpre Hn Hr.
  destruct (visit_Import_all_resolved isfile lineno pre self Hwf Hpre)
    as (self1 & Hrun & Hp & _ & Hq & Hi).
  unfold visit_Import. cbn [ImportNode.names ImportNode.lineno].
  rewrite (for_each_app _ _ _ _ _ Hrun). cbn [for_each].
  eexists (with_queries self1 [ast.name a]), _.
  split.
  - apply bind_Raise. apply visit_Import_alias_unresolved; [exact Hn|].
    now rewrite Hp.
  - split; [exact Hi|]. split.
    + rewrite map_map. reflexivity.
    + cbn [with_queries queries]. rewrite Hq. now rewrite <- app_assoc.
Qed.

(** [import os, nosuch, lib] in a script, at line 3. *)
Lemma visit_Import_first_failure_witness :
  exists self' new,
    visit_Import example_isfile
      (ImportNode.mk [ast.mkalias "os" None; ast.mkalias "nosuch" None;
                      ast.mkalias "lib" None] (Some 3%Z))
      (ImportVisitor_init example_script_path)
    = (Raise (ImportError "line 3: no such module: nosuch"), self')
    /\ imports_of self' = new
    /\ map name new = ["os"]
    /\ queries self' = ["os"; "nosuch"].
Proof.
  refine (visit_Import_first_failure example_isfile
            [ast.mkalias "os" None] [ast.mkalias "lib" None]
            (ast.mkalias "nosuch" None) (Some 3%Z)
            (ImportVisitor_init example_script_path)
            (wf_visitor_init example_script_path) _ eq_refl eq_refl).
  repeat constructor.
Defined.

(** Whatever the from-import statement, also one without a module name
    ([from . import x]), and whether it returns or raises: the visitor
    keeps its path, the [Import]s it held stay as they were and new ones
    are only appended, and the resolver is asked at most once per
    imported name and once more for the module. The statement returns,
    or raises an [ImportError] that cites the line of the statement, or,
    when it has no module name and imports no wildcard, raises the
    [AttributeError] of [None.startswith], the visitor being then as it
    was. *)
Theorem visit_ImportFrom_grows (isfile : string -> bool)
        (node : ImportFromNode.t) (self : ImportVisitor) :
  wf_visitor self ->
  exists r self' new asked,
    visit_ImportFrom isfile node self = (r, self')
    /\ path self' = path self
    /\ wf_visitor self'
    /\ imports_of self' = imports_of self ++ new
    /\ queries self' = queries self ++ asked
    /\ List.length asked <= List.length (ImportFromNode.names node) + 1
    /\ List.length new <= Nat.max 1 (List.length (ImportFromNode.names node))
    /\ (r = Return tt
        \/ (exists msg,
               r = Raise (ImportError
                            (compile_error_msg (ImportFromNode.lineno node) msg)))
        \/ (ImportFromNode.module node = None
            /\ existsb is_wildcard (ImportFromNode.names node) = false
            /\ r = Raise (AttributeError none_startswith_msg)
            /\ new = [] /\ asked = [])).
Proof.
  intros Hwf.
  destruct (visit_ImportFrom_shape isfile node self)
    as (r & objs & asked & Hrun & Ha & Ho & Hres).
  exists r, (with_imports self objs asked), objs, asked.
  split; [exact Hrun|]. split; [reflexivity|].
  split; [now apply with_imports_wf|].
  split; [now apply imports_of_with_imports|].
  split; [reflexivity|]. auto.
Qed.

(** [from . import helper], at line 5 of a script: the visitor is left as
    it was. *)
Lemma visit_ImportFrom_grows_witness :
  visit_ImportFrom example_isfile
    (ImportFromNode.mk None [ast.mkalias "helper" None] (Some 5%Z))
    (ImportVisitor_init example_script_path)
  = (Raise (AttributeError none_startswith_msg),
     ImportVisitor_init example_script_path)
  /\ exists r self' new asked,
      visit_ImportFrom example_isfile
        (ImportFromNode.mk (Some "lib") [ast.mkalias "submod" None;
                                         ast.mkalias "helper" (Some "h")]
                           (Some 5%Z))
        (ImportVisitor_init example_script_path) = (r, self')
      /\ path self' = example_script_path
      /\ wf_visitor self'
      /\ imports_of self' = [] ++ new
      /\ queries self' = [] ++ asked
      /\ List.length asked <= 2 + 1
      /\ List.length new <= Nat.max 1 2
      /\ (r = Return tt
          \/ (exists msg,
                 r = Raise (ImportError (compile_error_msg (Some 5%Z) msg)))
          \/ (Some "lib" = None
              /\ false = false
              /\ r = Raise (AttributeError none_startswith_msg)
              /\ new = [] /\ asked = [])).
Proof.
  split; [reflexivity|].
  exact (visit_ImportFrom_grows example_isfile
           (ImportFromNode.mk (Some "lib") [ast.mkalias "submod" None;
                                            ast.mkalias "helper" (Some "h")]
                              (Some 5%Z))
           (ImportVisitor_init example_script_path)
           (wf_visitor_init example_script_path)).
Defined.

(* ================================================================== *)
(** * The path object the constructor builds *)
(* ================================================================== *)

Section PathInitFacts.

Variable isfile : string -> bool.

Lemma endswith_sep_app (x y : string) :
  y <> EmptyString ->
  OsPath.endswith_sep (x +:+ y) = OsPath.endswith_sep y.
Proof.
  intros Hy. induction x as [|a x IH]; [reflexivity|].
  cbn [String.append]. destruct (x +:+ y) as [|b s] eqn:E.
  - destruct x; [now cbn in E | discriminate].
  - cbn [OsPath.endswith_sep] in *. exact IH.
Qed.

(** A root joined with [src] and [__python__]. *)
Lemma join_src_python (root : string) :
  OsPath.join root ["src"; "__python__"]
  = if negb (Py.truthy_str root) || OsPath.endswith_sep root
    then root +:+ "src/__python__"
    else root +:+ "/src/__python__".
Proof.
  cbn [OsPath.join fold_left].
  assert (Hj : forall x, OsPath.join2 (x +:+ "src") "__python__"
                         = x +:+ "src/__python__").
  { intros x. unfold OsPath.join2. cbn [Py.startswith String.prefix Py.chr].
    change (Ascii.eqb _ _) with false. cbv iota.
    rewrite endswith_sep_app by discriminate.
    replace (Py.truthy_str (x +:+ "src")) with true
      by (now destruct x).
    cbn [negb orb OsPath.endswith_sep]. change (Ascii.eqb _ _) with false.
    cbv iota. now rewrite append_assoc'. }
  unfold OsPath.join2 at 2. cbn [Py.startswith String.prefix Py.chr].
  change (Ascii.eqb "s" OsPath.sep) with false. cbv iota.
  destruct (negb (Py.truthy_str root) || OsPath.endswith_sep root).
  - apply Hj.
  - specialize (Hj (root +:+ "/")). rewrite !append_assoc' in Hj.
    exact Hj.
Qed.

Lemma dirs_Path_init (gopath modname script : string) :
  dirs (Path_init isfile gopath modname script)
  = if Py.truthy_str gopath
    then map (fun d => OsPath.join d ["src"; "__python__"])
             (Py.split OsPath.pathsep gopath)
    else [].
Proof.
  unfold Path_init. destruct (OsPath.split script) as [dn bn].
  destruct (String.eqb bn _); [reflexivity|].
  destruct (_ && _); reflexivity.
Qed.

Lemma cut_last_sep_bare (p : string) :
  str_contains OsPath.sep p = false ->
  OsPath.cut_last_sep p = (EmptyString, p).
Proof.
  induction p as [|a p IH]; [reflexivity|].
  cbn [str_contains OsPath.cut_last_sep]. intros H.
  apply orb_false_iff in H as [Ha Hp]. rewrite (IH Hp), Ha. reflexivity.
Qed.

Lemma str_contains_app_r (c : ascii) (x y : string) :
  str_contains c y = true -> str_contains c (x +:+ y) = true.
Proof.
  intros Hy. induction x as [|a x IH]; [exact Hy|].
  cbn [String.append str_contains]. rewrite IH. apply orb_true_r.
Qed.

(** [s[:s.rfind(c)]] is what stands before the last [c]. *)
Lemma before_last_app (c : ascii) (x y : string) :
  str_contains c y = false ->
  before_last c (x +:+ String c y) = x.
Proof.
  intros Hy. induction x as [|a x IH].
  - cbn [String.append before_last]. now rewrite Hy.
  - cbn [String.append before_last].
    rewrite str_contains_app_r, IH; [reflexivity|].
    cbn [str_contains]. now rewrite Ascii.eqb_refl.
Qed.

End PathInitFacts.

(** The search path the constructor builds: nothing for an empty
    [gopath]; otherwise one directory per component of [gopath] between
    colons, in order, each of them the component followed by
    [/src/__python__] (without the first separator when the component is
    empty or already ends with one). *)
Theorem Path_init_dirs (isfile : string -> bool)
        (gopath modname script : string) :
  Z.of_nat (List.length (dirs (Path_init isfile gopath modname script)))
  = (if Py.truthy_str gopath then Py.count ":" gopath + 1 else 0)%Z
  /\ Forall2 (fun root d =>
                d = if negb (Py.truthy_str root) || OsPath.endswith_sep root
                    then root +:+ "src/__python__"
                    else root +:+ "/src/__python__")
             (if Py.truthy_str gopath then Py.split ":" gopath else [])
             (dirs (Path_init isfile gopath modname script)).
Proof.
  rewrite dirs_Path_init. destruct (Py.truthy_str gopath).
  - split.
    + rewrite length_map. apply (len_split ":" gopath).
    + apply Forall2_fmap_r, Forall_Forall2_diag, Forall_forall.
      intros root _. apply join_src_python.
  - split; [reflexivity | constructor].
Qed.

(** A module of the package being compiled is found under the name of
    the package. When the script compiled is [__init__.py] of the package
    [pkg], or the script of [pkg.leaf] and sits next to an [__init__.py],
    in a directory with a non-empty name, then a name that has a script
    in that directory resolves to [pkg], a dot and the name, with that
    script, whatever [gopath] holds. *)
Theorem Path_init_sibling (isfile : string -> bool)
        (gopath modname pkg leaf script dirname basename sibling found : string) :
  OsPath.split script = (dirname, basename) ->
  dirname <> EmptyString ->
  (basename = "__init__.py" /\ modname = pkg)
  \/ (basename <> "__init__.py"
      /\ isfile (OsPath.join dirname ["__init__.py"]) = true
      /\ modname = pkg +:+ "." +:+ leaf
      /\ str_contains "." leaf = false) ->
  _find_script isfile dirname sibling = Some found ->
  resolve_import isfile (Path_init isfile gopath modname script) sibling
  = (Some (pkg +:+ "." +:+ sibling), Some found).
Proof.
  intros Hsplit Hne Hcase Hfound.
  assert (Hp : package_dir (Path_init isfile gopath modname script) = Some dirname
               /\ package_name (Path_init isfile gopath modname script) = Some pkg).
  { unfold Path_init. rewrite Hsplit.
    destruct Hcase as [[-> ->]|(Hb & Hi & -> & Hleaf)].
    - now split.
    - apply String.eqb_neq in Hb. rewrite Hb, Hi.
      rewrite str_contains_app_r
        by (cbn [String.append str_contains]; now rewrite Ascii.eqb_refl).
      cbn [andb package_dir package_name]. split; [reflexivity|].
      f_equal. cbn [String.append]. now apply before_last_app. }
  destruct Hp as [Hd Hn].
  rewrite (resolve_import_in_package isfile _ sibling dirname found Hd Hne Hfound).
  now rewrite Hn.
Qed.

(** Compiling [pkg.sub] from [/src/pkg/sub.py]: [sub2] is [pkg.sub2]. *)
Lemma Path_init_sibling_witness :
  resolve_import example_isfile
    (Path_init example_isfile "/go" "pkg.sub" "/src/pkg/sub.py") "sub2"
  = (Some "pkg.sub2", Some "/src/pkg/sub2.py").
Proof.
  refine (Path_init_sibling example_isfile "/go" "pkg.sub" "pkg" "sub"
            "/src/pkg/sub.py" "/src/pkg" "sub.py" "sub2" "/src/pkg/sub2.py"
            eq_refl _ _ eq_refl).
  - discriminate.
  - right. split; [discriminate|]. split; [reflexivity|].
    split; reflexivity.
Defined.

(** A script named without a directory is never treated as part of a
    package by the resolver, even when the constructor has recorded a
    package name for it: the package directory is then the empty string,
    which the test of [resolve_import] takes for no directory, and names
    are resolved along the search path only. *)
Theorem Path_init_bare_script (isfile : string -> bool)
        (gopath modname script name : string) :
  str_contains "/" script = false ->
  resolve_import isfile (Path_init isfile gopath modname script) name
  = resolve_in_dirs isfile (dirs (Path_init isfile gopath modname script)) name.
Proof.
  intros Hbare.
  assert (Hsplit : OsPath.split script = (EmptyString, script)).
  { unfold OsPath.split. now rewrite (cut_last_sep_bare script Hbare). }
  unfold Path_init. rewrite Hsplit.
  destruct (String.eqb script _); [reflexivity|].
  destruct (_ && _); reflexivity.
Qed.

(** Compiling [pkg.sub] from [sub.py], in the directory of the package:
    the package name is recorded, and [sub2], a file of that directory,
    is not found. *)
Lemma Path_init_bare_script_witness :
  package_name (Path_init (files_system bare_files) "/go" "pkg.sub" "sub.py")
  = Some "pkg"
  /\ _find_script (files_system bare_files) "" "sub2" = Some "sub2.py"
  /\ resolve_import (files_system bare_files)
       (Path_init (files_system bare_files) "/go" "pkg.sub" "sub.py") "sub2"
     = (None, None).
Proof.
  split; [reflexivity|]. split; [reflexivity|].
  exact (Path_init_bare_script (files_system bare_files)
           "/go" "pkg.sub" "sub.py" "sub2" eq_refl).
Defined.

(* ================================================================== *)
(** * Writing inside an indented region *)
(* ================================================================== *)

Section IndentedWrites.

(** A depth of zero or less indents by nothing. *)
Lemma rendered_max (level : Z) (lines : list string) :
  rendered level lines = rendered (Z.max 0 level) lines.
Proof.
  induction lines as [|line lines IH]; [reflexivity|].
  cbn [rendered]. rewrite IH. f_equal.
  unfold indented_line, Py.str_mul. do 2 f_equal. lia.
Qed.

Lemma indent_block_write_spec (n : Z) (output : string) (w : Writer) :
  indent_block n (write output) w
  = (Return tt,
     append_out w (rendered (indent_level w + n) (kept_lines output))).
Proof.
  rewrite indent_block_unfold, write_spec.
  unfold append_out. cbn [out indent_level]. do 2 f_equal. lia.
Qed.

End IndentedWrites.

(** A write inside an [indent_block] region never raises, puts every
    non-empty line of its argument [n] levels deeper than the depth
    around the region (with no tab at all when that is zero or less) and
    leaves the depth as it was. Regions nest by adding their depths. *)
Theorem indent_block_write (n m : Z) (output : string) (w : Writer) :
  indent_block n (write output) w
  = (Return tt,
     append_out w (rendered (Z.max 0 (indent_level w + n)) (kept_lines output)))
  /\ indent_block n (indent_block m (write output)) w
     = indent_block (n + m) (write output) w.
Proof.
  split.
  - now rewrite indent_block_write_spec, rendered_max.
  - rewrite indent_block_unfold, !indent_block_write_spec.
    unfold append_out. cbn [out indent_level].
    replace (indent_level w + n + m)%Z with (indent_level w + (n + m))%Z by lia.
    do 2 f_equal. lia.
Qed.
